(** * mongolite: wire-protocol codec, framer and request dispatcher

    A shallow embedding of the Go packages [protocol] (the request decoder
    and its command decoders, the reply encoder, the request and response
    types, the error codes), [proxy] (the framer [bufferNextRequest] of the
    server) and [emulator] (the dispatcher [MongoEmulator] and its built-in
    commands), followed by the properties of the specification that concern
    them.

    Conventions.
    - Go's fixed-width integers are [Z] values; every conversion the source
      performs ([int32(x)], [uint32(x)], reading or writing a field) is
      written out with [to_int32], [to_uint32], [le_split] and [le_combine].
    - A [[]byte] is a [list byte]; a Go [string] is a [string] (its bytes).
    - An [io.Reader] over an in-memory slice is the list of bytes that are
      still unread; an [io.Writer] is the list of bytes written so far.
    - A function returning [(T, error)] returns [Res T]; a run-time panic is
      the third outcome [Panic].
    - A nil map reads like the empty map and a nil slice like the empty
      slice, as they do in Go. *)

From Stdlib Require Import ZArith Lia List String Ascii Bool.
From Stdlib.Strings Require Import Byte.
From coqutil Require Import Byte Word.LittleEndianList.
From stdpp Require Import gmap strings list.

Set Warnings "-register-all,-notation-for-abbreviation".

Local Open Scope string_scope.
Local Open Scope list_scope.
Local Open Scope Z_scope.

(** ** Errors *)

(** The error values the program creates or inspects.  [Wrapf msg e] is
    [xerrors.Errorf(msg + ": %w", e)]; [Errorf msg] is an [xerrors.Errorf]
    (or [xerrors.New]) without a wrapped error. *)
Inductive GoError : Type :=
| io_EOF
| io_ErrUnexpectedEOF
| ErrUnsupportedRequest
| ErrInvalidCursor
| ServerError (Code : Z) (Msg : string)
| Errorf (msg : string)
| Wrapf (msg : string) (e : GoError).

#[export] Instance GoError_eq_dec : EqDecision GoError.
Proof. solve_decision. Defined.

(** [xerrors.Is]: [target] is found somewhere on the [Unwrap] chain. *)
Fixpoint xerrors_Is (err target : GoError) : bool :=
  if decide (err = target) then true
  else match err with
       | Wrapf _ e => xerrors_Is e target
       | _ => false
       end.

(** Outcome of a fallible Go function. *)
Inductive Res (A : Type) : Type :=
| Ok (a : A)
| Err (e : GoError)
| Panic (msg : string).
Arguments Ok {A} a.
Arguments Err {A} e.
Arguments Panic {A} msg.

Definition res_bind {A B} (m : Res A) (k : A -> Res B) : Res B :=
  match m with
  | Ok a => k a
  | Err e => Err e
  | Panic s => Panic s
  end.

(** [wrap msg m]: [if err != nil { return nil, xerrors.Errorf(msg + ": %w", err) }]. *)
Definition wrap {A} (msg : string) (m : Res A) : Res A :=
  match m with
  | Ok a => Ok a
  | Err e => Err (Wrapf msg e)
  | Panic s => Panic s
  end.

(** [x ← m; k] and ['(x, y) ← m; k] run [m] and return early on an error or
    a panic. *)
#[export] Instance Res_bind : MBind Res := fun A B k m => res_bind m k.
#[export] Instance Res_ret : MRet Res := fun A a => Ok a.

Definition is_Ok {A} (m : Res A) : bool :=
  match m with Ok _ => true | _ => false end.

(** ** Integers and bytes *)

Definition to_uint32 (z : Z) : Z := z mod 2 ^ 32.
Definition to_int32 (z : Z) : Z := (z + 2 ^ 31) mod 2 ^ 32 - 2 ^ 31.
Definition to_int64 (z : Z) : Z := (z + 2 ^ 63) mod 2 ^ 64 - 2 ^ 63.

Definition int32_range (z : Z) : Prop := - 2 ^ 31 <= z < 2 ^ 31.

(** [fmt]'s [%d]. *)
Definition fmt_d (z : Z) : string :=
  DecimalString.NilZero.string_of_int (Z.to_int z).

(** A Go string made of the given bytes, and back. *)
Definition go_string (bs : list byte) : string := string_of_list_byte bs.
Definition go_bytes (s : string) : list byte := list_byte_of_string s.

(** ** Readers over a byte slice *)

(** A computation that reads from an [io.Reader]: it gets the unread bytes
    and returns its outcome with the bytes still unread afterwards (also
    when it fails: a later read continues from there). *)
Definition Rd (A : Type) : Type := list byte -> Res A * list byte.

Definition rd_bind {A B} (m : Rd A) (k : A -> Rd B) : Rd B :=
  fun r => match m r with
           | (Ok a, r') => k a r'
           | (Err e, r') => (Err e, r')
           | (Panic s, r') => (Panic s, r')
           end.

#[export] Instance Rd_bind : MBind Rd := fun A B k m => rd_bind m k.
#[export] Instance Rd_ret : MRet Rd := fun A a r => (Ok a, r).

(** Return an outcome without reading. *)
Definition lift {A} (m : Res A) : Rd A := fun r => (m, r).

(** [wrapRd msg m]: [if err != nil { return nil, xerrors.Errorf(msg + ": %w", err) }]. *)
Definition wrapRd {A} (msg : string) (m : Rd A) : Rd A :=
  fun r => let '(res, r') := m r in (wrap msg res, r').

(** [io.ReadFull] of [n > 0] bytes, as [binary.Read] uses it: [io.EOF] when
    nothing is left, [io.ErrUnexpectedEOF] when fewer than [n] bytes are
    (they are consumed). *)
Definition io_ReadFull (n : nat) : Rd (list byte) :=
  fun r => match r with
           | [] => (Err io_EOF, [])
           | _ => if (length r <? n)%nat then (Err io_ErrUnexpectedEOF, [])
                  else (Ok (take n r), drop n r)
           end.

(** One [Read] call into a buffer of [n > 0] bytes: what is there, up to
    [n] bytes, or [io.EOF] when nothing is left. *)
Definition Reader_Read (n : nat) : Rd (list byte) :=
  fun r => match r with
           | [] => (Err io_EOF, [])
           | _ => (Ok (take n r), drop n r)
           end.

(** [io.LimitReader(r, n)]: [m] reads from at most the next [n] bytes of
    the underlying reader, which advances by what [m] consumed. *)
Definition io_LimitReader {A} (n : Z) (m : Rd A) : Rd A :=
  fun r => let sec := take (Z.to_nat n) r in
           let '(res, sec') := m sec in
           (res, drop (length sec - length sec')%nat r).

Definition binary_Read_uint8 : Rd Z :=
  bs ← io_ReadFull 1; mret (le_combine bs).

Definition binary_Read_uint32 : Rd Z :=
  bs ← io_ReadFull 4; mret (le_combine bs).

Definition binary_Read_int32 : Rd Z :=
  bs ← io_ReadFull 4; mret (to_int32 (le_combine bs)).

Definition binary_Read_int64 : Rd Z :=
  bs ← io_ReadFull 8; mret (to_int64 (le_combine bs)).

(** [binary.Write] of a 32- or 64-bit integer, or of one byte. *)
Definition binary_Write32 (v : Z) : list byte := le_split 4 v.
Definition binary_Write64 (v : Z) : list byte := le_split 8 v.
Definition binary_Write8 (v : Z) : list byte := le_split 1 v.

(** ** Data model (package protocol: requests, responses, error codes) *)

(** The dynamic values a document holds: what mgo's [bson.Unmarshal] yields
    inside a [bson.D], and what the command handlers put in a reply. *)
Inductive Value : Type :=
| VFloat64 (bits : Z)
| VString (s : string)
| VDoc (d : list (string * Value))    (* bson.D *)
| VSlice (l : list Value)             (* []interface{} *)
| VBool (b : bool)
| VNil
| VInt (n : Z)                        (* int *)
| VInt64 (n : Z)                      (* int64 *)
| VTime (t : Z)                       (* time.Time *)
| VIntSlice (l : list Z)              (* []int *)
| VStringSlice (l : list string)      (* []string *)
| VErrorCode (c : Z)                  (* protocol.ErrorCode *)
| VOther (kind : Z) (raw : list byte).

(** [bson.D]: the fields in wire order; [bson.M]: an unordered map. *)
Notation D := (list (string * Value)).
Notation M := (gmap string Value).

(** [bson.D.Map]: a later field of the same name replaces an earlier one. *)
Definition D_Map (d : D) : M :=
  foldl (fun m item => <[item.1 := item.2]> m) ∅ d.

Inductive RequestType : Type :=
| RequestTypeUpdate
| RequestTypeInsert
| RequestTypeGetMore
| RequestTypeDelete
| RequestTypeKillCursors
| RequestTypeQuery
| RequestTypeCommand
| RequestTypeFindAndUpdate
| RequestTypeFindAndDelete
| RequestTypeUnknown.

#[export] Instance RequestType_eq_dec : EqDecision RequestType.
Proof. solve_decision. Defined.

(** The string each [RequestType] constant stands for. *)
Definition RequestType_string (t : RequestType) : string :=
  match t with
  | RequestTypeUpdate => "update"
  | RequestTypeInsert => "insert"
  | RequestTypeGetMore => "getMore"
  | RequestTypeDelete => "delete"
  | RequestTypeKillCursors => "killCursors"
  | RequestTypeQuery => "query"
  | RequestTypeCommand => "command"
  | RequestTypeFindAndUpdate => "findAndUpdate"
  | RequestTypeFindAndDelete => "findAndDelete"
  | RequestTypeUnknown => "unknown"
  end.

Inductive ReplyType : Type :=
| ReplyTypeNone
| ReplyTypeOpReply
| ReplyTypeOpMsg.

#[export] Instance ReplyType_eq_dec : EqDecision ReplyType.
Proof. solve_decision. Defined.

Record RPCHeader : Type := mkRPCHeader {
  MessageLength : Z;
  RequestID : Z;
  ResponseTo : Z;
  Opcode : Z }.

Definition sizeOfRPCHeader : Z := 16.

Definition PayloadLength (h : RPCHeader) : Z := MessageLength h - sizeOfRPCHeader.

Record RequestInfo : Type := mkRequestInfo {
  Header : RPCHeader;
  reqType : RequestType;
  replyType : ReplyType }.

Record NamespacedCollection : Type := mkNamespacedCollection {
  Database : string;
  Collection : string }.

Definition UpdateFlagUpsert : Z := 1.
Definition UpdateFlagMulti : Z := 2.
Definition InsertFlagContinueOnError : Z := 1.

Record UpdateTarget : Type := mkUpdateTarget {
  ut_Selector : M;
  ut_Update : M;
  ut_ArrayFilters : list M;
  ut_Flags : Z }.

Record DeleteTarget : Type := mkDeleteTarget {
  dt_Selector : M;
  dt_Limit : Z }.

Record CommandRequestT : Type := mkCommandRequest {
  cmd_Info : RequestInfo;
  cmd_Collection : NamespacedCollection;
  Command : string;
  Args : M }.

Inductive Request : Type :=
| UpdateRequest (info : RequestInfo) (col : NamespacedCollection)
    (Updates : list UpdateTarget)
| InsertRequest (info : RequestInfo) (col : NamespacedCollection)
    (Flags : Z) (Inserts : list M)
| GetMoreRequest (info : RequestInfo) (col : NamespacedCollection)
    (NumToReturn CursorID : Z)
| DeleteRequest (info : RequestInfo) (col : NamespacedCollection)
    (Deletes : list DeleteTarget)
| KillCursorsRequest (info : RequestInfo) (CursorIDs : list Z)
| QueryRequest (info : RequestInfo) (col : NamespacedCollection)
    (Flags NumToSkip NumToReturn : Z) (Query Sort FieldSelector : M)
| FindAndUpdateRequest (info : RequestInfo) (col : NamespacedCollection)
    (Query Sort Update : M) (ArrayFilters : list M)
    (Upsert ReturnUpdatedDoc : bool) (FieldSelector : M)
| FindAndDeleteRequest (info : RequestInfo) (col : NamespacedCollection)
    (Query Sort FieldSelector : M)
| CommandRequest (c : CommandRequestT)
| UnknownRequest (info : RequestInfo) (Payload : list byte).

(** The embedded [RequestInfo] every request variant carries. *)
Definition Info (req : Request) : RequestInfo :=
  match req with
  | UpdateRequest i _ _ | InsertRequest i _ _ _ | GetMoreRequest i _ _ _
  | DeleteRequest i _ _ | KillCursorsRequest i _
  | QueryRequest i _ _ _ _ _ _ _ | FindAndUpdateRequest i _ _ _ _ _ _ _ _
  | FindAndDeleteRequest i _ _ _ _ | UnknownRequest i _ => i
  | CommandRequest c => cmd_Info c
  end.

Definition GetType (req : Request) : RequestType := reqType (Info req).
Definition GetReplyType (req : Request) : ReplyType := replyType (Info req).
Definition Request_RequestID (req : Request) : Z := RequestID (Header (Info req)).
Definition Request_Opcode (req : Request) : Z := Opcode (Header (Info req)).

Definition ResponseFlagCursorNotFound : Z := 1.
Definition ResponseFlagQueryError : Z := 2.

Record Response : Type := mkResponse {
  resp_Flags : Z;
  resp_CursorID : Z;
  resp_StartingFrom : Z;
  Documents : list M }.

(** [protocol.Response{}]. *)
Definition Response_zero : Response := mkResponse 0 0 0 [].

Definition CodeUnauthorized : Z := 13.
Definition CodeNoReplicationEnabled : Z := 76.

Definition ErrorCode_String (ec : Z) : string :=
  if decide (ec = CodeUnauthorized) then "Unauthorized"
  else if decide (ec = CodeNoReplicationEnabled) then "NoReplicationEnabled"
  else "Unknown".

(** [ServerErrorf] with a format that has no verbs. *)
Definition ServerErrorf (code : Z) (format : string) : GoError :=
  ServerError code format.

(** [error.Error()]. *)
Fixpoint Error (e : GoError) : string :=
  match e with
  | io_EOF => "EOF"
  | io_ErrUnexpectedEOF => "unexpected EOF"
  | ErrUnsupportedRequest => "unsupported request"
  | ErrInvalidCursor => "invalid cursor"
  | ServerError code msg =>
      ErrorCode_String code +:+ " (code " +:+ fmt_d code +:+ "): " +:+ msg
  | Errorf msg => msg
  | Wrapf msg e' => msg +:+ ": " +:+ Error e'
  end.

(** ** Library functions the code calls

    [bson.Unmarshal] into a [bson.D], [bson.Marshal] of a [bson.M],
    [fmt]'s [%q] and [strings.ToUpper] belong to mgo and to Go's standard
    library.  The development is parametric in them; [model_libs] near the
    end of the file is one instance, used to run the code on examples. *)
Class GoLibs : Type := {
  bson_Unmarshal : list byte -> Res D;
  bson_Marshal : M -> Res (list byte);
  fmt_q : string -> string;
  strings_ToUpper : string -> string }.

(** ** Strings *)

(** [strings.SplitN(s, ".", 2)]: [Some (a, b)] for the two tokens around the
    first dot, [None] when there is no dot (a single token). *)
Fixpoint strings_SplitN_dot (s : string) : option (string * string) :=
  match s with
  | EmptyString => None
  | String c s' =>
      if Ascii.eqb c "." then Some (EmptyString, s')
      else match strings_SplitN_dot s' with
           | Some (a, b) => Some (String c a, b)
           | None => None
           end
  end.

(** [strings.ContainsRune(s, '.')]. *)
Fixpoint strings_ContainsRune_dot (s : string) : bool :=
  match s with
  | EmptyString => false
  | String c s' => Ascii.eqb c "." || strings_ContainsRune_dot s'
  end.

(** Run [f] on every element with its index, stopping at the first error. *)
Fixpoint for_each {A B} (f : Z -> A -> Res B) (i : Z) (l : list A) : Res (list B) :=
  match l with
  | [] => Ok []
  | a :: l' => b ← f i a; bs ← for_each f (i + 1) l'; Ok (b :: bs)
  end.

(** ** Decoding requests (package protocol) *)

(** A document-sequence section of an OP_MSG: the argument it replaces and
    the documents to put there. *)
Record docSeqSection : Type := mkDocSeqSection {
  path : string;
  docList : list Value }.

(** The type of a command decoder: it takes the header, the target
    collection, the command arguments and the reply envelope to ask for. *)
Notation cmdDecoderFn :=
  (RPCHeader -> NamespacedCollection -> M -> ReplyType -> Res Request).

Section Decode.
Context `{GoLibs}.

(** [decodeCString]: bytes up to a zero byte, at most [maxLen] of them. *)
Fixpoint decodeCString_loop (maxLen totalRead : Z) (buf : list byte)
    (r : list byte) {struct r} : Res string * list byte :=
  if totalRead <? maxLen then
    match r with
    | [] => (Err (Wrapf "unable to read cstring from stream" io_EOF), [])
    | nextByte :: r' =>
        if Byte.eqb nextByte x00 then (Ok (go_string buf), r')
        else decodeCString_loop maxLen (totalRead + 1) (buf ++ [nextByte]) r'
    end
  else (Err (Errorf "unable to read cstring from stream: exceeded max allowed string length without locating null terminator"), r).

Definition decodeCString (maxLen : Z) : Rd string :=
  decodeCString_loop maxLen 0 [].

Definition decodeNamespacedCollection (maxLen : Z) : Rd NamespacedCollection :=
  cstring ← wrapRd "unable to decode namespaced collection" (decodeCString maxLen);
  match strings_SplitN_dot cstring with
  | None =>
      lift (Err (Errorf ("unable to decode namespaced collection: malformed namespace "
                         +:+ fmt_q cstring)))
  | Some (db, col) =>
      if decide (db = "") then
        lift (Err (Errorf ("unable to decode namespaced collection: malformed namespace "
                           +:+ fmt_q cstring +:+ "; empty database name")))
      else if decide (col = "") then
        lift (Err (Errorf ("unable to decode namespaced collection: malformed namespace "
                           +:+ fmt_q cstring +:+ "; empty collection name")))
      else mret (mkNamespacedCollection db col)
  end.

Definition decodeBSONDocument : Rd D :=
  docSize ← wrapRd "unable to read BSON doc from stream" binary_Read_int32;
  if docSize <? 4 then
    lift (Err (Errorf ("unable to read BSON doc from stream: invalid doc size "
                       +:+ fmt_d docSize)))
  else
    let rawDocSize := docSize - 4 in
    if rawDocSize =? 0 then mret []
    else
      data ← wrapRd "unable to read BSON doc from stream"
                (Reader_Read (Z.to_nat rawDocSize));
      if negb (Z.of_nat (length data) =? rawDocSize) then
        lift (Err (Errorf ("read partial BSON doc from stream: expected to read "
                           +:+ fmt_d rawDocSize +:+ " bytes; got "
                           +:+ fmt_d (Z.of_nat (length data)))))
      else
        lift (wrap "unable to unmarshal BSON doc"
                (bson_Unmarshal (le_split 4 (to_uint32 docSize) ++ data))).

Definition decodeHeader : Rd RPCHeader :=
  messageLength ← wrapRd "unable to read message length field" binary_Read_int32;
  requestID ← wrapRd "unable to read request ID field" binary_Read_int32;
  responseTo ← wrapRd "unable to read response to field" binary_Read_int32;
  opcode ← wrapRd "unable to read opcode field" binary_Read_int32;
  mret (mkRPCHeader messageLength requestID responseTo opcode).

Definition decodeUpdateOp (hdr : RPCHeader) : Rd Request :=
  _ ← wrapRd "unable to reserved reserved field for update op" binary_Read_int32;
  nsCol ← wrapRd "unable to read namespaced collection for update op"
            (decodeNamespacedCollection (PayloadLength hdr - 4));
  flags ← wrapRd "unable to read flags for update op" binary_Read_uint32;
  selectorDoc ← wrapRd "unable to read selector doc for update op" decodeBSONDocument;
  updateDoc ← wrapRd "unable to read update doc for update op" decodeBSONDocument;
  mret (UpdateRequest (mkRequestInfo hdr RequestTypeUpdate ReplyTypeNone) nsCol
          [mkUpdateTarget (D_Map selectorDoc) (D_Map updateDoc) [] flags]).

(** The [for] loop of [decodeInsertOp] and of a document-sequence section:
    documents are read until an error that wraps [io.EOF]; any other error
    is returned under [msg docIdx].  [fuel] bounds the number of rounds;
    [None] means it ran out. *)
Fixpoint readDocsUntilEOF (fuel : nat) (msg : Z -> string) (docIdx : Z)
    (docs : list D) (r : list byte) : option (Res (list D) * list byte) :=
  match fuel with
  | O => None
  | S fuel' =>
      match decodeBSONDocument r with
      | (Ok doc, r') => readDocsUntilEOF fuel' msg (docIdx + 1) (docs ++ [doc]) r'
      | (Err err, r') =>
          if xerrors_Is err io_EOF then Some (Ok docs, r')
          else Some (Err (Wrapf (msg docIdx) err), r')
      | (Panic s, r') => Some (Panic s, r')
      end
  end.

(** Every document read consumes at least four bytes, so one round more
    than there are unread bytes is enough ([readDocsUntilEOF_fuel] below):
    the last branch is never taken. *)
Definition readDocs (msg : Z -> string) : Rd (list D) :=
  fun r => match readDocsUntilEOF (S (length r)) msg 0 [] r with
           | Some res => res
           | None => (Panic "unreachable", r)
           end.

Definition decodeInsertOp (hdr : RPCHeader) : Rd Request :=
  flags ← wrapRd "unable to read flags for insert op" binary_Read_uint32;
  nsCol ← wrapRd "unable to read namespaced collection for insert op"
            (decodeNamespacedCollection (PayloadLength hdr - 4));
  docs ← readDocs (fun _ => "unable to read doc list for insert op");
  mret (InsertRequest (mkRequestInfo hdr RequestTypeInsert ReplyTypeNone) nsCol
          flags (D_Map <$> docs)).

Definition decodeGetMoreOp (hdr : RPCHeader) : Rd Request :=
  _ ← wrapRd "unable to reserved reserved field for getMore op" binary_Read_int32;
  nsCol ← wrapRd "unable to read namespaced collection for getMore op"
            (decodeNamespacedCollection (PayloadLength hdr - 4));
  numToReturn ← wrapRd "unable to read number to return for getMore op" binary_Read_int32;
  cursorID ← wrapRd "unable to read cursor ID for getMore op" binary_Read_int64;
  mret (GetMoreRequest (mkRequestInfo hdr RequestTypeGetMore ReplyTypeOpReply) nsCol
          numToReturn cursorID).

Definition decodeDeleteOp (hdr : RPCHeader) : Rd Request :=
  _ ← wrapRd "unable to reserved reserved field for delete op" binary_Read_int32;
  nsCol ← wrapRd "unable to read namespaced collection for delete op"
            (decodeNamespacedCollection (PayloadLength hdr - 4));
  flags ← wrapRd "unable to read flags for delete op" binary_Read_int32;
  let limit := if Z.land flags 1 =? 1 then 1 else 0 in
  queryDoc ← wrapRd "unable to read selector doc for delete op" decodeBSONDocument;
  mret (DeleteRequest (mkRequestInfo hdr RequestTypeDelete ReplyTypeNone) nsCol
          [mkDeleteTarget (D_Map queryDoc) limit]).

(** [make([]int64, n)]: a negative length panics. *)
Definition make_slice (n : Z) : Res nat :=
  if n <? 0 then Panic "runtime error: makeslice: len out of range"
  else Ok (Z.to_nat n).

(** The loop of [decodeKillCursorsOp] filling [cursorIDs[i]], [n] more ids
    to go. *)
Fixpoint readCursorIDs (n : nat) (i : Z) : Rd (list Z) :=
  match n with
  | O => mret []
  | S n' =>
      id ← wrapRd ("unable to read cursor ID at index " +:+ fmt_d i
                   +:+ " for killCurosrs op") binary_Read_int64;
      ids ← readCursorIDs n' (i + 1);
      mret (id :: ids)
  end.

Definition decodeKillCursorsOp (hdr : RPCHeader) : Rd Request :=
  _ ← wrapRd "unable to reserved reserved field for killCursors op" binary_Read_int32;
  numCursors ← wrapRd "unable to read number of cursor IDs for killCursors op"
                 binary_Read_int32;
  len ← lift (make_slice numCursors);
  cursorIDs ← readCursorIDs len 0;
  mret (KillCursorsRequest (mkRequestInfo hdr RequestTypeKillCursors ReplyTypeNone)
          cursorIDs).

(** [ioutil.ReadAll]. *)
Definition decodeUnknownOp (hdr : RPCHeader) : Rd Request :=
  fun r => (Ok (UnknownRequest (mkRequestInfo hdr RequestTypeUnknown ReplyTypeNone) r), []).

(** *** Command decoders

    Each decodes the arguments of one command into the request of its
    semantic type; the reply envelope is the fourth parameter, as
    [decodeQueryOp] and [decodeMsgOp] pass it. *)

Definition decodeInsertCommand : cmdDecoderFn :=
  fun hdr nsCol cmdArgs replyType =>
  match cmdArgs !! "documents" with
  | Some (VSlice docList) =>
      docs ← for_each (fun i d =>
                match d with
                | VDoc doc => Ok (D_Map doc)
                | _ => Err (Errorf ("malformed insert command in query doc: invalid doc at index "
                                    +:+ fmt_d i))
                end) 0 docList;
      let flags := match cmdArgs !! "ordered" with
                   | Some (VBool false) => Z.lor 0 InsertFlagContinueOnError
                   | _ => 0
                   end in
      Ok (InsertRequest (mkRequestInfo hdr RequestTypeInsert replyType) nsCol flags docs)
  | _ => Err (Errorf "malformed insert command in query doc: invalid doc list")
  end.

(** [x.(bson.D)] followed by [.Map()], or the nil map. *)
Definition doc_arg (v : option Value) : M :=
  match v with
  | Some (VDoc d) => D_Map d
  | _ => ∅
  end.

(** [m[key] == true], also the test [v, valid := m[key].(bool); valid && v]. *)
Definition is_true (v : option Value) : bool :=
  match v with
  | Some (VBool true) => true
  | _ => false
  end.

(** The array filters of [cmdArgs]: every element must be a document. *)
Definition arrayFilters_arg (msg : Z -> string) (cmdArgs : M) : Res (list M) :=
  match cmdArgs !! "arrayFilters" with
  | Some (VSlice arrayFilterList) =>
      for_each (fun j fdoc =>
        match fdoc with
        | VDoc arrayFilter => Ok (D_Map arrayFilter)
        | _ => Err (Errorf (msg j))
        end) 0 arrayFilterList
  | _ => Ok []
  end.

Definition decodeUpdateCommand : cmdDecoderFn :=
  fun hdr nsCol cmdArgs replyType =>
  match cmdArgs !! "updates" with
  | Some (VSlice updatesDoc) =>
      updateTargets ← for_each (fun i u =>
        match u with
        | VDoc updateDoc =>
            let updateDocMap := D_Map updateDoc in
            let flags0 := if is_true (updateDocMap !! "upsert")
                          then Z.lor 0 UpdateFlagUpsert else 0 in
            let flags := if is_true (updateDocMap !! "multi")
                         then Z.lor flags0 UpdateFlagMulti else flags0 in
            filters ← arrayFilters_arg (fun j =>
                        "malformed update command in query doc: invalid update doc at index "
                        +:+ fmt_d i +:+ ": invalid array filter at index " +:+ fmt_d j)
                        cmdArgs;
            Ok (mkUpdateTarget (doc_arg (updateDocMap !! "q"))
                  (doc_arg (updateDocMap !! "u")) filters flags)
        | _ => Err (Errorf ("malformed update command in query doc: invalid update doc at index "
                            +:+ fmt_d i))
        end) 0 updatesDoc;
      Ok (UpdateRequest (mkRequestInfo hdr RequestTypeUpdate replyType) nsCol updateTargets)
  | _ => Err (Errorf "malformed update command in query doc: invalid updates list")
  end.

Definition decodeDeleteCommand : cmdDecoderFn :=
  fun hdr nsCol cmdArgs replyType =>
  match cmdArgs !! "deletes" with
  | Some (VSlice deletesDoc) =>
      deleteTargets ← for_each (fun i d =>
        match d with
        | VDoc deleteDoc =>
            let deleteDocMap := D_Map deleteDoc in
            let limit := match deleteDocMap !! "limit" with
                         | Some (VInt limit) => limit
                         | _ => 0
                         end in
            Ok (mkDeleteTarget (doc_arg (deleteDocMap !! "q")) limit)
        | _ => Err (Errorf ("malformed delete command in query doc: invalid delete doc at index "
                            +:+ fmt_d i))
        end) 0 deletesDoc;
      Ok (DeleteRequest (mkRequestInfo hdr RequestTypeDelete replyType) nsCol deleteTargets)
  | _ => Err (Errorf "malformed delete command in query doc: invalid deletes list")
  end.

Definition decodeFindCommand : cmdDecoderFn :=
  fun hdr nsCol cmdArgs replyType =>
  let numToSkip := match cmdArgs !! "skip" with
                   | Some (VInt skip) => to_int32 skip
                   | _ => 0
                   end in
  let numToReturn := match cmdArgs !! "limit" with
                     | Some (VInt limit) => to_int32 limit
                     | _ => 0
                     end in
  Ok (QueryRequest (mkRequestInfo hdr RequestTypeQuery replyType) nsCol 0
        numToSkip numToReturn
        (doc_arg (cmdArgs !! "filter")) (doc_arg (cmdArgs !! "sort"))
        (doc_arg (cmdArgs !! "projection"))).

Definition decodeFindAndModifyCommand : cmdDecoderFn :=
  fun hdr nsCol cmdArgs replyType =>
  let query := doc_arg (cmdArgs !! "query") in
  let sort := doc_arg (cmdArgs !! "sort") in
  let fieldSelector := doc_arg (cmdArgs !! "fields") in
  if is_true (cmdArgs !! "remove") then
    Ok (FindAndDeleteRequest (mkRequestInfo hdr RequestTypeFindAndDelete replyType)
          nsCol query sort fieldSelector)
  else
    match cmdArgs !! "update" with
    | Some (VDoc updateDoc) =>
        arrayFilters ← arrayFilters_arg (fun j =>
                         "malformed findAndUpdate command: invalid array filter at index "
                         +:+ fmt_d j) cmdArgs;
        Ok (FindAndUpdateRequest (mkRequestInfo hdr RequestTypeFindAndUpdate replyType)
              nsCol query sort (D_Map updateDoc) arrayFilters
              (is_true (cmdArgs !! "upsert")) (is_true (cmdArgs !! "new"))
              fieldSelector)
    | _ => Err (Errorf "findAndModify command missing update document in arg list")
    end.

Definition cmdDecoder : gmap string cmdDecoderFn :=
  list_to_map [("insert", decodeInsertCommand);
               ("update", decodeUpdateCommand);
               ("delete", decodeDeleteCommand);
               ("find", decodeFindCommand);
               ("findAndModify", decodeFindAndModifyCommand)].

(** [nsCol.Collection = colName] when the first field's value is a string. *)
Definition override_collection (nsCol : NamespacedCollection) (v : Value)
    : NamespacedCollection :=
  match v with
  | VString colName => mkNamespacedCollection (Database nsCol) colName
  | _ => nsCol
  end.

Definition decodeQueryOp (hdr : RPCHeader) : Rd Request :=
  flags ← wrapRd "unable to read flags for query op" binary_Read_uint32;
  nsCol ← wrapRd "unable to read namespaced collection for query op"
            (decodeNamespacedCollection (PayloadLength hdr - 4));
  numToSkip ← wrapRd "unable to read number of docs to skip for query op" binary_Read_int32;
  numToReturn ← wrapRd "unable to read number of docs to return for query op" binary_Read_int32;
  queryDoc ← wrapRd "unable to read query doc for query op" decodeBSONDocument;
  fieldSelectorDoc ←
    (fun r => match decodeBSONDocument r with
              | (Err err, r') =>
                  if negb (xerrors_Is err io_EOF) then
                    (Err (Wrapf "unable to read field selector doc for query op" err), r')
                  else (Ok [], r')
              | other => other
              end) : Rd D;
  if negb (String.eqb (Collection nsCol) "$cmd") then
    mret (QueryRequest (mkRequestInfo hdr RequestTypeQuery ReplyTypeOpReply) nsCol
            flags numToSkip numToReturn (D_Map queryDoc) ∅ (D_Map fieldSelectorDoc))
  else
    match queryDoc with
    | [] => lift (Err (Errorf "malformed query command"))
    | (cmdName, value) :: _ =>
        let nsCol := override_collection nsCol value in
        let cmdArgs := delete cmdName (D_Map queryDoc) in
        match cmdDecoder !! cmdName with
        | Some dec => lift (dec hdr nsCol cmdArgs ReplyTypeOpReply)
        | None =>
            mret (CommandRequest
                    (mkCommandRequest (mkRequestInfo hdr RequestTypeCommand ReplyTypeOpReply)
                       nsCol cmdName cmdArgs))
        end
    end.

(** The section loop of [decodeMsgOp]: it ends only when no byte is left
    for the next kind byte.  [fuel] bounds the number of rounds; [None]
    means it ran out. *)
Fixpoint readSections (fuel : nat) (section : Z) (bodySection : D)
    (docSeqSections : list docSeqSection) (r : list byte)
    : option (Res (D * list docSeqSection) * list byte) :=
  match fuel with
  | O => None
  | S fuel' =>
      match binary_Read_uint8 r with
      | (Err err, r') =>
          if decide (err = io_EOF) then Some (Ok (bodySection, docSeqSections), r')
          else Some (Err (Wrapf ("unable to read kind for section at index "
                                 +:+ fmt_d section +:+ " in msg op") err), r')
      | (Panic s, r') => Some (Panic s, r')
      | (Ok kind, r') =>
          if kind =? 0 then
            match wrapRd ("unable to read body for section of type " +:+ fmt_d kind
                          +:+ " at index " +:+ fmt_d section +:+ " in msg op")
                    decodeBSONDocument r' with
            | (Ok [], r'') =>
                Some (Err (Errorf ("malformed command in section of type " +:+ fmt_d kind
                                   +:+ " at index " +:+ fmt_d section +:+ " in msg op")),
                      r'')
            | (Ok cmdDoc, r'') =>
                readSections fuel' (section + 1) cmdDoc docSeqSections r''
            | (Err e, r'') => Some (Err e, r'')
            | (Panic s, r'') => Some (Panic s, r'')
            end
          else if kind =? 1 then
            match (size ← wrapRd ("unable to read size for section of type " +:+ fmt_d kind
                                  +:+ " at index " +:+ fmt_d section +:+ " in msg op")
                            binary_Read_uint32;
                   io_LimitReader (size - 4)
                     (path ← wrapRd ("unable to parse override path in section of type "
                                     +:+ fmt_d kind +:+ " at index " +:+ fmt_d section
                                     +:+ " in msg op") (decodeCString size);
                      docs ← readDocs (fun docIdx =>
                                "unable to parse doc at index " +:+ fmt_d docIdx
                                +:+ " in section of type " +:+ fmt_d kind
                                +:+ " at index " +:+ fmt_d section +:+ " in msg op");
                      mret (mkDocSeqSection path (VDoc <$> docs)))) r' with
            | (Ok sec, r'') =>
                readSections fuel' (section + 1) bodySection (docSeqSections ++ [sec]) r''
            | (Err e, r'') => Some (Err e, r'')
            | (Panic s, r'') => Some (Panic s, r'')
            end
          else
            Some (Err (Errorf ("unknown type " +:+ fmt_d kind +:+ " for section at index "
                               +:+ fmt_d section +:+ " in msg op")), r')
      end
  end.

(** Every section consumes its kind byte, so one round more than there are
    unread bytes is enough ([readSections_fuel] below): the last branch is
    never taken. *)
Definition readAllSections : Rd (D * list docSeqSection) :=
  fun r => match readSections (S (length r)) 0 [] [] r with
           | Some res => res
           | None => (Panic "unreachable", r)
           end.

Definition decodeMsgOp (hdr : RPCHeader) : Rd Request :=
  flags ← wrapRd "unable to read flags for msg op" binary_Read_uint32;
  sections ← readAllSections;
  let '(bodySection, docSeqSections) := sections in
  _ ← (if Z.land flags 1 =? 1
       then wrapRd "unable to read CRC32 value for msg op" binary_Read_uint32
       else mret 0);
  match bodySection with
  | [] => lift (Err (Errorf "unable to parse msg op: no type 0 section present"))
  | (cmdName, value) :: _ =>
      if (1 <? length docSeqSections)%nat then
        lift (Err (Errorf "unable to parse msg op: parser only supports up to one section of type 1"))
      else
        let nsCol := override_collection (mkNamespacedCollection "" "") value in
        let cmdArgs := delete cmdName (D_Map bodySection) in
        let '(nsCol, cmdArgs) :=
          match cmdArgs !! "$db" with
          | Some (VString dbName) =>
              if negb (String.eqb dbName "")
              then (mkNamespacedCollection dbName (Collection nsCol), delete "$db" cmdArgs)
              else (nsCol, cmdArgs)
          | _ => (nsCol, cmdArgs)
          end in
        injected ← lift (match docSeqSections with
                         | [sec] =>
                             if strings_ContainsRune_dot (path sec) then
                               Err (Errorf "unable to parse msg op: parser does not support nested paths for type 1 payloads")
                             else Ok (<[path sec := VSlice (docList sec)]> cmdArgs)
                         | _ => Ok cmdArgs
                         end);
        match cmdDecoder !! cmdName with
        | Some dec =>
            lift (wrap ("unable to parse command " +:+ fmt_q cmdName +:+ " in msg op")
                    (dec hdr nsCol injected ReplyTypeOpMsg))
        | None =>
            mret (CommandRequest
                    (mkCommandRequest (mkRequestInfo hdr RequestTypeCommand ReplyTypeOpMsg)
                       nsCol cmdName injected))
        end
  end.

Definition opDecoder : gmap Z (RPCHeader -> Rd Request) :=
  list_to_map [(2001, decodeUpdateOp);
               (2002, decodeInsertOp);
               (2004, decodeQueryOp);
               (2005, decodeGetMoreOp);
               (2006, decodeDeleteOp);
               (2007, decodeKillCursorsOp);
               (2013, decodeMsgOp)].

(** Decode a request sent in by a mongo client. *)
Definition Decode (req : list byte) : Res Request :=
  fst ((hdr ← wrapRd "unable to decode request header" decodeHeader;
        default decodeUnknownOp (opDecoder !! Opcode hdr) hdr) req).

End Decode.

(** The request types a command decoder produces for a command name. *)
Definition semantic_types (cmdName : string) : list RequestType :=
  if decide (cmdName = "insert") then [RequestTypeInsert]
  else if decide (cmdName = "update") then [RequestTypeUpdate]
  else if decide (cmdName = "delete") then [RequestTypeDelete]
  else if decide (cmdName = "find") then [RequestTypeQuery]
  else if decide (cmdName = "findAndModify")
       then [RequestTypeFindAndUpdate; RequestTypeFindAndDelete]
  else [].

(** ** Encoding replies (package protocol) *)

Section Encode.
Context `{GoLibs}.

(** The helpers below write into the local [bytes.Buffer] of [Encode]: they
    take its contents and return the contents afterwards. *)
Definition writeHeaderTo (buf : list byte) (hdr : RPCHeader) : Res (list byte) :=
  Ok (buf ++ binary_Write32 (MessageLength hdr)
          ++ binary_Write32 (RequestID hdr)
          ++ binary_Write32 (ResponseTo hdr)
          ++ binary_Write32 (Opcode hdr)).

(** The loop serializing the documents of a reply.  On a marshal failure the
    source formats the writer, not the error, under [%w]: the error returned
    wraps nothing, and the rendering of the writer that ends its message is
    left out here. *)
Fixpoint writeDocuments (buf : list byte) (docIndex : Z) (docs : list M)
    : Res (list byte) :=
  match docs with
  | [] => Ok buf
  | doc :: docs' =>
      match bson_Marshal doc with
      | Ok docData => writeDocuments (buf ++ docData) (docIndex + 1) docs'
      | Err _ => Err (Errorf ("unable to marshal reply doc at index " +:+ fmt_d docIndex))
      | Panic s => Panic s
      end
  end.

(** The legacy OP_REPLY format. *)
Definition writeOpReplyTo (buf : list byte) (r : Response) : Res (list byte) :=
  let buf := buf ++ binary_Write32 (resp_Flags r) in
  let buf := buf ++ binary_Write64 (resp_CursorID r) in
  let buf := buf ++ binary_Write32 (resp_StartingFrom r) in
  let docCount := to_int32 (Z.of_nat (length (Documents r))) in
  let buf := buf ++ binary_Write32 docCount in
  writeDocuments buf 0 (Documents r).

(** The OP_MSG format: flag bits, then one body section. *)
Definition writeOpMsgTo (buf : list byte) (r : Response) : Res (list byte) :=
  let flags := 0 in
  let buf := buf ++ binary_Write32 flags in
  if (1 <? length (Documents r))%nat then
    Err (Errorf "OP_MSG payloads with multiple documents are not supported")
  else
    let kind := 0 in
    let buf := buf ++ binary_Write8 kind in
    writeDocuments buf 0 (Documents r).

(** [binary.LittleEndian.PutUint32(b[0:4], v)]. *)
Definition PutUint32 (b : list byte) (v : Z) : list byte :=
  le_split 4 v ++ drop 4 b.

(** Encode a response for the specified request ID and write it to [w].
    The result is the writer afterwards and the error returned; the writer
    accepts every write. *)
Definition Encode (w : list byte) (r : Response) (reqID : Z) (replyType : ReplyType)
    : list byte * Res unit :=
  let hdr := mkRPCHeader 0 0 reqID 0 in
  match replyType with
  | ReplyTypeNone => (w, Ok tt)
  | _ =>
      let '(hdr, encodeFn) :=
        match replyType with
        | ReplyTypeOpMsg =>
            (mkRPCHeader (MessageLength hdr) (RequestID hdr) (ResponseTo hdr) 2013,
             writeOpMsgTo)
        | _ =>
            (mkRPCHeader (MessageLength hdr) (RequestID hdr) (ResponseTo hdr) 1,
             writeOpReplyTo)
        end in
      match (buf ← wrap "unable to serialize reply header" (writeHeaderTo [] hdr);
             wrap "unable to serialize reply body" (encodeFn buf r)) with
      | Ok resData =>
          let resData := PutUint32 resData (to_uint32 (Z.of_nat (length resData))) in
          (w ++ resData, Ok tt)
      | Err e => (w, Err e)
      | Panic s => (w, Panic s)
      end
  end.

End Encode.

(** The opcode of the reply each envelope asks for. *)
Definition env_opcode (env : ReplyType) : Z :=
  match env with
  | ReplyTypeOpMsg => 2013
  | _ => 1
  end.

(** ** Framing (package proxy) *)

(** [io.CopyN(b, r, n)]: append the next [n] bytes of the stream to [b];
    [io.EOF] when the stream ends before that. *)
Definition io_CopyN (b : list byte) (n : Z) : Rd (list byte * Z) :=
  fun r => let chunk := take (Z.to_nat n) r in
           let written := Z.of_nat (length chunk) in
           if written =? n then (Ok (b ++ chunk, written), drop (Z.to_nat n) r)
           else (Err io_EOF, drop (Z.to_nat n) r).

(** Read the next request of the stream into the buffer [b]; the result is
    the contents of [b] afterwards. *)
Definition bufferNextRequest (b : list byte) : Rd (list byte) :=
  let b := [] in
  res ← wrapRd "unable to read next request header" (io_CopyN b 16);
  let '(b, n) := res in
  if negb (n =? 16) then
    lift (Err (Errorf ("incomplete next request header: expected 16 bytes; got " +:+ fmt_d n)))
  else
    let reqLen := le_combine (take 4 b) in
    if reqLen <? 16 then
      lift (Err (Errorf ("request header specifies invalid message length " +:+ fmt_d reqLen)))
    else
      let remaining := to_uint32 (reqLen - 16) in
      res ← wrapRd "unable to read remainder of request payload" (io_CopyN b remaining);
      let '(b, n) := res in
      if negb (n =? remaining) then
        lift (Err (Errorf ("incomplete next request payload: expected " +:+ fmt_d remaining
                           +:+ " bytes; got " +:+ fmt_d n)))
      else mret b.

(** The [messageLength] field of a buffered frame, as the framer reads it. *)
Definition frame_messageLength (frame : list byte) : Z := le_combine (take 4 frame).

(** A frame of 48,000,001 bytes: its header declares that length and the
    rest is zeros. *)
Definition oversized_frame : list byte :=
  le_split 4 48000001 ++ repeat x00 (Z.to_nat 47999997).

(** ** The emulator (package emulator) *)

(** The [Backend] interface.  A backend owns state of type [B]; each method
    returns the state afterwards. *)
Class Backend (B : Type) : Type := {
  Backend_Name : B -> string;
  Backend_HandleRequest : B -> string -> Request -> B * Res Response;
  Backend_RemoveClient : B -> string -> B * Res unit }.

(** The line feed, and [strings.Split(s, "\n")]. *)
Definition nl : string := String (ascii_of_nat 10) EmptyString.

Fixpoint strings_Split_nl (s : string) : list string :=
  match s with
  | EmptyString => [EmptyString]
  | String c s' =>
      if Ascii.eqb c (ascii_of_nat 10) then EmptyString :: strings_Split_nl s'
      else match strings_Split_nl s' with
           | [] => [String c EmptyString]
           | line :: lines => String c line :: lines
           end
  end.

Section Emulator.
Context `{GoLibs} {B : Type} {backend : Backend B}.

(** A built-in command handler.  [now] is what [time.Now().UTC()] returns
    while the request is handled. *)
Definition cmdHandlerFn : Type := Z -> B -> string -> CommandRequestT -> Res Response.

Record MongoEmulator : Type := mkMongoEmulator {
  b : B;
  (* the last seen error for each clientID; [None] is a nil error *)
  lastError : gmap string (option GoError);
  (* handlers for common mongo commands, keyed by upper-cased name *)
  cmdHandlers : gmap string cmdHandlerFn }.

Definition handleIsMaster : cmdHandlerFn :=
  fun now _ clientID _ =>
  Ok (mkResponse 0 0 0
        [ <["ok" := VInt 1]> (
          <["ismaster" := VBool true]> (
          <["secondary" := VBool false]> (
          <["readOnly" := VBool false]> (
          <["maxBsonObjectSize" := VInt (16 * 1024 * 1024)]> (
          <["maxMessageSizeBytes" := VInt (48 * 1000 * 1000)]> (
          <["maxWriteBatchSize" := VInt 10000]> (
          <["localTime" := VTime now]> (
          <["connectionId" := VString clientID]> (
          <["minWireVersion" := VInt 1]> (
          <["maxWireVersion" := VInt 6]> ∅)))))))))) ]).

Definition handleWhatsMyURI : cmdHandlerFn :=
  fun _ _ clientID _ =>
  Ok (mkResponse 0 0 0 [ <["ok" := VInt 1]> (<["you" := VString clientID]> ∅) ]).

Definition handleBuildInfo : cmdHandlerFn :=
  fun _ _ _ _ =>
  Ok (mkResponse 0 0 0
        [ <["ok" := VInt 1]> (
          <["version" := VString "3.6.8"]> (
          <["versionArray" := VIntSlice [3; 6; 8; 0]]> (
          <["maxBsonObjectSize" := VInt (16 * 1024 * 1024)]> ∅))) ]).

Definition handleReplSetGetStatus : cmdHandlerFn :=
  fun _ _ _ req =>
  if negb (String.eqb (Database (cmd_Collection req)) "admin") then
    Err (ServerErrorf CodeUnauthorized
           "replSetGetStatus may only be run against the admin database.")
  else
    (* Emulate server with no replicas. *)
    Err (ServerErrorf CodeNoReplicationEnabled "not running with --replSet").

Definition handleGetLog : cmdHandlerFn :=
  fun _ b _ _ =>
  Ok (mkResponse 0 0 0
        [ <["ok" := VInt 1]> (
          <["log" := VStringSlice (strings_Split_nl (
              nl +:+ "_  _ ____ _  _ ____ ____ _    _ ___ ____ " +:+
              nl +:+ "|\/| |  | |\ | | __ |  | |    |  |  |___ " +:+
              nl +:+ "|  | |__| | \| |__] |__| |___ |  |  |___ " +:+
              nl +:+
              nl +:+ "Greetings from your friendly neighborhood mongolite server." +:+
              nl +:+ "Serving incoming client request using the "
                 +:+ fmt_q (Backend_Name b) +:+ " backend." +:+
              nl))]> ∅) ]).

(** The handlers are stored under upper-cased keys, so that commands are
    looked up without regard to case.  The source ranges over a map; the
    entries are taken here in the order they are written. *)
Definition registerCommandHandlers (emu : MongoEmulator) : MongoEmulator :=
  let allCmds : list (string * cmdHandlerFn) :=
    [("isMaster", handleIsMaster);
     ("whatsMyUri", handleWhatsMyURI);
     ("buildInfo", handleBuildInfo);
     ("replSetGetStatus", handleReplSetGetStatus);
     ("getLog", handleGetLog)] in
  mkMongoEmulator (b emu) (lastError emu)
    (foldl (fun m cmd => <[strings_ToUpper cmd.1 := cmd.2]> m) ∅ allCmds).

(** [NewMongoEmulator]; [None] is a nil backend. *)
Definition NewMongoEmulator (b : option B) : Res MongoEmulator :=
  match b with
  | None => Err (Errorf "no backend specified")
  | Some b => Ok (registerCommandHandlers (mkMongoEmulator b ∅ ∅))
  end.

(** [toErrorResponse] converts a standard error into a mongo response payload. *)
Definition toErrorResponse (err : GoError) (replyType : ReplyType) : Response :=
  let flags := if xerrors_Is err ErrInvalidCursor
               then Z.lor 0 ResponseFlagCursorNotFound
               else Z.lor 0 ResponseFlagQueryError in
  let errDoc : M :=
    if decide (replyType = ReplyTypeOpReply) then <["$err" := VString (Error err)]> ∅
    else
      let errDoc : M := <["errmsg" := VString (Error err)]> ∅ in
      (* Server errors contain additional information. *)
      match err with
      | ServerError Code Msg =>
          <["codeName" := VString (ErrorCode_String Code)]> (
          <["code" := VErrorCode Code]> (
          <["errmsg" := VString Msg]> errDoc))
      | _ => errDoc
      end in
  let errDoc := <["ok" := VInt 0]> errDoc in
  mkResponse flags 0 0 [errDoc].

(** [maybeProcessClientCommand] runs the registered handler of the command,
    or fails with [ErrUnsupportedRequest]. *)
Definition maybeProcessClientCommand (now : Z) (emu : MongoEmulator) (clientID : string)
    (req : CommandRequestT) : Res Response :=
  match cmdHandlers emu !! strings_ToUpper (Command req) with
  | Some h => h now (b emu) clientID req
  | None => Err (Wrapf ("command " +:+ fmt_q (Command req)) ErrUnsupportedRequest)
  end.

Definition process (now : Z) (emu : MongoEmulator) (clientID : string) (req : Request)
    : MongoEmulator * Res Response :=
  (* Ask backend to process request. *)
  let '(b', res) := Backend_HandleRequest (b emu) clientID req in
  let emu := mkMongoEmulator b' (lastError emu) (cmdHandlers emu) in
  match res with
  | Err err =>
      if xerrors_Is err ErrUnsupportedRequest
         && bool_decide (GetType req = RequestTypeCommand) then
        match req with
        | CommandRequest c => (emu, maybeProcessClientCommand now emu clientID c)
        | _ => (emu, Panic "interface conversion: protocol.Request is not *protocol.CommandRequest")
        end
      else (emu, res)
  | _ => (emu, res)
  end.

Definition set_lastError (emu : MongoEmulator) (clientID : string) (err : option GoError)
    : MongoEmulator :=
  mkMongoEmulator (b emu) (<[clientID := err]> (lastError emu)) (cmdHandlers emu).

(** [HandleRequest] decodes the request, has it processed and writes the
    reply to [w].  The result is the emulator and the writer afterwards and
    the error returned. *)
Definition HandleRequest (now : Z) (emu : MongoEmulator) (clientID : string)
    (w : list byte) (reqData : list byte) : MongoEmulator * list byte * Res unit :=
  match Decode reqData with
  | Err err => (emu, w, Err (Wrapf "unable to decode incoming request" err))
  | Panic s => (emu, w, Panic s)
  | Ok req =>
      let reply (emu : MongoEmulator) (res : Response) :=
        (* Reset last error *)
        let emu := set_lastError emu clientID None in
        (* Serialize response if this request expects one. *)
        if negb (bool_decide (GetReplyType req = ReplyTypeNone)) then
          let '(w', err) := Encode w res (Request_RequestID req) (GetReplyType req) in
          (emu, w', err)
        else (emu, w, Ok tt) in
      let '(emu, res) := process now emu clientID req in
      match res with
      | Panic s => (emu, w, Panic s)
      | Err err =>
          let emu := set_lastError emu clientID (Some err) in
          if bool_decide (GetReplyType req = ReplyTypeNone) then (emu, w, Ok tt)
          else reply emu (toErrorResponse err (GetReplyType req))
      | Ok res => reply emu res
      end
  end.

(** [RemoveClient] drops the state kept for a client. *)
Definition RemoveClient (emu : MongoEmulator) (clientID : string)
    : MongoEmulator * Res unit :=
  let lastError' := delete clientID (lastError emu) in
  let '(b', err) := Backend_RemoveClient (b emu) clientID in
  (mkMongoEmulator b' lastError' (cmdHandlers emu), err).

End Emulator.

(** ** An instance of the library functions, to run examples

    [Model.libs] implements BSON 1.0 for the element types double, string,
    document, array, boolean, UTC datetime, null, int32 and int64 (any
    other element makes [Unmarshal] fail), quotes plain strings the way
    [%q] does, and upper-cases ASCII letters.  The theorems below hold for
    every [GoLibs]; this instance only feeds the examples. *)
Module Model.

Definition dquote : string := String (ascii_of_nat 34) EmptyString.

(** [%q] for a string of printable characters: quotes around it, a
    backslash before a quote or a backslash. *)
Fixpoint quote_body (s : string) : string :=
  match s with
  | EmptyString => EmptyString
  | String c s' =>
      if Ascii.eqb c (ascii_of_nat 34) || Ascii.eqb c (ascii_of_nat 92)
      then String (ascii_of_nat 92) (String c (quote_body s'))
      else String c (quote_body s')
  end.

Definition Quote (s : string) : string := dquote +:+ quote_body s +:+ dquote.

Definition upper_ascii (c : ascii) : ascii :=
  let n := nat_of_ascii c in
  if ((97 <=? n) && (n <=? 122))%nat then ascii_of_nat (n - 32) else c.

Fixpoint ToUpper (s : string) : string :=
  match s with
  | EmptyString => EmptyString
  | String c s' => String (upper_ascii c) (ToUpper s')
  end.

(** A zero-terminated string at the head of [r]. *)
Fixpoint cstring (r : list byte) : option (list byte * list byte) :=
  match r with
  | [] => None
  | c :: r' =>
      if Byte.eqb c x00 then Some ([], r')
      else match cstring r' with
           | Some (s, rest) => Some (c :: s, rest)
           | None => None
           end
  end.

Definition signed (bits : Z) (bs : list byte) : Z :=
  (le_combine bs + 2 ^ (bits - 1)) mod 2 ^ bits - 2 ^ (bits - 1).

(** The elements of a document up to and including its final zero byte,
    which must end [r]. *)
Fixpoint elements (fuel : nat) (r : list byte) : option D :=
  match fuel with
  | O => None
  | S fuel' =>
      match r with
      | [] => None
      | kind :: r1 =>
          if Byte.eqb kind x00 then match r1 with [] => Some [] | _ => None end
          else
            match cstring r1 with
            | None => None
            | Some (name, r2) =>
                let fixed (n : nat) (mk : list byte -> Value) :=
                  if (length r2 <? n)%nat then None
                  else Some (mk (take n r2), drop n r2) in
                let nested (mk : D -> Value) :=
                  let size := Z.to_nat (le_combine (take 4 r2)) in
                  if (size <? 5)%nat || (length r2 <? size)%nat then None
                  else match elements fuel' (drop 4 (take size r2)) with
                       | Some d => Some (mk d, drop size r2)
                       | None => None
                       end in
                let value :=
                  match byte.unsigned kind with
                  | 1 => fixed 8%nat (fun bs => VFloat64 (le_combine bs))
                  | 2 =>
                      let len := Z.to_nat (le_combine (take 4 r2)) in
                      let body := take len (drop 4 r2) in
                      if (len <? 1)%nat || (length body <? len)%nat then None
                      else Some (VString (go_string (take (len - 1) body)),
                                 drop (4 + len) r2)
                  | 3 => nested VDoc
                  | 4 => nested (fun d => VSlice (snd <$> d))
                  | 8 => fixed 1%nat (fun bs => VBool (negb (le_combine bs =? 0)))
                  | 9 => fixed 8%nat (fun bs => VTime (signed 64 bs))
                  | 10 => Some (VNil, r2)
                  | 16 => fixed 4%nat (fun bs => VInt (signed 32 bs))
                  | 18 => fixed 8%nat (fun bs => VInt64 (signed 64 bs))
                  | _ => None
                  end in
                match value with
                | None => None
                | Some (v, r3) =>
                    match elements fuel' r3 with
                    | Some d => Some ((go_string name, v) :: d)
                    | None => None
                    end
                end
            end
      end
  end.

Definition Unmarshal (doc : list byte) : Res D :=
  if negb (le_combine (take 4 doc) =? Z.of_nat (length doc)) then
    Err (Errorf "Document is corrupted")
  else match elements (length doc) (drop 4 doc) with
       | Some d => Ok d
       | None => Err (Errorf "Document is corrupted")
       end.

Definition element (kind : Z) (name : string) (body : list byte) : list byte :=
  le_split 1 kind ++ go_bytes name ++ [x00] ++ body.

Definition document (elems : list byte) : list byte :=
  le_split 4 (Z.of_nat (length elems) + 5) ++ elems ++ [x00].

(** An [int]: int32 when it fits, int64 otherwise. *)
Definition marshal_int (n : Z) : Z * list byte :=
  if (- 2 ^ 31 <=? n) && (n <? 2 ^ 31) then (16, le_split 4 n) else (18, le_split 8 n).

Definition marshal_string (s : string) : Z * list byte :=
  (2, le_split 4 (Z.of_nat (String.length s) + 1) ++ go_bytes s ++ [x00]).

(** An array: a document whose keys are the indices. *)
Fixpoint marshal_array {A} (f : A -> Z * list byte) (i : Z) (l : list A) : list byte :=
  match l with
  | [] => []
  | a :: l' => element (f a).1 (fmt_d i) (f a).2 ++ marshal_array f (i + 1) l'
  end.

Fixpoint marshal_value (v : Value) : Z * list byte :=
  match v with
  | VFloat64 bits => (1, le_split 8 bits)
  | VString s => marshal_string s
  | VDoc d =>
      (3, document ((fix fields (d : D) : list byte :=
                       match d with
                       | [] => []
                       | (name, v) :: d' =>
                           element (marshal_value v).1 name (marshal_value v).2 ++ fields d'
                       end) d))
  | VSlice l =>
      (4, document ((fix items (i : Z) (l : list Value) : list byte :=
                       match l with
                       | [] => []
                       | v :: l' =>
                           element (marshal_value v).1 (fmt_d i) (marshal_value v).2
                           ++ items (i + 1) l'
                       end) 0 l))
  | VBool b => (8, [if b then x01 else x00])
  | VNil => (10, [])
  | VInt n => marshal_int n
  | VInt64 n => (18, le_split 8 n)
  | VTime t => (9, le_split 8 t)
  | VIntSlice l => (4, document (marshal_array marshal_int 0 l))
  | VStringSlice l => (4, document (marshal_array marshal_string 0 l))
  | VErrorCode c => marshal_int c
  | VOther kind raw => (kind, raw)
  end.

(** The fields of a map are written in key order (Go leaves the order open). *)
Definition Marshal (m : M) : Res (list byte) :=
  Ok (document (concat ((fun kv : string * Value =>
                           element (marshal_value kv.2).1 kv.1 (marshal_value kv.2).2)
                        <$> map_to_list m))).

#[export] Instance libs : GoLibs := {|
  bson_Unmarshal := Unmarshal;
  bson_Marshal := Marshal;
  fmt_q := Quote;
  strings_ToUpper := ToUpper |}.

(** The dummy backend: it returns [ErrUnsupportedRequest] for every request. *)
Definition dummy : Backend unit := {|
  Backend_Name := fun _ => "dummy";
  Backend_HandleRequest := fun b _ _ => (b, Err ErrUnsupportedRequest);
  Backend_RemoveClient := fun b _ => (b, Ok tt) |}.

(** A backend that fails every request with the error it holds. *)
Definition failing : Backend GoError := {|
  Backend_Name := fun _ => "failing";
  Backend_HandleRequest := fun b _ _ => (b, Err b);
  Backend_RemoveClient := fun b _ => (b, Ok tt) |}.

End Model.

(** ** Frames and backends for the examples *)

Module Frames.
Import Model.

(** A frame with the given request id, opcode and payload; its
    [messageLength] is its length. *)
Definition frame (requestID opcode : Z) (payload : list byte) : list byte :=
  le_split 4 (16 + Z.of_nat (length payload)) ++ le_split 4 requestID
  ++ le_split 4 0 ++ le_split 4 opcode ++ payload.

Definition cstr (s : string) : list byte := go_bytes s ++ [x00].

(** The BSON encoding of a document, fields in the given order. *)
Definition doc (d : D) : list byte := (marshal_value (VDoc d)).2.

(** An emulator over the backend state [b], as [NewMongoEmulator] makes it. *)
Definition emulator {B : Type} (backend : Backend B) (b : B) : MongoEmulator :=
  registerCommandHandlers (mkMongoEmulator b ∅ ∅).

(** A backend that leaves commands to the emulator and rejects everything
    else with a write error. *)
Definition duplicate_key : GoError := Errorf "E11000 duplicate key error".

Definition picky : Backend unit := {|
  Backend_Name := fun _ => "picky";
  Backend_HandleRequest := fun b _ req =>
    match req with
    | CommandRequest _ => (b, Err ErrUnsupportedRequest)
    | _ => (b, Err duplicate_key)
    end;
  Backend_RemoveClient := fun b _ => (b, Ok tt) |}.

(** OP_INSERT of [{a: 1}] into [test.coll]. *)
Definition insert_frame : list byte :=
  frame 1 2002 (le_split 4 0 ++ cstr "test.coll" ++ doc [("a", VInt 1)]).

(** OP_GET_MORE on cursor 42 of [test.coll]. *)
Definition getMore_frame : list byte :=
  frame 3 2005 (le_split 4 0 ++ cstr "test.coll" ++ le_split 4 10 ++ le_split 8 42).

(** OP_QUERY on [admin.$cmd] with the command [{getLastError: 1}]. *)
Definition getLastError_frame : list byte :=
  frame 2 2004 (le_split 4 0 ++ cstr "admin.$cmd" ++ le_split 4 0 ++ le_split 4 (-1)
                ++ doc [("getLastError", VInt 1)]).

(** The reply [{ok: 1}]. *)
Definition ok_reply : Response := mkResponse 0 0 0 [ <["ok" := VInt 1]> ∅ ].

(** The body [{ping: 1, $db: "test"}] of an OP_MSG, as a section. *)
Definition ping_section : list byte :=
  [x00] ++ doc [("ping", VInt 1); ("$db", VString "test")].

(** The command [{insert: "coll", documents: [{a: 1}]}]. *)
Definition insert_cmd : D :=
  [("insert", VString "coll"); ("documents", VSlice [VDoc [("a", VInt 1)]])].

End Frames.

(** ** More of package protocol *)

(** [NamespacedCollection.String]: [fmt.Sprintf("%s.%s", c.Database, c.Collection)]. *)
Definition NamespacedCollection_String (c : NamespacedCollection) : string :=
  Database c +:+ "." +:+ Collection c.

(** The reply envelope the decoder of each opcode gives its requests:
    [decodeQueryOp] and [decodeGetMoreOp] set OP_REPLY, [decodeMsgOp] sets
    OP_MSG, the other decoders leave the zero value. *)
Definition reply_envelope (opcode : Z) : ReplyType :=
  if decide (opcode = 2004) then ReplyTypeOpReply
  else if decide (opcode = 2005) then ReplyTypeOpReply
  else if decide (opcode = 2013) then ReplyTypeOpMsg
  else ReplyTypeNone.

(** ** Serving a connection (package proxy) *)

(** The [RequestHandler] interface of the proxy.  A handler owns state of
    type [T]; [HandleRequest] gets the client's id, the writer (the
    connection) and the buffered request, and returns the state and the
    writer afterwards with its error. *)
Class proxy_RequestHandler (T : Type) : Type := {
  proxy_HandleRequest : T -> string -> list byte -> list byte -> T * list byte * Res unit;
  proxy_RemoveClient : T -> string -> T * Res unit }.

Section Server.
Context {T : Type} {reqHandler : proxy_RequestHandler T}.

(** The loop of [handleConn]: [r] is what the client still sends, [w] what
    was written to it.  The loop only ends with an error.  [fuel] bounds
    the number of rounds; [None] means it ran out. *)
Fixpoint handleConn_loop (fuel : nat) (reqBuffer : list byte) (s : T) (clientID : string)
    (w r : list byte) : option (T * list byte * list byte * Res unit) :=
  match fuel with
  | O => None
  | S fuel' =>
      match bufferNextRequest reqBuffer r with
      | (Err err, r') => Some (s, w, r', Err err)
      | (Panic m, r') => Some (s, w, r', Panic m)
      | (Ok reqBuffer, r') =>
          match proxy_HandleRequest s clientID w reqBuffer with
          | (s', w', Err err) => Some (s', w', r', Err err)
          | (s', w', Panic m) => Some (s', w', r', Panic m)
          | (s', w', Ok _) => handleConn_loop fuel' reqBuffer s' clientID w' r'
          end
      end
  end.

(** Every request buffered takes at least sixteen bytes of the stream, so
    one round more than there are bytes is enough ([handleConn_loop_fuel]
    below): the last branch is never taken.  The result is the handler, the
    bytes written, the bytes left unread and the error. *)
Definition handleConn (s : T) (clientID : string) (w r : list byte)
    : T * list byte * list byte * Res unit :=
  match handleConn_loop (S (length r)) [] s clientID w r with
  | Some res => res
  | None => (s, w, r, Panic "unreachable")
  end.

End Server.

(** ** Handlers (package handler) *)

(** The [RequestHandler] interface the handlers of this package implement
    and wrap: the writer and the request. *)
Class handler_RequestHandler (T : Type) : Type := {
  handler_HandleRequest : T -> list byte -> list byte -> T * list byte * Res unit }.

(** [RemoteMongo] forwards requests to a remote server.  The connection to
    it is the bytes written to it so far and the bytes it will send; when
    [io.CopyN] fails, the buffer holds the bytes that were still there. *)
Record RemoteMongo : Type := mkRemoteMongo {
  remote_written : list byte;
  remote_unread : list byte;
  resBuffer : list byte }.

Definition pipeRemoteResponse (h : RemoteMongo) (w : list byte)
    : RemoteMongo * list byte * Res unit :=
  let resBuffer := [] in
  let remote := remote_unread h in
  match io_CopyN resBuffer 16 remote with
  | (Err err, remote') =>
      (mkRemoteMongo (remote_written h) remote' (resBuffer ++ take 16 remote), w,
       Err (Wrapf "unable to read response header" err))
  | (Panic m, remote) => (mkRemoteMongo (remote_written h) remote resBuffer, w, Panic m)
  | (Ok (resBuffer, n), remote) =>
      if negb (n =? 16) then
        (mkRemoteMongo (remote_written h) remote resBuffer, w,
         Err (Errorf ("incomplete response header: expected 16 bytes; got " +:+ fmt_d n)))
      else
        let resLen := le_combine (take 4 resBuffer) in
        if resLen <? 16 then
          (mkRemoteMongo (remote_written h) remote resBuffer, w,
           Err (Errorf ("response header specifies invalid message length "
                        +:+ fmt_d resLen)))
        else
          let remaining := to_uint32 (resLen - 16) in
          match io_CopyN resBuffer remaining remote with
          | (Err err, remote') =>
              (mkRemoteMongo (remote_written h) remote'
                 (resBuffer ++ take (Z.to_nat remaining) remote), w,
               Err (Wrapf "unable to read remainder of response payload" err))
          | (Panic m, remote) =>
              (mkRemoteMongo (remote_written h) remote resBuffer, w, Panic m)
          | (Ok (resBuffer, n), remote) =>
              if negb (n =? remaining) then
                (mkRemoteMongo (remote_written h) remote resBuffer, w,
                 Err (Errorf ("incomplete response payload: expected " +:+ fmt_d remaining
                              +:+ " bytes; got " +:+ fmt_d n)))
              else
                (* Write captured response to the provided writer *)
                let n := Z.of_nat (length resBuffer) in
                let w := w ++ resBuffer in
                let h := mkRemoteMongo (remote_written h) remote [] in
                if negb (n =? resLen) then
                  (h, w,
                   Err (Errorf ("wrote partial response payload to connected client: "
                                +:+ "expected to write " +:+ fmt_d resLen
                                +:+ " bytes; wrote " +:+ fmt_d n)))
                else (h, w, Ok tt)
          end
  end.

Definition RemoteMongo_HandleRequest (h : RemoteMongo) (w r : list byte)
    : RemoteMongo * list byte * Res unit :=
  (* Send request *)
  let h := mkRemoteMongo (remote_written h ++ r) (remote_unread h) (resBuffer h) in
  (* Read response and pipe it to w *)
  match pipeRemoteResponse h w with
  | (h, w, Err err) =>
      (h, w, Err (Wrapf "remote-mongo: unable to process remote response" err))
  | other => other
  end.

(** [Recorder] logs the raw requests and responses of the handler it
    wraps. *)
Record Recorder (T : Type) : Type := mkRecorder {
  reqStream : list byte;
  resStream : list byte;
  resBuf : list byte;
  wrappedHandler : T }.

Arguments mkRecorder {T}.
Arguments reqStream {T}.
Arguments resStream {T}.
Arguments resBuf {T}.
Arguments wrappedHandler {T}.

Definition NewRecorder {T} (reqStream resStream : list byte) (h : T) : Recorder T :=
  mkRecorder reqStream resStream [] h.

Definition Recorder_HandleRequest {T} `{handler_RequestHandler T} (s : Recorder T)
    (w r : list byte) : Recorder T * list byte * Res unit :=
  (* Save a copy of the incoming request *)
  let rLen := to_int32 (Z.of_nat (length r)) in
  let s := mkRecorder (reqStream s ++ binary_Write32 rLen) (resStream s) (resBuf s)
             (wrappedHandler s) in
  let n := Z.of_nat (length r) in
  let s := mkRecorder (reqStream s ++ r) (resStream s) (resBuf s) (wrappedHandler s) in
  if negb (n =? rLen) then
    (s, w, Err (Errorf ("recorder: wrote partial recorded request: expected to write "
                        +:+ fmt_d rLen +:+ " bytes; wrote " +:+ fmt_d n)))
  else
    (* Pass the request to the wrapped handler and record the response *)
    let '(h, resBuf, err) := handler_HandleRequest (wrappedHandler s) [] r in
    let s := mkRecorder (reqStream s) (resStream s) resBuf h in
    match err with
    | Err err => (s, w, Err err)
    | Panic m => (s, w, Panic m)
    | Ok _ =>
        (* Save a copy of the recorded response *)
        let capturedRes := resBuf in
        let rLen := to_int32 (Z.of_nat (length capturedRes)) in
        let s := mkRecorder (reqStream s) (resStream s ++ binary_Write32 rLen) resBuf h in
        let n := Z.of_nat (length capturedRes) in
        let s := mkRecorder (reqStream s) (resStream s ++ capturedRes) resBuf h in
        if negb (n =? rLen) then
          (s, w, Err (Errorf ("recorder: wrote partial recorded response: expected to write "
                              +:+ fmt_d rLen +:+ " bytes; wrote " +:+ fmt_d n)))
        else
          (* Write recorded response to the upstream writer *)
          let w := w ++ capturedRes in
          if negb (n =? rLen) then
            (s, w, Err (Errorf ("recorder: wrote partial recorded response: expected to write "
                                +:+ fmt_d rLen +:+ " bytes; wrote " +:+ fmt_d n)))
          else (s, w, Ok tt)
    end.

(** ** Implementations of the handler interfaces *)

(** [MongoEmulator] implements the proxy's [RequestHandler]; [now] is the
    time its requests are handled at. *)
Definition MongoEmulator_handler `{GoLibs} {B : Type} (backend : Backend B) (now : Z)
    : proxy_RequestHandler MongoEmulator := {|
  proxy_HandleRequest := HandleRequest now;
  proxy_RemoveClient := RemoveClient |}.

(** [RemoteMongo] implements the [RequestHandler] that [Recorder] wraps. *)
Definition RemoteMongo_handler : handler_RequestHandler RemoteMongo := {|
  handler_HandleRequest := RemoteMongo_HandleRequest |}.

(** More frames for the examples. *)
Module MoreFrames.
Import Model Frames.

(** The OP_REPLY [{ok: 1}] to request 7, as [Encode] writes it. *)
Definition ok_reply_frame : list byte := (Encode [] ok_reply 7 ReplyTypeOpReply).1.

(** The body [{insert: "coll", $db: "test"}] of an OP_MSG. *)
Definition insert_body : D := [("insert", VString "coll"); ("$db", VString "test")].

(** The OP_MSG command [{ping: 1, $db: "test"}], after the header. *)
Definition ping_msg : list byte := le_split 4 0 ++ ping_section.

End MoreFrames.

(** * Properties *)

(** ** Integers on the wire *)

Lemma to_int32_small (v : Z) : int32_range v -> to_int32 (v mod 2 ^ 32) = v.
Proof.
  unfold int32_range, to_int32. intros Hv.
  change (2 ^ 32) with 4294967296 in *. change (2 ^ 31) with 2147483648 in *.
  Z.div_mod_to_equations. lia.
Qed.

Lemma io_ReadFull_app (n : nat) (bs rest : list byte) :
  length bs = n -> (0 < n)%nat -> io_ReadFull n (bs ++ rest) = (Ok bs, rest).
Proof.
  intros Hlen Hn. unfold io_ReadFull.
  destruct (bs ++ rest) eqn:E.
  - apply (f_equal length) in E. rewrite length_app in E. simpl in E. lia.
  - rewrite <- E.
    destruct (Nat.ltb_spec (length (bs ++ rest)) n) as [Hlt | _].
    + rewrite length_app in Hlt. lia.
    + rewrite take_app_length' by done. rewrite drop_app_length' by done. done.
Qed.

Lemma binary_Read_int32_le_split' (v : Z) (rest : list byte) :
  binary_Read_int32 (le_split 4 v ++ rest) = (Ok (to_int32 (to_uint32 v)), rest).
Proof.
  unfold binary_Read_int32, mbind, Rd_bind, rd_bind.
  rewrite io_ReadFull_app by (rewrite ?length_le_split; lia).
  unfold mret, Rd_ret. by rewrite le_combine_split.
Qed.

Lemma binary_Read_int32_le_split (v : Z) (rest : list byte) :
  int32_range v -> binary_Read_int32 (le_split 4 v ++ rest) = (Ok v, rest).
Proof.
  intros Hv. rewrite binary_Read_int32_le_split'. unfold to_uint32.
  by rewrite to_int32_small.
Qed.

Lemma binary_Read_uint32_le_split (v : Z) (rest : list byte) :
  binary_Read_uint32 (le_split 4 v ++ rest) = (Ok (to_uint32 v), rest).
Proof.
  unfold binary_Read_uint32, mbind, Rd_bind, rd_bind.
  rewrite io_ReadFull_app by (rewrite ?length_le_split; lia).
  unfold mret, Rd_ret. by rewrite le_combine_split.
Qed.

Lemma to_uint32_small (v : Z) : 0 <= v < 2 ^ 32 -> to_uint32 v = v.
Proof. intros Hv. unfold to_uint32. by apply Z.mod_small. Qed.

Lemma wrapRd_Ok {A} (msg : string) (m : Rd A) (r r' : list byte) (a : A) :
  m r = (Ok a, r') -> wrapRd msg m r = (Ok a, r').
Proof. unfold wrapRd. by intros ->. Qed.

Lemma wrapRd_Err {A} (msg : string) (m : Rd A) (r r' : list byte) (e : GoError) :
  m r = (Err e, r') -> wrapRd msg m r = (Err (Wrapf msg e), r').
Proof. unfold wrapRd. by intros ->. Qed.

(** One step of a reader computation whose first action succeeds, fails or
    panics. *)
Lemma bind_Ok {A B} (m : Rd A) (k : A -> Rd B) (r r' : list byte) (a : A) :
  m r = (Ok a, r') -> (m ≫= k) r = k a r'.
Proof. unfold mbind, Rd_bind, rd_bind. by intros ->. Qed.

Lemma bind_Err {A B} (m : Rd A) (k : A -> Rd B) (r r' : list byte) (e : GoError) :
  m r = (Err e, r') -> (m ≫= k) r = (Err e, r').
Proof. unfold mbind, Rd_bind, rd_bind. by intros ->. Qed.

Lemma bind_Panic {A B} (m : Rd A) (k : A -> Rd B) (r r' : list byte) (s : string) :
  m r = (Panic s, r') -> (m ≫= k) r = (Panic s, r').
Proof. unfold mbind, Rd_bind, rd_bind. by intros ->. Qed.

(** [rd_ok lem]: the first action of the computation in the goal succeeds
    by [lem], possibly under an error wrapper. *)
Tactic Notation "rd_ok" uconstr(lem) :=
  first [ erewrite bind_Ok by (apply wrapRd_Ok; eapply lem)
        | erewrite bind_Ok by (eapply lem) ].

(** Sixteen bytes always decode to a header: each field is the int32 its
    four bytes spell. *)
Lemma decodeHeader_le_split' `{GoLibs} (ml rid rto op : Z) (rest : list byte) :
  decodeHeader (le_split 4 ml ++ le_split 4 rid ++ le_split 4 rto ++ le_split 4 op ++ rest)
  = (Ok (mkRPCHeader (to_int32 (to_uint32 ml)) (to_int32 (to_uint32 rid))
           (to_int32 (to_uint32 rto)) (to_int32 (to_uint32 op))), rest).
Proof.
  unfold decodeHeader, mbind, Rd_bind, rd_bind.
  by rewrite !(wrapRd_Ok _ _ _ _ _ (binary_Read_int32_le_split' _ _)).
Qed.

Lemma decodeHeader_le_split `{GoLibs} (ml rid rto op : Z) (rest : list byte) :
  int32_range ml -> int32_range rid -> int32_range rto -> int32_range op ->
  decodeHeader (le_split 4 ml ++ le_split 4 rid ++ le_split 4 rto ++ le_split 4 op ++ rest)
  = (Ok (mkRPCHeader ml rid rto op), rest).
Proof.
  intros Hml Hrid Hrto Hop. rewrite decodeHeader_le_split'. unfold to_uint32.
  by rewrite !to_int32_small.
Qed.

(** ** Encode *)

Section EncodeFacts.
Context `{GoLibs}.

Lemma writeDocuments_extends (docs : list M) (buf out : list byte) (i : Z) :
  writeDocuments buf i docs = Ok out -> ∃ tail, out = buf ++ tail.
Proof.
  revert buf i. induction docs as [| doc docs IH]; intros buf i; simpl.
  - intros [= <-]. exists []. by rewrite app_nil_r.
  - destruct (bson_Marshal doc) as [docData | e | s]; try done.
    intros Hw. destruct (IH _ _ Hw) as [tail ->].
    exists (docData ++ tail). by rewrite app_assoc.
Qed.

(** What [Encode] writes on success: the header fields, the first of them
    patched to the length of the message, then the body. *)
Lemma writeOpReplyTo_extends (buf out : list byte) (r : Response) :
  writeOpReplyTo buf r = Ok out -> ∃ tail, out = buf ++ tail.
Proof.
  unfold writeOpReplyTo. intros [tail ->]%writeDocuments_extends.
  rewrite <- !app_assoc. eauto.
Qed.

Lemma writeOpMsgTo_extends (buf out : list byte) (r : Response) :
  writeOpMsgTo buf r = Ok out -> ∃ tail, out = buf ++ tail.
Proof.
  unfold writeOpMsgTo. destruct (1 <? length (Documents r))%nat; [done |].
  intros [tail ->]%writeDocuments_extends.
  rewrite <- !app_assoc. eauto.
Qed.

Lemma PutUint32_header (v a b c : Z) (body : list byte) :
  PutUint32 (le_split 4 a ++ le_split 4 b ++ le_split 4 c ++ body) v
  = le_split 4 v ++ le_split 4 b ++ le_split 4 c ++ body.
Proof. unfold PutUint32. f_equal. Qed.

Lemma Encode_written (w w' : list byte) (resp : Response) (rid : Z) (env : ReplyType) :
  env ≠ ReplyTypeNone ->
  Encode w resp rid env = (w', Ok tt) ->
  ∃ body,
    let out := le_split 4 (to_uint32 (16 + Z.of_nat (length body))) ++ le_split 4 0
               ++ le_split 4 rid ++ le_split 4 (env_opcode env) ++ body in
    w' = w ++ out ∧ Z.of_nat (length out) = 16 + Z.of_nat (length body).
Proof.
  intros Henv. unfold Encode.
  destruct env; [done | |];
    cbn [MessageLength RequestID ResponseTo Opcode env_opcode];
    unfold writeHeaderTo, mbind, Res_bind, res_bind, wrap;
    cbn [MessageLength RequestID ResponseTo Opcode]; rewrite app_nil_l;
    unfold binary_Write32; cbv beta iota.
  - match goal with |- context [writeOpReplyTo ?hb resp] =>
      destruct (writeOpReplyTo hb resp) as [resData | e | s] eqn:E end; try done.
    apply writeOpReplyTo_extends in E as [body ->]. intros Heq.
    apply (f_equal fst) in Heq. cbn [fst] in Heq. subst w'.
    exists body. cbn zeta. rewrite <- !app_assoc, PutUint32_header.
    rewrite !length_app, !length_le_split. split; [| lia].
    replace (Z.of_nat (4 + (4 + (4 + (4 + length body)))))
      with (16 + Z.of_nat (length body)) by lia. done.
  - match goal with |- context [writeOpMsgTo ?hb resp] =>
      destruct (writeOpMsgTo hb resp) as [resData | e | s] eqn:E end; try done.
    apply writeOpMsgTo_extends in E as [body ->]. intros Heq.
    apply (f_equal fst) in Heq. cbn [fst] in Heq. subst w'.
    exists body. cbn zeta. rewrite <- !app_assoc, PutUint32_header.
    rewrite !length_app, !length_le_split. split; [| lia].
    replace (Z.of_nat (4 + (4 + (4 + (4 + length body)))))
      with (16 + Z.of_nat (length body)) by lia. done.
Qed.

(** C2. When [Encode] succeeds for an envelope that has a reply (OP_REPLY or
    OP_MSG), the first 16 bytes it wrote decode as a header whose
    [responseTo] is the request id, whose opcode is the envelope's (1 or
    2013) and whose [messageLength] is the number of bytes written, header
    included.  The request id is an int32, and so is the length of the
    message. *)
Theorem Encode_header_fields (w w' : list byte) (resp : Response) (rid : Z)
    (env : ReplyType) :
  env ≠ ReplyTypeNone ->
  int32_range rid ->
  Encode w resp rid env = (w', Ok tt) ->
  Z.of_nat (length w') - Z.of_nat (length w) < 2 ^ 31 ->
  ∃ out hdr,
    w' = w ++ out ∧
    decodeHeader (take 16 out) = (Ok hdr, []) ∧
    ResponseTo hdr = rid ∧
    Opcode hdr = env_opcode env ∧
    MessageLength hdr = Z.of_nat (length out).
Proof.
  intros Henv Hrid Henc Hlen.
  destruct (Encode_written _ _ _ _ _ Henv Henc) as (body & -> & Hout).
  cbn zeta in Hout. rewrite length_app in Hlen.
  set (out := _ ++ _ ++ _ ++ _ ++ body) in *.
  assert (Hsmall : to_uint32 (16 + Z.of_nat (length body)) = 16 + Z.of_nat (length body)).
  { apply to_uint32_small. lia. }
  exists out, (mkRPCHeader (Z.of_nat (length out)) 0 rid (env_opcode env)).
  split; [done |]. split; [| done].
  assert (Htake : take 16 out
                  = le_split 4 (Z.of_nat (length out)) ++ le_split 4 0 ++ le_split 4 rid
                    ++ le_split 4 (env_opcode env) ++ []).
  { subst out. rewrite Hsmall, <- Hout. rewrite !app_assoc.
    rewrite take_app_length'; [by rewrite app_nil_r |].
    rewrite !length_app, !length_le_split. done. }
  rewrite Htake.
  apply decodeHeader_le_split; unfold int32_range in *;
    [lia | lia | lia | destruct env; simpl; lia].
Qed.

(** C10. Every reply [Encode] writes, in the OP_REPLY and in the OP_MSG
    envelope alike, has [requestId = 0] in its header: the only identifier
    set is [responseTo], the id of the client's request. *)
Theorem Encode_requestID_zero (w w' : list byte) (resp : Response) (rid : Z)
    (env : ReplyType) :
  env ≠ ReplyTypeNone ->
  int32_range rid ->
  Encode w resp rid env = (w', Ok tt) ->
  ∃ out hdr,
    w' = w ++ out ∧
    decodeHeader (take 16 out) = (Ok hdr, []) ∧
    RequestID hdr = 0 ∧
    ResponseTo hdr = rid.
Proof.
  intros Henv Hrid Henc.
  destruct (Encode_written _ _ _ _ _ Henv Henc) as (body & -> & _).
  eexists _, _. split; [done |].
  rewrite !app_assoc, take_app_length' by done.
  rewrite <- !app_assoc, <- (app_nil_r (le_split 4 (env_opcode env))).
  rewrite decodeHeader_le_split'. split; [done |].
  cbn [RequestID ResponseTo]. split; [done |].
  unfold to_uint32. by apply to_int32_small.
Qed.

End EncodeFacts.

(** ** Decode *)

Section DecodeFacts.
Context `{GoLibs}.

Lemma opDecoder_lookup :
  opDecoder !! 2001 = Some decodeUpdateOp ∧
  opDecoder !! 2002 = Some decodeInsertOp ∧
  opDecoder !! 2004 = Some decodeQueryOp ∧
  opDecoder !! 2005 = Some decodeGetMoreOp ∧
  opDecoder !! 2006 = Some decodeDeleteOp ∧
  opDecoder !! 2007 = Some decodeKillCursorsOp ∧
  opDecoder !! 2013 = Some decodeMsgOp.
Proof. repeat split; reflexivity. Qed.

(** [Decode] of a frame that starts with a sixteen-byte header runs the
    decoder of its opcode on the rest. *)
Lemma Decode_frame (ml rid rto op : Z) (payload : list byte) :
  Decode (le_split 4 ml ++ le_split 4 rid ++ le_split 4 rto ++ le_split 4 op ++ payload)
  = let hdr := mkRPCHeader (to_int32 (to_uint32 ml)) (to_int32 (to_uint32 rid))
                 (to_int32 (to_uint32 rto)) (to_int32 (to_uint32 op)) in
    fst (default decodeUnknownOp (opDecoder !! Opcode hdr) hdr payload).
Proof.
  unfold Decode, mbind, Rd_bind, rd_bind.
  by rewrite (wrapRd_Ok _ _ _ _ _ (decodeHeader_le_split' _ _ _ _ _)).
Qed.

(** C9. An OP_KILL_CURSORS frame (opcode 2007) whose [numberOfCursorIDs]
    field is negative makes [Decode] panic when it allocates the slice of
    cursor ids; no error value is returned. *)
Theorem Decode_killCursors_negative_panics (ml rid rto reserved numCursors : Z)
    (rest : list byte) :
  - 2 ^ 31 <= numCursors < 0 ->
  Decode (le_split 4 ml ++ le_split 4 rid ++ le_split 4 rto ++ le_split 4 2007
          ++ le_split 4 reserved ++ le_split 4 numCursors ++ rest)
  = Panic "runtime error: makeslice: len out of range".
Proof.
  intros Hn. rewrite Decode_frame. cbn zeta.
  change (Opcode _) with 2007.
  destruct opDecoder_lookup as (_ & _ & _ & _ & _ & -> & _). cbn [default].
  assert (Hr : int32_range numCursors) by (unfold int32_range; lia).
  unfold decodeKillCursorsOp, id. cbv beta.
  rd_ok binary_Read_int32_le_split'.
  rd_ok (binary_Read_int32_le_split numCursors _ Hr).
  erewrite bind_Panic; [done |].
  unfold lift, make_slice.
  destruct (Z.ltb_spec numCursors 0); [done | lia].
Qed.

End DecodeFacts.

(** ** Framing *)

Lemma io_CopyN_Ok (b : list byte) (n : Z) (r r' out : list byte) (written : Z) :
  io_CopyN b n r = (Ok (out, written), r') ->
  0 <= n ∧ written = n ∧ out = b ++ take (Z.to_nat n) r ∧ r' = drop (Z.to_nat n) r
  ∧ Z.of_nat (length (take (Z.to_nat n) r)) = n.
Proof.
  unfold io_CopyN. destruct (Z.eqb_spec (Z.of_nat (length (take (Z.to_nat n) r))) n) as [Heq |];
    [| done].
  intros [= <- <- <-]. repeat split; try done. lia.
Qed.

Lemma io_CopyN_enough (b : list byte) (n : Z) (chunk rest : list byte) :
  Z.of_nat (length chunk) = n ->
  io_CopyN b n (chunk ++ rest) = (Ok (b ++ chunk, n), rest).
Proof.
  intros Hn. unfold io_CopyN.
  assert (Hlen : Z.to_nat n = length chunk) by lia.
  rewrite Hlen, take_app_length, drop_app_length.
  rewrite Hn, Z.eqb_refl. done.
Qed.

Lemma io_CopyN_short (b : list byte) (n : Z) (r : list byte) :
  Z.of_nat (length r) < n ->
  io_CopyN b n r = (Err io_EOF, drop (Z.to_nat n) r).
Proof.
  intros Hn. unfold io_CopyN.
  destruct (Z.eqb_spec (Z.of_nat (length (take (Z.to_nat n) r))) n) as [Heq |]; [| done].
  rewrite length_take in Heq. lia.
Qed.

Lemma le_combine_take4_bound (bs : list byte) : 0 <= le_combine (take 4 bs) < 2 ^ 32.
Proof.
  pose proof (le_combine_bound (take 4 bs)) as Hb.
  assert (Hlen : (length (take 4 bs) <= 4)%nat) by (rewrite length_take; lia).
  split; [lia |].
  eapply Z.lt_le_trans; [apply Hb |].
  apply Z.pow_le_mono_r; lia.
Qed.

(** A stream that starts with a whole frame, whose first four bytes spell
    its length and that length is at least 16, yields that frame. *)
Lemma bufferNextRequest_accepts (b frame rest : list byte) :
  16 <= frame_messageLength frame ->
  Z.of_nat (length frame) = frame_messageLength frame ->
  bufferNextRequest b (frame ++ rest) = (Ok frame, rest).
Proof.
  unfold frame_messageLength. intros Hmin Hlen.
  pose proof (le_combine_take4_bound frame) as Hb.
  set (hdr := take 16 frame). set (payload := drop 16 frame).
  assert (Hsplit : frame = hdr ++ payload) by (symmetry; apply take_drop).
  assert (Hhdr : Z.of_nat (length hdr) = 16) by (subst hdr; rewrite length_take; lia).
  assert (Htake : take 4 hdr = take 4 frame).
  { subst hdr. rewrite take_take. f_equal. }
  unfold bufferNextRequest.
  erewrite bind_Ok; last first.
  { apply wrapRd_Ok. rewrite Hsplit, <- app_assoc. by apply io_CopyN_enough. }
  cbv beta iota. rewrite app_nil_l, Z.eqb_refl. cbn [negb]. rewrite Htake.
  destruct (Z.ltb_spec (le_combine (take 4 frame)) 16) as [| _]; [lia |].
  assert (Hrem : to_uint32 (le_combine (take 4 frame) - 16) = Z.of_nat (length payload)).
  { rewrite to_uint32_small by lia.
    rewrite <- Hlen, Hsplit at 1. rewrite length_app. lia. }
  rewrite Hrem.
  erewrite bind_Ok; last first.
  { apply wrapRd_Ok. by apply io_CopyN_enough. }
  cbv beta iota. rewrite Z.eqb_refl. cbn [negb]. by rewrite <- Hsplit.
Qed.

(** C6, as the code has it.  A frame the framer accepts starts the stream,
    declares a [messageLength] of at least 16 and is exactly that long; a
    stream whose first four bytes declare less than 16 makes the framer
    fail.  No upper bound is checked. *)
Theorem bufferNextRequest_length_check (b stream : list byte) :
  (∀ frame rest,
     bufferNextRequest b stream = (Ok frame, rest) ->
     stream = frame ++ rest ∧
     16 <= frame_messageLength frame ∧
     Z.of_nat (length frame) = frame_messageLength frame) ∧
  (frame_messageLength stream < 16 ->
   ∃ err rest, bufferNextRequest b stream = (Err err, rest)).
Proof.
  unfold frame_messageLength. split.
  - intros frame rest. unfold bufferNextRequest, mbind, Rd_bind, rd_bind, wrapRd, lift.
    destruct (io_CopyN [] 16 stream) as [[[hdr n] | e | s] r1] eqn:E1; try done.
    apply io_CopyN_Ok in E1 as (_ & -> & -> & -> & Hhdr).
    change (Z.to_nat 16) with 16%nat in *.
    cbn [wrap negb Z.eqb Pos.eqb]. rewrite app_nil_l.
    destruct (Z.ltb_spec (le_combine (take 4 (take 16 stream))) 16) as [| Hmin]; [done |].
    pose proof (le_combine_take4_bound (take 16 stream)) as Hb.
    rewrite to_uint32_small by lia.
    set (ml := le_combine (take 4 (take 16 stream))) in *.
    destruct (io_CopyN (take 16 stream) (ml - 16) (drop 16 stream))
      as [[[fr n] | e | s] r2] eqn:E2; try done.
    apply io_CopyN_Ok in E2 as (_ & -> & -> & -> & Hpay).
    cbn [wrap]. rewrite Z.eqb_refl. cbn [negb lift]. intros [= <- <-].
    assert (Htake : take 4 (take 16 stream ++ take (Z.to_nat (ml - 16)) (drop 16 stream))
                    = take 4 (take 16 stream)).
    { rewrite take_app_le by (rewrite length_take in *; lia). by rewrite take_take. }
    rewrite Htake. fold ml. split; [| split; [done |]].
    + rewrite <- app_assoc, take_drop. by rewrite take_drop.
    + rewrite length_app. lia.
  - intros Hsmall.
    destruct (Z.lt_ge_cases (Z.of_nat (length stream)) 16) as [Hshort | Hlong].
    + eexists _, _. unfold bufferNextRequest. apply bind_Err, wrapRd_Err.
      by apply io_CopyN_short.
    + eexists _, _. unfold bufferNextRequest.
      erewrite bind_Ok; last first.
      { apply wrapRd_Ok. rewrite <- (take_drop 16 stream) at 1.
        apply io_CopyN_enough. rewrite length_take. lia. }
      cbv beta iota. rewrite app_nil_l, Z.eqb_refl. cbn [negb].
      rewrite take_take. change (4 `min` 16)%nat with 4%nat.
      destruct (Z.ltb_spec (le_combine (take 4 stream)) 16); [done | lia].
Qed.

Lemma oversized_frame_messageLength : frame_messageLength oversized_frame = 48000001.
Proof.
  unfold frame_messageLength, oversized_frame.
  rewrite take_app_length' by (symmetry; apply length_le_split).
  rewrite le_combine_split. reflexivity.
Qed.

Lemma oversized_frame_length : Z.of_nat (length oversized_frame) = 48000001.
Proof.
  unfold oversized_frame.
  rewrite length_app, length_le_split, repeat_length, Nat2Z.inj_add, Z2Nat.id by done.
  reflexivity.
Qed.

(** C6, counterexample: the framer accepts a frame whose header declares
    48,000,001 bytes, one more than 48,000,000. *)
Lemma bufferNextRequest_accepts_oversized :
  bufferNextRequest [] oversized_frame = (Ok oversized_frame, []) ∧
  48000000 < frame_messageLength oversized_frame.
Proof.
  split.
  - rewrite <- (app_nil_r oversized_frame) at 1.
    apply bufferNextRequest_accepts.
    + rewrite oversized_frame_messageLength. done.
    + by rewrite oversized_frame_messageLength, oversized_frame_length.
  - rewrite oversized_frame_messageLength. done.
Qed.

(** ** The emulator *)

Section EmulatorFacts.
Context `{GoLibs} {B : Type} {backend : Backend B}.

(** C8. The built-in [replSetGetStatus] handler never succeeds.  Against a
    database other than [admin] it fails with server error 13
    (Unauthorized), against [admin] with server error 76
    (NoReplicationEnabled), each with its fixed message; the document of
    the OP_MSG error reply made from that error holds the message under
    [errmsg], [ok: 0], the code under [code] and the name of the code under
    [codeName]. *)
Theorem handleReplSetGetStatus_fails (now : Z) (b : B) (clientID : string)
    (req : CommandRequestT) :
  let admin := String.eqb (Database (cmd_Collection req)) "admin" in
  let code := if admin then 76 else 13 in
  let codeName := if admin then "NoReplicationEnabled" else "Unauthorized" in
  let msg := if admin then "not running with --replSet"
             else "replSetGetStatus may only be run against the admin database." in
  handleReplSetGetStatus now b clientID req = Err (ServerError code msg) ∧
  ∃ doc,
    Documents (toErrorResponse (ServerError code msg) ReplyTypeOpMsg) = [doc] ∧
    doc !! "errmsg" = Some (VString msg) ∧
    doc !! "ok" = Some (VInt 0) ∧
    doc !! "code" = Some (VErrorCode code) ∧
    doc !! "codeName" = Some (VString codeName).
Proof.
  unfold handleReplSetGetStatus.
  destruct (String.eqb _ "admin"); cbn zeta; cbn [negb];
    (split; [reflexivity |]); eexists; (split; [reflexivity |]);
    repeat split; reflexivity.
Qed.

(** What [HandleRequest] does once the request is decoded and processed. *)
Lemma HandleRequest_decoded (now : Z) (emu emu1 : MongoEmulator) (clientID : string)
    (w reqData : list byte) (req : Request) (res : Res Response) :
  Decode reqData = Ok req ->
  process now emu clientID req = (emu1, res) ->
  HandleRequest now emu clientID w reqData =
  match res with
  | Panic s => (emu1, w, Panic s)
  | Err err =>
      if bool_decide (GetReplyType req = ReplyTypeNone)
      then (set_lastError emu1 clientID (Some err), w, Ok tt)
      else
        let '(w', ret) := Encode w (toErrorResponse err (GetReplyType req))
                            (Request_RequestID req) (GetReplyType req) in
        (set_lastError (set_lastError emu1 clientID (Some err)) clientID None, w', ret)
  | Ok res =>
      if bool_decide (GetReplyType req = ReplyTypeNone)
      then (set_lastError emu1 clientID None, w, Ok tt)
      else
        let '(w', ret) := Encode w res (Request_RequestID req) (GetReplyType req) in
        (set_lastError emu1 clientID None, w', ret)
  end.
Proof.
  intros Hdec Hproc. unfold HandleRequest. rewrite Hdec, Hproc.
  destruct res as [res | err | s]; [| | done];
    destruct (bool_decide (GetReplyType req = ReplyTypeNone)); done.
Qed.

(** C1, as the code has it.  When processing a decoded request fails with
    [err]: for the envelope [None] the entry of the client in [lastError]
    holds [err] afterwards, nothing is written and [HandleRequest] returns
    success; for the other envelopes the error reply made from [err] is
    encoded and written, and the entry of the client is reset to nil. *)
Theorem HandleRequest_on_error (now : Z) (emu emu1 : MongoEmulator) (clientID : string)
    (w reqData : list byte) (req : Request) (err : GoError) :
  Decode reqData = Ok req ->
  process now emu clientID req = (emu1, Err err) ->
  let '(emu', w', ret) := HandleRequest now emu clientID w reqData in
  if bool_decide (GetReplyType req = ReplyTypeNone) then
    lastError emu' !! clientID = Some (Some err) ∧ w' = w ∧ ret = Ok tt
  else
    lastError emu' !! clientID = Some None ∧
    (w', ret) = Encode w (toErrorResponse err (GetReplyType req))
                  (Request_RequestID req) (GetReplyType req).
Proof.
  intros Hdec Hproc. rewrite (HandleRequest_decoded _ _ _ _ _ _ _ _ Hdec Hproc).
  destruct (bool_decide (GetReplyType req = ReplyTypeNone)).
  - cbn [set_lastError lastError]. by rewrite lookup_insert_eq.
  - destruct (Encode w _ _ _) as [w' ret].
    cbn [set_lastError lastError]. by rewrite lookup_insert_eq.
Qed.

(** X23. What [HandleRequest] writes and returns does not depend on [lastError]:
    the map is written to and never read. *)
Lemma HandleRequest_ignores_lastError (now : Z) (emu : MongoEmulator)
    (errors : gmap string (option GoError)) (clientID : string) (w reqData : list byte) :
  let emu2 := mkMongoEmulator (b emu) errors (cmdHandlers emu) in
  let '(emu', w', ret) := HandleRequest now emu clientID w reqData in
  let '(emu2', w2', ret2) := HandleRequest now emu2 clientID w reqData in
  w2' = w' ∧ ret2 = ret ∧ b emu2' = b emu'.
Proof.
  cbn zeta. unfold HandleRequest.
  destruct (Decode reqData) as [req | e | s]; [| done | done].
  unfold process. cbn [b cmdHandlers lastError].
  destruct (Backend_HandleRequest (b emu) clientID req) as [b' res].
  assert (Hcmd : ∀ le c, maybeProcessClientCommand now
                   (mkMongoEmulator b' le (cmdHandlers emu)) clientID c
                 = maybeProcessClientCommand now
                   (mkMongoEmulator b' errors (cmdHandlers emu)) clientID c) by done.
  destruct res as [res | err | s]; cbn [set_lastError b].
  - destruct (negb _); [| done]. by destruct (Encode w res _ _).
  - destruct (xerrors_Is err ErrUnsupportedRequest && _).
    + destruct req; try done.
      rewrite (Hcmd (lastError emu)).
      destruct (maybeProcessClientCommand _ _ _ _) as [res | err' | s];
        cbn [set_lastError b].
      * destruct (negb _); [| done]. by destruct (Encode w res _ _).
      * destruct (bool_decide _); [done |]. cbn [negb].
        by destruct (Encode w _ _ _).
      * done.
    + destruct (bool_decide _); [done |]. cbn [negb].
      by destruct (Encode w _ _ _).
  - done.
Qed.

End EmulatorFacts.

(** ** OP_MSG *)

Lemma bind_inv_Ok {A C} (m : Rd A) (k : A -> Rd C) (r r' : list byte) (c : C) :
  (m ≫= k) r = (Ok c, r') -> ∃ a r1, m r = (Ok a, r1) ∧ k a r1 = (Ok c, r').
Proof.
  unfold mbind, Rd_bind, rd_bind. destruct (m r) as [[a | e | s] r1]; try done. eauto.
Qed.

Lemma wrapRd_inv_Ok {A} (msg : string) (m : Rd A) (r r' : list byte) (a : A) :
  wrapRd msg m r = (Ok a, r') -> m r = (Ok a, r').
Proof. unfold wrapRd. destruct (m r) as [[a' | e | s] r1]; simpl; congruence. Qed.

Lemma io_ReadFull_inv_Ok (n : nat) (r r' bs : list byte) :
  io_ReadFull n r = (Ok bs, r') ->
  bs = take n r ∧ r' = drop n r ∧ (n <= length r)%nat.
Proof.
  unfold io_ReadFull. destruct r as [| c r1]; [done |].
  destruct (Nat.ltb_spec (length (c :: r1)) n); [done |]. by intros [= <- <-].
Qed.

Lemma binary_Read_inv_Ok (n : nat) (f : list byte -> Z) (r r' : list byte) (v : Z) :
  (bs ← io_ReadFull n; mret (f bs)) r = (Ok v, r') ->
  v = f (take n r) ∧ r' = drop n r ∧ (n <= length r)%nat.
Proof.
  intros (bs & r1 & Hread & Hret)%bind_inv_Ok.
  apply io_ReadFull_inv_Ok in Hread as (-> & -> & Hlen).
  unfold mret, Rd_ret in Hret. by injection Hret as <- <-.
Qed.

Lemma io_LimitReader_length {A} (n : Z) (m : Rd A) (r r' : list byte) (res : Res A) :
  io_LimitReader n m r = (res, r') -> (length r' <= length r)%nat.
Proof.
  unfold io_LimitReader. destruct (m _) as [res' sec']. intros [= _ <-].
  rewrite length_drop. lia.
Qed.

Section MsgFacts.
Context `{GoLibs}.

(** A document that is read takes at least its four size bytes. *)
Lemma decodeBSONDocument_Ok_length (r r' : list byte) (d : D) :
  decodeBSONDocument r = (Ok d, r') -> (length r' + 4 <= length r)%nat.
Proof.
  unfold decodeBSONDocument.
  intros (docSize & r1 & Hsize%wrapRd_inv_Ok & Hrest)%bind_inv_Ok.
  apply binary_Read_inv_Ok in Hsize as (_ & -> & Hlen).
  destruct (docSize <? 4); [done |].
  destruct (docSize - 4 =? 0).
  - unfold mret, Rd_ret in Hrest. injection Hrest as _ <-. rewrite length_drop. lia.
  - apply bind_inv_Ok in Hrest as (data & r2 & Hdata%wrapRd_inv_Ok & Hrest).
    assert (Hr2 : (length r2 <= length (drop 4 r))%nat).
    { unfold Reader_Read in Hdata. destruct (drop 4 r) as [| c r3]; [done |].
      injection Hdata as _ <-. rewrite length_drop. lia. }
    destruct (negb _); [done |].
    unfold lift in Hrest. injection Hrest as _ <-. rewrite length_drop in Hr2. lia.
Qed.

Lemma readDocsUntilEOF_fuel (fuel : nat) (msg : Z -> string) (docIdx : Z)
    (docs : list D) (r : list byte) :
  (length r < fuel)%nat -> is_Some (readDocsUntilEOF fuel msg docIdx docs r).
Proof.
  revert docIdx docs r. induction fuel as [| fuel IH]; intros docIdx docs r Hlen; [lia |].
  simpl. destruct (decodeBSONDocument r) as [[doc | err | s] r'] eqn:E.
  - apply IH. apply decodeBSONDocument_Ok_length in E. lia.
  - by destruct (xerrors_Is err io_EOF).
  - done.
Qed.

(** One byte is read when there is one, [io.EOF] is returned otherwise. *)
Lemma binary_Read_uint8_cases (r : list byte) :
  binary_Read_uint8 r = match r with
                        | [] => (Err io_EOF, [])
                        | c :: r' => (Ok (le_combine [c]), r')
                        end.
Proof. by destruct r. Qed.

(** The rest of a section, after its kind byte, leaves no more unread bytes
    than there were. *)
Lemma kind1_section_length (section kind : Z) (r r' : list byte) (sec : docSeqSection) :
  (size ← wrapRd ("unable to read size for section of type " +:+ fmt_d kind
                  +:+ " at index " +:+ fmt_d section +:+ " in msg op")
            binary_Read_uint32;
   io_LimitReader (size - 4)
     (path ← wrapRd ("unable to parse override path in section of type "
                     +:+ fmt_d kind +:+ " at index " +:+ fmt_d section
                     +:+ " in msg op") (decodeCString size);
      docs ← readDocs (fun docIdx =>
                "unable to parse doc at index " +:+ fmt_d docIdx
                +:+ " in section of type " +:+ fmt_d kind
                +:+ " at index " +:+ fmt_d section +:+ " in msg op");
      mret (mkDocSeqSection path (VDoc <$> docs)))) r = (Ok sec, r') ->
  (length r' <= length r)%nat.
Proof.
  intros (size & r1 & Hsize%wrapRd_inv_Ok & Hrest)%bind_inv_Ok.
  apply binary_Read_inv_Ok in Hsize as (_ & -> & Hlen).
  apply io_LimitReader_length in Hrest. rewrite length_drop in Hrest. lia.
Qed.

Lemma readSections_fuel (fuel : nat) (section : Z) (bodySection : D)
    (docSeqSections : list docSeqSection) (r : list byte) :
  (length r < fuel)%nat ->
  is_Some (readSections fuel section bodySection docSeqSections r).
Proof.
  revert section bodySection docSeqSections r.
  induction fuel as [| fuel IH]; intros section bodySection docSeqSections r Hlen; [lia |].
  cbn [readSections]. rewrite binary_Read_uint8_cases.
  destruct r as [| c r1]; [done |]. cbn [length] in Hlen.
  destruct (le_combine [c] =? 0).
  - destruct (wrapRd _ decodeBSONDocument r1) as [[[| item cmdDoc] | e | s] r2] eqn:E;
      try done.
    apply IH. apply wrapRd_inv_Ok, decodeBSONDocument_Ok_length in E. lia.
  - destruct (le_combine [c] =? 1); [| done].
    match goal with
    | |- context [match ?m r1 with _ => _ end] =>
        destruct (m r1) as [[sec | e | s] r2] eqn:E
    end; try done.
    apply IH. apply kind1_section_length in E. lia.
Qed.

(** The section loop ends well only at the end of the payload. *)
Lemma readSections_Ok_nil (fuel : nat) (section : Z) (bodySection : D)
    (docSeqSections : list docSeqSection) (r r' : list byte)
    (sections : D * list docSeqSection) :
  readSections fuel section bodySection docSeqSections r = Some (Ok sections, r') ->
  r' = [].
Proof.
  revert section bodySection docSeqSections r.
  induction fuel as [| fuel IH]; intros section bodySection docSeqSections r; [done |].
  cbn [readSections]. rewrite binary_Read_uint8_cases.
  destruct r as [| c r1].
  - destruct (decide (io_EOF = io_EOF)); [| done]. by intros [= _ <-].
  - destruct (le_combine [c] =? 0).
    + destruct (wrapRd _ decodeBSONDocument r1) as [[[| item cmdDoc] | e | s] r2];
        try done.
      apply IH.
    + destruct (le_combine [c] =? 1); [| done].
      match goal with
      | |- context [match ?m r1 with _ => _ end] =>
          destruct (m r1) as [[sec | e | s] r2]
      end; try done.
      apply IH.
Qed.

Lemma readAllSections_Ok_nil (r r' : list byte) (sections : D * list docSeqSection) :
  readAllSections r = (Ok sections, r') -> r' = [].
Proof.
  unfold readAllSections.
  destruct (readSections_fuel (S (length r)) 0 [] [] r) as [res Hres]; [lia |].
  rewrite Hres. intros ->. by eapply readSections_Ok_nil.
Qed.

(** With the checksum bit set, [decodeMsgOp] never returns a request. *)
Lemma decodeMsgOp_checksum_flag (hdr : RPCHeader) (flags : Z) (rest : list byte) :
  Z.land (to_uint32 flags) 1 = 1 ->
  is_Ok (decodeMsgOp hdr (le_split 4 flags ++ rest)).1 = false.
Proof.
  intros Hbit. unfold decodeMsgOp.
  rd_ok binary_Read_uint32_le_split.
  destruct (readAllSections rest) as [[[bodySection docSeqSections] | e | s] r1] eqn:E.
  - apply readAllSections_Ok_nil in E as Hnil. subst r1.
    erewrite bind_Ok by exact E. rewrite Hbit. cbn [Z.eqb Pos.eqb].
    by erewrite bind_Err by (by apply wrapRd_Err).
  - by erewrite bind_Err by exact E.
  - by erewrite bind_Panic by exact E.
Qed.

(** X14. What is checked of the sections: when [decodeMsgOp] returns a request,
    the section loop ended at the end of the payload with a non-empty body
    (the last one read), at most one document sequence, and no dot in the
    path of that sequence.  How many body sections were read is not
    checked. *)
Lemma decodeMsgOp_Ok_sections (hdr : RPCHeader) (r r' : list byte) (req : Request) :
  decodeMsgOp hdr r = (Ok req, r') ->
  ∃ flags r1 bodySection docSeqSections,
    binary_Read_uint32 r = (Ok flags, r1) ∧
    readAllSections r1 = (Ok (bodySection, docSeqSections), []) ∧
    bodySection ≠ [] ∧
    (length docSeqSections <= 1)%nat ∧
    Forall (fun sec => strings_ContainsRune_dot (path sec) = false) docSeqSections.
Proof.
  unfold decodeMsgOp.
  intros (flags & r1 & Hflags%wrapRd_inv_Ok & Hrest)%bind_inv_Ok.
  apply bind_inv_Ok in Hrest as ([bodySection docSeqSections] & r2 & Hsec & Hrest).
  apply readAllSections_Ok_nil in Hsec as Hnil. subst r2.
  apply bind_inv_Ok in Hrest as (crc & r3 & _ & Hrest).
  exists flags, r1, bodySection, docSeqSections. do 2 (split; [done |]).
  destruct bodySection as [| [cmdName value] fields]; [done |]. split; [done |].
  destruct (Nat.ltb_spec 1 (length docSeqSections)) as [| Hlen]; [done |].
  split; [done |].
  destruct (delete cmdName (D_Map ((cmdName, value) :: fields)) !! "$db")
    as [[| dbName | | | | | | | | | | |] |];
    try destruct (negb (String.eqb dbName ""));
    apply bind_inv_Ok in Hrest as (injected & r4 & Hinj & _);
    unfold lift in Hinj;
    (destruct docSeqSections as [| sec [| sec2 seqs]]; [done | | cbn in Hlen; lia]);
    (destruct (strings_ContainsRune_dot (path sec)) eqn:Hdot; [done |]);
    by repeat constructor.
Qed.

(** C3, as the code behaves.  An OP_MSG frame (opcode 2013) whose flag bits
    have bit 0 set is never decoded: the section loop stops only at the end
    of the payload, so no byte is left for the checksum that bit 0
    announces, or the checksum itself was taken for a section. *)
Theorem Decode_msg_checksum_flag_fails (ml rid rto flags : Z) (rest : list byte) :
  Z.land (to_uint32 flags) 1 = 1 ->
  is_Ok (Decode (le_split 4 ml ++ le_split 4 rid ++ le_split 4 rto ++ le_split 4 2013
                 ++ le_split 4 flags ++ rest)) = false.
Proof.
  intros Hbit. rewrite Decode_frame. cbn zeta.
  change (Opcode _) with 2013.
  destruct opDecoder_lookup as (_ & _ & _ & _ & _ & _ & ->). cbn [default].
  unfold id. cbv beta. by apply decodeMsgOp_checksum_flag.
Qed.

End MsgFacts.

(** ** Commands sent in an OP_QUERY *)

Section QueryFacts.
Context `{GoLibs}.

Lemma decodeCString_loop_bytes (maxLen totalRead : Z) (buf s rest : list byte) :
  Forall (fun c => Byte.eqb c x00 = false) s ->
  totalRead + Z.of_nat (length s) < maxLen ->
  decodeCString_loop maxLen totalRead buf (s ++ x00 :: rest)
  = (Ok (go_string (buf ++ s)), rest).
Proof.
  intros Hs. revert totalRead buf.
  induction Hs as [| c s Hc Hs IH]; intros totalRead buf Hlen; cbn [length] in Hlen.
  - cbn [app decodeCString_loop].
    destruct (Z.ltb_spec totalRead maxLen); [| lia]. by rewrite app_nil_r.
  - cbn [app decodeCString_loop].
    destruct (Z.ltb_spec totalRead maxLen); [| lia]. rewrite Hc.
    rewrite IH by lia. by rewrite <- app_assoc.
Qed.

Lemma decodeNamespacedCollection_bytes (maxLen : Z) (ns rest : list byte)
    (db col : string) :
  Forall (fun c => Byte.eqb c x00 = false) ns ->
  Z.of_nat (length ns) < maxLen ->
  strings_SplitN_dot (go_string ns) = Some (db, col) ->
  db ≠ "" -> col ≠ "" ->
  decodeNamespacedCollection maxLen (ns ++ x00 :: rest)
  = (Ok (mkNamespacedCollection db col), rest).
Proof.
  intros Hns Hlen Hsplit Hdb Hcol. unfold decodeNamespacedCollection.
  erewrite bind_Ok; last first.
  { apply wrapRd_Ok. unfold decodeCString. apply decodeCString_loop_bytes; [done | lia]. }
  rewrite app_nil_l, Hsplit.
  destruct (decide (db = "")); [done |]. destruct (decide (col = "")); done.
Qed.

(** A document of [docSize] bytes at the head of the reader is handed to
    [bson.Unmarshal] whole. *)
Lemma decodeBSONDocument_bytes (docSize : Z) (docBody rest : list byte) :
  4 < docSize < 2 ^ 31 ->
  Z.of_nat (length docBody) = docSize - 4 ->
  decodeBSONDocument (le_split 4 docSize ++ docBody ++ rest)
  = (wrap "unable to unmarshal BSON doc" (bson_Unmarshal (le_split 4 docSize ++ docBody)),
     rest).
Proof.
  intros Hsize Hlen. unfold decodeBSONDocument.
  assert (Hr : int32_range docSize) by (unfold int32_range; lia).
  rd_ok (binary_Read_int32_le_split docSize _ Hr).
  destruct (Z.ltb_spec docSize 4); [lia |].
  destruct (Z.eqb_spec (docSize - 4) 0); [lia |].
  erewrite bind_Ok; last first.
  { apply wrapRd_Ok. unfold Reader_Read.
    destruct (docBody ++ rest) eqn:E.
    - apply (f_equal length) in E. rewrite length_app in E. simpl in E. lia.
    - rewrite <- E. reflexivity. }
  assert (Hn : Z.to_nat (docSize - 4) = length docBody) by lia.
  rewrite Hn, take_app_length, drop_app_length, Hlen, Z.eqb_refl. cbn [negb].
  rewrite to_uint32_small by lia. done.
Qed.

Lemma cmdDecoder_lookup :
  cmdDecoder !! "insert" = Some decodeInsertCommand ∧
  cmdDecoder !! "update" = Some decodeUpdateCommand ∧
  cmdDecoder !! "delete" = Some decodeDeleteCommand ∧
  cmdDecoder !! "find" = Some decodeFindCommand ∧
  cmdDecoder !! "findAndModify" = Some decodeFindAndModifyCommand.
Proof. repeat split; reflexivity. Qed.

Lemma bind_res_inv_Ok {A C} (m : Res A) (k : A -> Res C) (c : C) :
  m ≫= k = Ok c -> ∃ a, m = Ok a ∧ k a = Ok c.
Proof. destruct m as [a | e | s]; try done. eauto. Qed.

(** The type of the request each command decoder returns. *)
Lemma cmdDecoder_type (cmdName : string) (dec : cmdDecoderFn) (hdr : RPCHeader)
    (nsCol : NamespacedCollection) (cmdArgs : M) (replyType : ReplyType) (req : Request) :
  cmdDecoder !! cmdName = Some dec ->
  dec hdr nsCol cmdArgs replyType = Ok req ->
  GetType req ∈ semantic_types cmdName ∧ GetReplyType req = replyType.
Proof.
  intros Hdec Hreq.
  destruct cmdDecoder_lookup as (Hi & Hu & Hd & Hf & Hm).
  unfold semantic_types.
  destruct (decide (cmdName = "insert")) as [-> |].
  { rewrite Hi in Hdec. injection Hdec as <-. unfold decodeInsertCommand in Hreq.
    destruct (cmdArgs !! "documents") as [[] |]; try done.
    apply bind_res_inv_Ok in Hreq as (docs & _ & [= <-]).
    split; [apply list_elem_of_here | done]. }
  destruct (decide (cmdName = "update")) as [-> |].
  { rewrite Hu in Hdec. injection Hdec as <-. unfold decodeUpdateCommand in Hreq.
    destruct (cmdArgs !! "updates") as [[] |]; try done.
    apply bind_res_inv_Ok in Hreq as (targets & _ & [= <-]).
    split; [apply list_elem_of_here | done]. }
  destruct (decide (cmdName = "delete")) as [-> |].
  { rewrite Hd in Hdec. injection Hdec as <-. unfold decodeDeleteCommand in Hreq.
    destruct (cmdArgs !! "deletes") as [[] |]; try done.
    apply bind_res_inv_Ok in Hreq as (targets & _ & [= <-]).
    split; [apply list_elem_of_here | done]. }
  destruct (decide (cmdName = "find")) as [-> |].
  { rewrite Hf in Hdec. injection Hdec as <-. unfold decodeFindCommand in Hreq.
    injection Hreq as <-. split; [apply list_elem_of_here | done]. }
  destruct (decide (cmdName = "findAndModify")) as [-> |].
  { rewrite Hm in Hdec. injection Hdec as <-. unfold decodeFindAndModifyCommand in Hreq.
    destruct (is_true (cmdArgs !! "remove")).
    - injection Hreq as <-.
      split; [apply list_elem_of_further, list_elem_of_here | done].
    - destruct (cmdArgs !! "update") as [[] |]; try done.
      apply bind_res_inv_Ok in Hreq as (filters & _ & [= <-]).
      split; [apply list_elem_of_here | done]. }
  exfalso. unfold cmdDecoder in Hdec. cbn [list_to_map foldr fst snd] in Hdec.
  rewrite !lookup_insert_ne in Hdec by done. by rewrite lookup_empty in Hdec.
Qed.

Lemma semantic_types_not_Command (cmdName : string) (t : RequestType) :
  t ∈ semantic_types cmdName -> t ≠ RequestTypeCommand.
Proof.
  unfold semantic_types.
  repeat destruct (decide _); rewrite ?elem_of_cons, ?elem_of_nil; intros Ht Heq;
    subst t; intuition discriminate.
Qed.

(** C4, as the code has it.  Take an OP_QUERY frame (opcode 2004) whose
    namespace cstring, split at its first dot, is a non-empty database and
    the collection [$cmd], and whose query document starts with a field
    named [insert], [update], [delete], [find] or [findAndModify].  If
    [Decode] returns a request, its type is the semantic type of that
    command (Insert, Update, Delete, Query, FindAndUpdate or FindAndDelete),
    not Command. *)
Theorem Decode_query_command_type (ml rid rto flags numToSkip numToReturn docSize : Z)
    (ns docBody tail : list byte) (db cmdName : string) (value : Value) (fields : D)
    (req : Request) :
  Forall (fun c => Byte.eqb c x00 = false) ns ->
  int32_range ml ->
  Z.of_nat (length ns) < ml - 20 ->
  strings_SplitN_dot (go_string ns) = Some (db, "$cmd") ->
  db ≠ "" ->
  4 < docSize < 2 ^ 31 ->
  Z.of_nat (length docBody) = docSize - 4 ->
  bson_Unmarshal (le_split 4 docSize ++ docBody) = Ok ((cmdName, value) :: fields) ->
  cmdName ∈ ["insert"; "update"; "delete"; "find"; "findAndModify"] ->
  Decode (le_split 4 ml ++ le_split 4 rid ++ le_split 4 rto ++ le_split 4 2004
          ++ le_split 4 flags ++ ns ++ x00 :: le_split 4 numToSkip
          ++ le_split 4 numToReturn ++ le_split 4 docSize ++ docBody ++ tail) = Ok req ->
  GetType req ∈ semantic_types cmdName ∧ GetType req ≠ RequestTypeCommand.
Proof.
  intros Hns Hml Hlen Hsplit Hdb Hsize Hbody Hunm Hcmd.
  rewrite Decode_frame. cbn zeta. change (Opcode _) with 2004.
  destruct opDecoder_lookup as (_ & _ & -> & _). cbn [default]. unfold id. cbv beta.
  unfold decodeQueryOp, PayloadLength, sizeOfRPCHeader. cbn [MessageLength].
  replace (to_int32 (to_uint32 ml)) with ml
    by (unfold to_uint32; by rewrite to_int32_small).
  rd_ok binary_Read_uint32_le_split.
  erewrite bind_Ok; last first.
  { apply wrapRd_Ok. apply decodeNamespacedCollection_bytes; [done | lia | done..]. }
  rd_ok binary_Read_int32_le_split'.
  rd_ok binary_Read_int32_le_split'.
  erewrite bind_Ok; last first.
  { apply wrapRd_Ok. rewrite decodeBSONDocument_bytes, Hunm by done. reflexivity. }
  assert (Hdec : ∃ dec, cmdDecoder !! cmdName = Some dec).
  { destruct cmdDecoder_lookup as (Hi & Hu & Hd & Hf & Hm).
    set_unfold. destruct Hcmd as [-> | [-> | [-> | [-> | [-> | []]]]]]; eauto. }
  destruct Hdec as [dec Hdec].
  unfold mbind at 1, Rd_bind, rd_bind.
  assert (Hgoal : ∀ r2 : list byte,
            (match cmdDecoder !! cmdName with
             | Some dec0 =>
                 lift (dec0 (mkRPCHeader ml (to_int32 (to_uint32 rid))
                               (to_int32 (to_uint32 rto)) (to_int32 (to_uint32 2004)))
                         (override_collection (mkNamespacedCollection db "$cmd") value)
                         (delete cmdName (D_Map ((cmdName, value) :: fields)))
                         ReplyTypeOpReply)
             | None =>
                 mret (CommandRequest
                         (mkCommandRequest
                            (mkRequestInfo
                               (mkRPCHeader ml (to_int32 (to_uint32 rid))
                                  (to_int32 (to_uint32 rto)) (to_int32 (to_uint32 2004)))
                               RequestTypeCommand ReplyTypeOpReply)
                            (override_collection (mkNamespacedCollection db "$cmd") value)
                            cmdName (delete cmdName (D_Map ((cmdName, value) :: fields)))))
             end r2).1 = Ok req ->
            GetType req ∈ semantic_types cmdName ∧ GetType req ≠ RequestTypeCommand).
  { intros r2. rewrite Hdec. unfold lift. cbn [fst]. intros Hreq.
    destruct (cmdDecoder_type _ _ _ _ _ _ _ Hdec Hreq) as [Hty _].
    split; [done | by eapply semantic_types_not_Command]. }
  unfold mbind, Rd_bind, rd_bind.
  destruct (decodeBSONDocument tail) as [[sel | e | s] r2]; cbn [Collection].
  - cbn [String.eqb Ascii.eqb Bool.eqb negb]. apply Hgoal.
  - destruct (xerrors_Is e io_EOF); cbn [negb]; [| done].
    cbn [String.eqb Ascii.eqb Bool.eqb negb]. apply Hgoal.
  - done.
Qed.

End QueryFacts.

(** ** What every decoded request carries *)

Section HeaderFacts.
Context `{GoLibs}.

Lemma opDecoder_cases (op : Z) :
  (op = 2001 ∧ (opDecoder !! op) = Some decodeUpdateOp) ∨
  (op = 2002 ∧ (opDecoder !! op) = Some decodeInsertOp) ∨
  (op = 2004 ∧ (opDecoder !! op) = Some decodeQueryOp) ∨
  (op = 2005 ∧ (opDecoder !! op) = Some decodeGetMoreOp) ∨
  (op = 2006 ∧ (opDecoder !! op) = Some decodeDeleteOp) ∨
  (op = 2007 ∧ (opDecoder !! op) = Some decodeKillCursorsOp) ∨
  (op = 2013 ∧ (opDecoder !! op) = Some decodeMsgOp) ∨
  ((op ∉ [2001; 2002; 2004; 2005; 2006; 2007; 2013]) ∧ (opDecoder !! op) = None).
Proof.
  destruct opDecoder_lookup as (H1 & H2 & H4 & H5 & H6 & H7 & H13).
  destruct (decide (op = 2001)) as [-> |]; [left; done |].
  destruct (decide (op = 2002)) as [-> |]; [right; left; done |].
  destruct (decide (op = 2004)) as [-> |]; [do 2 right; left; done |].
  destruct (decide (op = 2005)) as [-> |]; [do 3 right; left; done |].
  destruct (decide (op = 2006)) as [-> |]; [do 4 right; left; done |].
  destruct (decide (op = 2007)) as [-> |]; [do 5 right; left; done |].
  destruct (decide (op = 2013)) as [-> |]; [do 6 right; left; done |].
  do 7 right. split.
  - rewrite !elem_of_cons, elem_of_nil. intuition lia.
  - unfold opDecoder. cbn [list_to_map foldr fst snd].
    rewrite !lookup_insert_ne by done. apply lookup_empty.
Qed.

(** A command decoder hands on the header and the envelope it was given. *)
Lemma cmdDecoder_info (cmdName : string) (dec : cmdDecoderFn) (hdr : RPCHeader)
    (nsCol : NamespacedCollection) (cmdArgs : M) (replyType : ReplyType) (req : Request) :
  cmdDecoder !! cmdName = Some dec ->
  dec hdr nsCol cmdArgs replyType = Ok req ->
  Header (Info req) = hdr ∧ GetReplyType req = replyType.
Proof.
  intros Hdec Hreq.
  destruct cmdDecoder_lookup as (Hi & Hu & Hd & Hf & Hm).
  destruct (decide (cmdName = "insert")) as [-> |].
  { rewrite Hi in Hdec. injection Hdec as <-. unfold decodeInsertCommand in Hreq.
    destruct (cmdArgs !! "documents") as [[] |]; try done.
    by apply bind_res_inv_Ok in Hreq as (docs & _ & [= <-]). }
  destruct (decide (cmdName = "update")) as [-> |].
  { rewrite Hu in Hdec. injection Hdec as <-. unfold decodeUpdateCommand in Hreq.
    destruct (cmdArgs !! "updates") as [[] |]; try done.
    by apply bind_res_inv_Ok in Hreq as (targets & _ & [= <-]). }
  destruct (decide (cmdName = "delete")) as [-> |].
  { rewrite Hd in Hdec. injection Hdec as <-. unfold decodeDeleteCommand in Hreq.
    destruct (cmdArgs !! "deletes") as [[] |]; try done.
    by apply bind_res_inv_Ok in Hreq as (targets & _ & [= <-]). }
  destruct (decide (cmdName = "find")) as [-> |].
  { rewrite Hf in Hdec. injection Hdec as <-. unfold decodeFindCommand in Hreq.
    by injection Hreq as <-. }
  destruct (decide (cmdName = "findAndModify")) as [-> |].
  { rewrite Hm in Hdec. injection Hdec as <-. unfold decodeFindAndModifyCommand in Hreq.
    destruct (is_true (cmdArgs !! "remove")).
    - by injection Hreq as <-.
    - destruct (cmdArgs !! "update") as [[] |]; try done.
      by apply bind_res_inv_Ok in Hreq as (filters & _ & [= <-]). }
  exfalso. unfold cmdDecoder in Hdec. cbn [list_to_map foldr fst snd] in Hdec.
  rewrite !lookup_insert_ne in Hdec by done. by rewrite lookup_empty in Hdec.
Qed.

Lemma mret_inv_Ok {A} (a a' : A) (r r' : list byte) :
  (mret a : Rd A) r = (Ok a', r') -> a' = a ∧ r' = r.
Proof. unfold mret, Rd_ret. by intros [= <- <-]. Qed.

Lemma decodeUpdateOp_info (hdr : RPCHeader) (r r' : list byte) (req : Request) :
  decodeUpdateOp hdr r = (Ok req, r') ->
  Header (Info req) = hdr ∧ GetReplyType req = ReplyTypeNone.
Proof.
  unfold decodeUpdateOp.
  intros (? & ? & _ & (? & ? & _ & (? & ? & _ & (? & ? & _
          & (? & ? & _ & [-> _]%mret_inv_Ok)%bind_inv_Ok)%bind_inv_Ok)%bind_inv_Ok)
          %bind_inv_Ok)%bind_inv_Ok.
  done.
Qed.

Lemma decodeInsertOp_info (hdr : RPCHeader) (r r' : list byte) (req : Request) :
  decodeInsertOp hdr r = (Ok req, r') ->
  Header (Info req) = hdr ∧ GetReplyType req = ReplyTypeNone.
Proof.
  unfold decodeInsertOp.
  intros (? & ? & _ & (? & ? & _ & (? & ? & _ & [-> _]%mret_inv_Ok)%bind_inv_Ok)
          %bind_inv_Ok)%bind_inv_Ok.
  done.
Qed.

Lemma decodeGetMoreOp_info (hdr : RPCHeader) (r r' : list byte) (req : Request) :
  decodeGetMoreOp hdr r = (Ok req, r') ->
  Header (Info req) = hdr ∧ GetReplyType req = ReplyTypeOpReply.
Proof.
  unfold decodeGetMoreOp.
  intros (? & ? & _ & (? & ? & _ & (? & ? & _ & (? & ? & _
          & [-> _]%mret_inv_Ok)%bind_inv_Ok)%bind_inv_Ok)%bind_inv_Ok)%bind_inv_Ok.
  done.
Qed.

Lemma decodeDeleteOp_info (hdr : RPCHeader) (r r' : list byte) (req : Request) :
  decodeDeleteOp hdr r = (Ok req, r') ->
  Header (Info req) = hdr ∧ GetReplyType req = ReplyTypeNone.
Proof.
  unfold decodeDeleteOp.
  intros (? & ? & _ & (? & ? & _ & (? & ? & _ & (? & ? & _
          & [-> _]%mret_inv_Ok)%bind_inv_Ok)%bind_inv_Ok)%bind_inv_Ok)%bind_inv_Ok.
  done.
Qed.

Lemma decodeKillCursorsOp_info (hdr : RPCHeader) (r r' : list byte) (req : Request) :
  decodeKillCursorsOp hdr r = (Ok req, r') ->
  Header (Info req) = hdr ∧ GetReplyType req = ReplyTypeNone.
Proof.
  unfold decodeKillCursorsOp.
  intros (? & ? & _ & (? & ? & _ & (? & ? & _ & (? & ? & _
          & [-> _]%mret_inv_Ok)%bind_inv_Ok)%bind_inv_Ok)%bind_inv_Ok)%bind_inv_Ok.
  done.
Qed.

Lemma decodeQueryOp_info (hdr : RPCHeader) (r r' : list byte) (req : Request) :
  decodeQueryOp hdr r = (Ok req, r') ->
  Header (Info req) = hdr ∧ GetReplyType req = ReplyTypeOpReply.
Proof.
  unfold decodeQueryOp.
  intros (flags & ? & _ & (nsCol & ? & _ & (? & ? & _ & (? & ? & _
          & (queryDoc & ? & _ & (sel & ? & _ & Hrest)%bind_inv_Ok)%bind_inv_Ok)
          %bind_inv_Ok)%bind_inv_Ok)%bind_inv_Ok)%bind_inv_Ok.
  destruct (negb _).
  - by apply mret_inv_Ok in Hrest as [-> _].
  - destruct queryDoc as [| [cmdName value] fields]; [done |].
    destruct (cmdDecoder !! cmdName) as [dec |] eqn:Hdec.
    + unfold lift in Hrest. injection Hrest as Hreq _.
      by eapply cmdDecoder_info.
    + by apply mret_inv_Ok in Hrest as [-> _].
Qed.

Lemma wrap_inv_Ok {A} (msg : string) (m : Res A) (a : A) : wrap msg m = Ok a -> m = Ok a.
Proof. by destruct m. Qed.

Lemma decodeMsgOp_info (hdr : RPCHeader) (r r' : list byte) (req : Request) :
  decodeMsgOp hdr r = (Ok req, r') ->
  Header (Info req) = hdr ∧ GetReplyType req = ReplyTypeOpMsg.
Proof.
  unfold decodeMsgOp.
  intros (flags & ? & _ & ([bodySection docSeqSections] & ? & _
          & (crc & ? & _ & Hrest)%bind_inv_Ok)%bind_inv_Ok)%bind_inv_Ok.
  destruct bodySection as [| [cmdName value] fields]; [done |].
  destruct (1 <? length docSeqSections)%nat; [done |].
  destruct (delete cmdName (D_Map ((cmdName, value) :: fields)) !! "$db")
    as [[| dbName | | | | | | | | | | |] |];
    try destruct (negb (String.eqb dbName ""));
    apply bind_inv_Ok in Hrest as (injected & ? & _ & Hrest);
    (destruct (cmdDecoder !! cmdName) as [dec |] eqn:Hdec;
     [ unfold lift in Hrest; injection Hrest as Hreq%wrap_inv_Ok _;
       by eapply cmdDecoder_info
     | by apply mret_inv_Ok in Hrest as [-> _] ]).
Qed.

Lemma Decode_Ok_header (frame : list byte) (req : Request) :
  Decode frame = Ok req ->
  ∃ payload,
    decodeHeader frame = (Ok (Header (Info req)), payload) ∧
    GetReplyType req = reply_envelope (Opcode (Header (Info req))).
Proof.
  unfold Decode.
  match goal with |- fst ?x = _ -> _ => destruct x as [res r'] eqn:E end.
  cbn [fst]. intros ->.
  apply bind_inv_Ok in E as (hdr & payload & Hhdr%wrapRd_inv_Ok & Hdec).
  exists payload.
  assert (Hinfo : Header (Info req) = hdr ∧ GetReplyType req = reply_envelope (Opcode hdr)).
  { destruct (opDecoder_cases (Opcode hdr))
      as [[Hnot Hop] | [[Hnot Hop] | [[Hnot Hop] | [[Hnot Hop] | [[Hnot Hop]
          | [[Hnot Hop] | [[Hnot Hop] | [Hnot Hop]]]]]]]];
      rewrite Hop in Hdec; cbn [default from_option id] in Hdec; try rewrite Hnot.
    - by apply decodeUpdateOp_info in Hdec.
    - by apply decodeInsertOp_info in Hdec.
    - by apply decodeQueryOp_info in Hdec.
    - by apply decodeGetMoreOp_info in Hdec.
    - by apply decodeDeleteOp_info in Hdec.
    - by apply decodeKillCursorsOp_info in Hdec.
    - by apply decodeMsgOp_info in Hdec.
    - unfold decodeUnknownOp in Hdec. injection Hdec as <- _. split; [done |].
      cbn [GetReplyType Info replyType Header].
      rewrite !elem_of_cons, elem_of_nil in Hnot.
      unfold reply_envelope. repeat destruct (decide _); intuition lia. }
  destruct Hinfo as [-> Henv]. by rewrite Henv.
Qed.

(** X1. A request that [Decode] returns carries the header at the start of the
    frame, field by field, and the reply envelope of its opcode: OP_REPLY
    for OP_QUERY (2004) and OP_GET_MORE (2005), OP_MSG for OP_MSG (2013),
    none for every other opcode. *)
Theorem Decode_header_and_envelope (frame : list byte) (req : Request) :
  Decode frame = Ok req ->
  ∃ payload,
    decodeHeader frame = (Ok (Header (Info req)), payload) ∧
    GetReplyType req = reply_envelope (Opcode (Header (Info req))).
Proof. apply Decode_Ok_header. Qed.

End HeaderFacts.

(** ** Unknown opcodes and short frames *)

Section UnknownFacts.
Context `{GoLibs}.

(** X2. A frame whose opcode has no decoder is never rejected: it is kept as an
    [UnknownRequest] with the bytes after the header as payload and no
    reply envelope.  This includes OP_REPLY (opcode 1). *)
Theorem Decode_unknown_opcode (ml rid rto op : Z) (payload : list byte) :
  int32_range op ->
  op ∉ [2001; 2002; 2004; 2005; 2006; 2007; 2013] ->
  Decode (le_split 4 ml ++ le_split 4 rid ++ le_split 4 rto ++ le_split 4 op ++ payload)
  = Ok (UnknownRequest
          (mkRequestInfo
             (mkRPCHeader (to_int32 (to_uint32 ml)) (to_int32 (to_uint32 rid))
                (to_int32 (to_uint32 rto)) op)
             RequestTypeUnknown ReplyTypeNone)
          payload).
Proof.
  intros Hop Hnot. rewrite Decode_frame. cbn zeta. cbn [Opcode].
  assert (Heq : to_int32 (to_uint32 op) = op) by (by apply to_int32_small).
  rewrite Heq.
  destruct (opDecoder_cases op)
    as [[-> _] | [[-> _] | [[-> _] | [[-> _] | [[-> _] | [[-> _] | [[-> _] | [_ ->]]]]]]]];
    try (exfalso; apply Hnot; rewrite !elem_of_cons; tauto).
  reflexivity.
Qed.

(** X3. Fewer than sixteen bytes are not a request: [Decode] fails while it
    reads the header, with [io.EOF] when a field starts at the end of the
    input and [io.ErrUnexpectedEOF] when the input ends inside a field. *)
Theorem Decode_short_header (frame : list byte) :
  (length frame < 16)%nat ->
  ∃ field err,
    Decode frame = Err (Wrapf "unable to decode request header" (Wrapf field err)) ∧
    err = (if (length frame mod 4 =? 0)%nat then io_EOF else io_ErrUnexpectedEOF).
Proof.
  intros Hlen.
  do 16 (destruct frame as [| ? frame]; [eexists _, _; split; reflexivity |]).
  cbn [length] in Hlen. lia.
Qed.

End UnknownFacts.

(** ** Zero-terminated strings and namespaces *)

Lemma go_bytes_go_string (bs : list byte) : go_bytes (go_string bs) = bs.
Proof. apply list_byte_of_string_of_list_byte. Qed.

Lemma go_string_go_bytes (s : string) : go_string (go_bytes s) = s.
Proof. apply string_of_list_byte_of_string. Qed.

Section CStringFacts.
Context `{GoLibs}.

Lemma decodeCString_loop_inv (maxLen totalRead : Z) (buf r r' : list byte) (s : string) :
  decodeCString_loop maxLen totalRead buf r = (Ok s, r') ->
  ∃ bs, r = bs ++ x00 :: r' ∧ s = go_string (buf ++ bs) ∧
        Forall (fun c => Byte.eqb c x00 = false) bs ∧
        totalRead + Z.of_nat (length bs) < maxLen.
Proof.
  revert totalRead buf. induction r as [| c r IH]; intros totalRead buf; cbn [decodeCString_loop].
  - by destruct (totalRead <? maxLen).
  - destruct (Z.ltb_spec totalRead maxLen) as [Hlt |]; [| done].
    destruct (Byte.eqb c x00) eqn:Hc.
    + intros [= <- <-]. apply Byte.byte_dec_bl in Hc as ->. exists [].
      rewrite app_nil_r. repeat split; [constructor | cbn; lia].
    + intros (bs & -> & -> & Hbs & Hlen)%IH. exists (c :: bs).
      rewrite <- app_assoc. repeat split; try done.
      * by constructor.
      * cbn [length]. lia.
Qed.

(** X4. [decodeCString] succeeds exactly when a zero byte follows fewer than
    [maxLen] non-zero bytes: it returns those bytes as a string and leaves
    what follows the zero byte unread. *)
Theorem decodeCString_spec (maxLen : Z) (r r' : list byte) (s : string) :
  decodeCString maxLen r = (Ok s, r') ↔
  ∃ bs, r = bs ++ x00 :: r' ∧ s = go_string bs ∧
        Forall (fun c => Byte.eqb c x00 = false) bs ∧
        Z.of_nat (length bs) < maxLen.
Proof.
  unfold decodeCString. split.
  - intros (bs & -> & -> & Hbs & Hlen)%decodeCString_loop_inv. exists bs.
    repeat split; [done | lia].
  - intros (bs & -> & -> & Hbs & Hlen). by apply decodeCString_loop_bytes; [| lia].
Qed.

Lemma decodeCString_loop_no_terminator (maxLen totalRead : Z) (buf r : list byte) :
  Forall (fun c => Byte.eqb c x00 = false) (take (Z.to_nat (maxLen - totalRead)) r) ->
  ∃ err r', decodeCString_loop maxLen totalRead buf r = (Err err, r').
Proof.
  revert totalRead buf. induction r as [| c r IH]; intros totalRead buf Hnz;
    cbn [decodeCString_loop].
  - destruct (totalRead <? maxLen); eauto.
  - destruct (Z.ltb_spec totalRead maxLen) as [Hlt |]; [| eauto].
    replace (Z.to_nat (maxLen - totalRead)) with (S (Z.to_nat (maxLen - (totalRead + 1))))
      in Hnz by lia.
    cbn [take] in Hnz. apply Forall_cons in Hnz as [-> Hnz]. by apply IH.
Qed.

(** X5. Without a zero byte among the first [maxLen] bytes, [decodeCString]
    fails: at the end of the input, or after [maxLen] bytes. *)
Theorem decodeCString_no_terminator (maxLen : Z) (r : list byte) :
  Forall (fun c => Byte.eqb c x00 = false) (take (Z.to_nat maxLen) r) ->
  ∃ err r', decodeCString maxLen r = (Err err, r').
Proof.
  intros Hnz. apply decodeCString_loop_no_terminator. by rewrite Z.sub_0_r.
Qed.

End CStringFacts.

Lemma strings_SplitN_dot_Some (s a b : string) :
  strings_SplitN_dot s = Some (a, b) ↔
  s = a +:+ "." +:+ b ∧ strings_ContainsRune_dot a = false.
Proof.
  revert a. induction s as [| c s IH]; intros a; cbn [strings_SplitN_dot].
  - split; [done |]. intros [Hs _]. by destruct a.
  - destruct (Ascii.eqb_spec c ".") as [-> | Hc].
    + split.
      * by intros [= <- <-].
      * intros [Hs Ha]. destruct a as [| c' a]; cbn in Hs, Ha.
        -- by injection Hs as ->.
        -- injection Hs as <- _. by rewrite Ascii.eqb_refl in Ha.
    + destruct (strings_SplitN_dot s) as [[a' b'] |].
      * split.
        -- intros [= <- <-]. destruct (proj1 (IH a') eq_refl) as [-> Ha]. cbn.
           split; [done |]. rewrite Ha. by apply Ascii.eqb_neq in Hc as ->.
        -- intros [Hs Ha]. destruct a as [| c' a]; cbn in Hs, Ha.
           ++ by injection Hs as -> _.
           ++ injection Hs as <- Hs. apply orb_false_elim in Ha as [_ Ha].
              assert (Hab : Some (a', b') = Some (a, b)) by (by apply IH).
              by injection Hab as -> ->.
      * split; [done |]. intros [Hs Ha]. destruct a as [| c' a]; cbn in Hs, Ha.
        -- by injection Hs as -> _.
        -- injection Hs as <- Hs. apply orb_false_elim in Ha as [_ Ha].
           assert (Hab : None = Some (a, b)) by (by apply IH). done.
Qed.

Section NamespaceFacts.
Context `{GoLibs}.

(** X6. What [decodeNamespacedCollection] accepts has a non-empty database
    without a dot and a non-empty collection, and the bytes it consumed
    are the namespace's [String()] followed by a zero byte. *)
Theorem decodeNamespacedCollection_inv (maxLen : Z) (r r' : list byte)
    (c : NamespacedCollection) :
  decodeNamespacedCollection maxLen r = (Ok c, r') ->
  r = go_bytes (NamespacedCollection_String c) ++ x00 :: r' ∧
  Database c ≠ "" ∧ Collection c ≠ "" ∧
  strings_ContainsRune_dot (Database c) = false.
Proof.
  unfold decodeNamespacedCollection.
  intros (cstring & r1 & Hcs & Hrest)%bind_inv_Ok.
  apply wrapRd_inv_Ok in Hcs. unfold decodeCString in Hcs.
  apply decodeCString_loop_inv in Hcs as (bs & -> & -> & _ & _). rewrite app_nil_l in *.
  destruct (strings_SplitN_dot (go_string bs)) as [[db col] |] eqn:Hsplit; [| done].
  destruct (decide (db = "")); [done |]. destruct (decide (col = "")); [done |].
  injection Hrest as <- <-. apply strings_SplitN_dot_Some in Hsplit as [Hbs Hdb].
  unfold NamespacedCollection_String. cbn [Database Collection].
  rewrite <- Hbs, go_bytes_go_string. done.
Qed.

(** X7. Round trip: the [String()] of a namespace with a non-empty dot-free
    database and a non-empty collection, zero-terminated, decodes to that
    namespace and leaves the bytes after it unread. *)
Theorem decodeNamespacedCollection_String (maxLen : Z) (c : NamespacedCollection)
    (rest : list byte) :
  Database c ≠ "" -> Collection c ≠ "" ->
  strings_ContainsRune_dot (Database c) = false ->
  Forall (fun b => Byte.eqb b x00 = false) (go_bytes (NamespacedCollection_String c)) ->
  Z.of_nat (length (go_bytes (NamespacedCollection_String c))) < maxLen ->
  decodeNamespacedCollection maxLen (go_bytes (NamespacedCollection_String c) ++ x00 :: rest)
  = (Ok c, rest).
Proof.
  intros Hdb Hcol Hdot Hnz Hlen. destruct c as [db col].
  apply decodeNamespacedCollection_bytes; try done.
  rewrite go_string_go_bytes. by apply strings_SplitN_dot_Some.
Qed.

End NamespaceFacts.

(** ** Documents, OP_INSERT and OP_KILL_CURSORS *)

Section DocumentFacts.
Context `{GoLibs}.

(** X8. A document that [decodeBSONDocument] returns took exactly the number
    of bytes its size field announces (at least four): a size of four is
    the empty document, without a call of [bson.Unmarshal]; otherwise the
    document is what [bson.Unmarshal] makes of those bytes, size field
    included. *)
Theorem decodeBSONDocument_inv (r r' : list byte) (d : D) :
  decodeBSONDocument r = (Ok d, r') ->
  ∃ docSize : Z,
    4 <= docSize < 2 ^ 31 ∧
    take 4 r = le_split 4 docSize ∧
    docSize <= Z.of_nat (length r) ∧
    r' = drop (Z.to_nat docSize) r ∧
    if docSize =? 4 then d = []
    else bson_Unmarshal (take (Z.to_nat docSize) r) = Ok d.
Proof.
  unfold decodeBSONDocument.
  intros (docSize & r1 & Hsize%wrapRd_inv_Ok & Hrest)%bind_inv_Ok.
  apply binary_Read_inv_Ok in Hsize as (Hsize & -> & Hlen).
  destruct (Z.ltb_spec docSize 4) as [| Hmin]; [done |].
  pose proof (le_combine_take4_bound r) as Hb.
  assert (Hcomb : le_combine (take 4 r) = docSize).
  { rewrite Hsize in Hmin |- *. unfold to_int32 in *.
    change (2 ^ 32) with 4294967296 in *. change (2 ^ 31) with 2147483648 in *.
    Z.div_mod_to_equations. lia. }
  assert (Hmax : docSize < 2 ^ 31).
  { rewrite Hsize. unfold to_int32.
    change (2 ^ 32) with 4294967296 in *. change (2 ^ 31) with 2147483648 in *.
    Z.div_mod_to_equations. lia. }
  assert (Htake : take 4 r = le_split 4 docSize).
  { rewrite <- Hcomb.
    replace 4%nat with (length (take 4 r)) at 2 by (rewrite length_take; lia).
    symmetry. apply split_le_combine. }
  exists docSize. split; [lia |]. split; [done |].
  destruct (Z.eqb_spec (docSize - 4) 0) as [Hzero | Hnz].
  - apply mret_inv_Ok in Hrest as [-> ->].
    replace docSize with 4 by lia. repeat split. lia.
  - apply bind_inv_Ok in Hrest as (data & r2 & Hdata%wrapRd_inv_Ok & Hrest).
    unfold Reader_Read in Hdata. destruct (drop 4 r) as [| c r3] eqn:Hdrop; [done |].
    rewrite <- Hdrop in Hdata. injection Hdata as <- <-.
    destruct (Z.eqb_spec (Z.of_nat (length (take (Z.to_nat (docSize - 4)) (drop 4 r))))
                (docSize - 4)) as [Hdata |]; [| done].
    cbn [negb] in Hrest. unfold lift in Hrest.
    pose proof (f_equal fst Hrest) as Hun. pose proof (f_equal snd Hrest) as Hr.
    cbn [fst snd] in Hun, Hr. subst r'. clear Hrest.
    apply wrap_inv_Ok in Hun.
    rewrite length_take, length_drop in Hdata.
    rewrite drop_drop. replace (4 + Z.to_nat (docSize - 4))%nat with (Z.to_nat docSize) by lia.
    split; [lia |]. split; [done |].
    destruct (Z.eqb_spec docSize 4); [lia |].
    rewrite <- Hun. f_equal.
    rewrite to_uint32_small by lia. rewrite <- Htake.
    rewrite take_take_drop. f_equal. lia.
Qed.

(** A document given by its bytes: they start with their own number as a
    32-bit size field. *)
Lemma decodeBSONDocument_raw (raw rest : list byte) :
  4 < Z.of_nat (length raw) < 2 ^ 31 ->
  take 4 raw = le_split 4 (Z.of_nat (length raw)) ->
  decodeBSONDocument (raw ++ rest)
  = (wrap "unable to unmarshal BSON doc" (bson_Unmarshal raw), rest).
Proof.
  intros Hlen Hsize.
  rewrite <- (take_drop 4 raw) at 1 2. rewrite Hsize, <- app_assoc.
  apply decodeBSONDocument_bytes; [done |]. rewrite length_drop. lia.
Qed.

(** A size field with nothing after it: the read of the body returns
    [io.EOF]. *)
Lemma decodeBSONDocument_dangling_size (size : Z) :
  4 < size < 2 ^ 31 ->
  decodeBSONDocument (le_split 4 size)
  = (Err (Wrapf "unable to read BSON doc from stream" io_EOF), []).
Proof.
  intros Hsize. unfold decodeBSONDocument.
  erewrite bind_Ok; last first.
  { apply wrapRd_Ok. rewrite <- (app_nil_r (le_split 4 size)).
    apply binary_Read_int32_le_split. unfold int32_range. lia. }
  destruct (Z.ltb_spec size 4); [lia |].
  destruct (Z.eqb_spec (size - 4) 0); [lia |]. done.
Qed.

Lemma readDocsUntilEOF_raw (msg : Z -> string) (docs : list (list byte * D))
    (tail r' : list byte) (err : GoError) :
  Forall (fun p => 4 < Z.of_nat (length p.1) < 2 ^ 31 ∧
                   take 4 p.1 = le_split 4 (Z.of_nat (length p.1)) ∧
                   bson_Unmarshal p.1 = Ok p.2) docs ->
  decodeBSONDocument tail = (Err err, r') ->
  xerrors_Is err io_EOF = true ->
  ∀ fuel docIdx acc,
    (length docs < fuel)%nat ->
    readDocsUntilEOF fuel msg docIdx acc (concat (fst <$> docs) ++ tail)
    = Some (Ok (acc ++ (snd <$> docs)), r').
Proof.
  intros Hdocs Htail Heof.
  induction Hdocs as [| [raw d] docs (Hlen & Hsize & Hun) Hdocs IH];
    intros fuel docIdx acc Hfuel.
  - destruct fuel as [| fuel]; [cbn in Hfuel; lia |].
    cbn [fmap list_fmap concat app readDocsUntilEOF].
    rewrite Htail, Heof. by rewrite app_nil_r.
  - destruct fuel as [| fuel]; [cbn in Hfuel; lia |].
    cbn [fmap list_fmap concat readDocsUntilEOF fst snd] in *. rewrite <- app_assoc.
    rewrite decodeBSONDocument_raw, Hun by done. cbn [wrap].
    rewrite IH by (cbn [length] in Hfuel; lia). by rewrite <- app_assoc.
Qed.

Lemma raw_docs_length (docs : list (list byte * D)) :
  Forall (fun p => 4 < Z.of_nat (length p.1) < 2 ^ 31 ∧
                   take 4 p.1 = le_split 4 (Z.of_nat (length p.1)) ∧
                   bson_Unmarshal p.1 = Ok p.2) docs ->
  (length docs <= length (concat (fst <$> docs)))%nat.
Proof.
  induction 1 as [| [raw d] docs (Hlen & _) _ IH]; [done |].
  cbn [fmap list_fmap concat length fst] in *. rewrite length_app. lia.
Qed.

(** X9. OP_INSERT: the documents that follow the namespace are decoded in
    order, to the end of the frame.  A size field left dangling at the very
    end of the frame, with no byte of its document, is dropped without an
    error. *)
Theorem Decode_insert_documents (ml rid rto flags : Z) (nsCol : NamespacedCollection)
    (docs : list (list byte * D)) (tail : list byte) :
  int32_range ml -> int32_range rid -> int32_range rto ->
  Database nsCol ≠ "" -> Collection nsCol ≠ "" ->
  strings_ContainsRune_dot (Database nsCol) = false ->
  Forall (fun b => Byte.eqb b x00 = false) (go_bytes (NamespacedCollection_String nsCol)) ->
  Z.of_nat (length (go_bytes (NamespacedCollection_String nsCol))) < ml - 20 ->
  Forall (fun p => 4 < Z.of_nat (length p.1) < 2 ^ 31 ∧
                   take 4 p.1 = le_split 4 (Z.of_nat (length p.1)) ∧
                   bson_Unmarshal p.1 = Ok p.2) docs ->
  tail = [] ∨ (∃ size, 4 < size < 2 ^ 31 ∧ tail = le_split 4 size) ->
  Decode (le_split 4 ml ++ le_split 4 rid ++ le_split 4 rto ++ le_split 4 2002
          ++ le_split 4 flags
          ++ go_bytes (NamespacedCollection_String nsCol) ++ x00
          :: concat (fst <$> docs) ++ tail)
  = Ok (InsertRequest
          (mkRequestInfo (mkRPCHeader ml rid rto 2002) RequestTypeInsert ReplyTypeNone)
          nsCol (to_uint32 flags) (D_Map <$> (snd <$> docs))).
Proof.
  intros Hml Hrid Hrto Hdb Hcol Hdot Hnz Hns Hdocs Htail.
  rewrite Decode_frame. cbn zeta. unfold to_uint32.
  rewrite !to_int32_small by (done || (unfold int32_range; lia)).
  cbn [Opcode]. destruct opDecoder_lookup as (_ & -> & _). cbn [default].
  unfold decodeInsertOp, id. cbv beta.
  rd_ok binary_Read_uint32_le_split.
  assert (Hnsdec : ∀ rest,
            decodeNamespacedCollection (ml - 16 - 4)
              (go_bytes (NamespacedCollection_String nsCol) ++ x00 :: rest)
            = (Ok nsCol, rest)).
  { intros rest. destruct nsCol as [db col].
    apply decodeNamespacedCollection_bytes; try done; [lia |].
    rewrite go_string_go_bytes. by apply strings_SplitN_dot_Some. }
  erewrite bind_Ok by (apply wrapRd_Ok, Hnsdec).
  assert (Hread : ∃ r', readDocs (fun _ => "unable to read doc list for insert op")
                          (concat (fst <$> docs) ++ tail) = (Ok (snd <$> docs), r')).
  { assert (Hend : ∃ err r', decodeBSONDocument tail = (Err err, r') ∧
                             xerrors_Is err io_EOF = true).
    { destruct Htail as [-> | (size & Hsize & ->)].
      - by eexists _, _.
      - rewrite decodeBSONDocument_dangling_size by done. by eexists _, _. }
    destruct Hend as (err & r' & Hend & Heof). exists r'. unfold readDocs.
    erewrite readDocsUntilEOF_raw; [done | done | exact Hend | exact Heof |].
    rewrite length_app. pose proof (raw_docs_length docs Hdocs). lia. }
  destruct Hread as [r' Hread].
  erewrite bind_Ok by exact Hread. done.
Qed.

Lemma binary_Read_int64_le_split (v : Z) (rest : list byte) :
  - 2 ^ 63 <= v < 2 ^ 63 ->
  binary_Read_int64 (le_split 8 v ++ rest) = (Ok v, rest).
Proof.
  intros Hv. unfold binary_Read_int64, mbind, Rd_bind, rd_bind.
  rewrite io_ReadFull_app by (rewrite ?length_le_split; lia).
  unfold mret, Rd_ret. rewrite le_combine_split. f_equal. f_equal.
  unfold to_int64. change (Z.of_nat 8 * 8) with 64.
  change (2 ^ 64) with 18446744073709551616 in *.
  change (2 ^ 63) with 9223372036854775808 in *.
  Z.div_mod_to_equations. lia.
Qed.

Lemma readCursorIDs_bytes (ids : list Z) (i : Z) (rest : list byte) :
  Forall (fun id => - 2 ^ 63 <= id < 2 ^ 63) ids ->
  readCursorIDs (length ids) i (concat (le_split 8 <$> ids) ++ rest) = (Ok ids, rest).
Proof.
  intros Hids. revert i. induction Hids as [| id ids Hid Hids IH]; intros i; [done |].
  cbn [length readCursorIDs fmap list_fmap concat]. rewrite <- app_assoc.
  erewrite bind_Ok; last first.
  { apply wrapRd_Ok. by apply binary_Read_int64_le_split. }
  erewrite bind_Ok by apply IH. done.
Qed.

(** X10. OP_KILL_CURSORS: as many cursor ids as the count field announces are
    read, in order; bytes that follow them in the frame are ignored. *)
Theorem Decode_killCursors_ids (ml rid rto reserved : Z) (ids : list Z)
    (rest : list byte) :
  int32_range ml -> int32_range rid -> int32_range rto ->
  Z.of_nat (length ids) < 2 ^ 31 ->
  Forall (fun id => - 2 ^ 63 <= id < 2 ^ 63) ids ->
  Decode (le_split 4 ml ++ le_split 4 rid ++ le_split 4 rto ++ le_split 4 2007
          ++ le_split 4 reserved ++ le_split 4 (Z.of_nat (length ids))
          ++ concat (le_split 8 <$> ids) ++ rest)
  = Ok (KillCursorsRequest
          (mkRequestInfo (mkRPCHeader ml rid rto 2007) RequestTypeKillCursors
             ReplyTypeNone)
          ids).
Proof.
  intros Hml Hrid Hrto Hlen Hids.
  rewrite Decode_frame. cbn zeta. unfold to_uint32.
  rewrite !to_int32_small by (done || (unfold int32_range; lia)).
  cbn [Opcode]. destruct opDecoder_lookup as (_ & _ & _ & _ & _ & -> & _). cbn [default].
  unfold decodeKillCursorsOp, id. cbv beta.
  rd_ok binary_Read_int32_le_split'.
  erewrite bind_Ok; last first.
  { apply wrapRd_Ok. apply binary_Read_int32_le_split. unfold int32_range. lia. }
  unfold make_slice. destruct (Z.ltb_spec (Z.of_nat (length ids)) 0); [lia |].
  erewrite bind_Ok by reflexivity. rewrite Nat2Z.id.
  erewrite bind_Ok by (by apply readCursorIDs_bytes). done.
Qed.

End DocumentFacts.

(** ** More on Encode *)

Section EncodeMore.
Context `{GoLibs}.

Lemma writeDocuments_marshaled (docs : list M) (encoded : list (list byte))
    (buf : list byte) (i : Z) :
  Forall2 (fun doc docData => bson_Marshal doc = Ok docData) docs encoded ->
  writeDocuments buf i docs = Ok (buf ++ concat encoded).
Proof.
  intros Hdocs. revert buf i.
  induction Hdocs as [| doc docData docs encoded Hdoc Hdocs IH]; intros buf i;
    cbn [writeDocuments concat].
  - by rewrite app_nil_r.
  - rewrite Hdoc, IH. by rewrite <- app_assoc.
Qed.

Lemma Encode_cases (w w' : list byte) (resp : Response) (rid : Z) (env : ReplyType)
    (res : Res unit) :
  Encode w resp rid env = (w', res) ->
  ∃ out, w' = w ++ out ∧
         match res with
         | Ok _ => if decide (env = ReplyTypeNone) then out = []
                   else (16 <= length out)%nat
         | _ => out = []
         end.
Proof.
  intros Henc.
  destruct (decide (env = ReplyTypeNone)) as [-> | Henv].
  - unfold Encode in Henc. exists [].
    pose proof (f_equal fst Henc) as Hw. pose proof (f_equal snd Henc) as Hres.
    cbn [fst snd] in Hw, Hres. subst w' res. by rewrite app_nil_r.
  - destruct res as [[] | e | s].
    + destruct (Encode_written _ _ _ _ _ Henv Henc) as (body & -> & Hlen).
      eexists. split; [done |]. cbn zeta in Hlen. lia.
    + exists []. rewrite app_nil_r. split; [| done].
      unfold Encode in Henc. destruct env; [done | |];
        destruct (_ ≫= _) in Henc; by simplify_eq.
    + exists []. rewrite app_nil_r. split; [| done].
      unfold Encode in Henc. destruct env; [done | |];
        destruct (_ ≫= _) in Henc; by simplify_eq.
Qed.

(** X15. [Encode] writes one whole message or nothing: when it fails, and for
    the envelope without a reply, the writer is left as it was; when it
    succeeds for another envelope, what it appended is at least a header. *)
Theorem Encode_all_or_nothing (w : list byte) (resp : Response) (rid : Z)
    (env : ReplyType) :
  ∃ out, (Encode w resp rid env).1 = w ++ out ∧
         match (Encode w resp rid env).2 with
         | Ok _ => if decide (env = ReplyTypeNone) then out = []
                   else (16 <= length out)%nat
         | _ => out = []
         end.
Proof.
  destruct (Encode w resp rid env) as [w' res] eqn:Henc. cbn [fst snd].
  by eapply Encode_cases.
Qed.

(** X16. The OP_REPLY message [Encode] writes when every document marshals:
    the header with the length of the whole message, request id 0, the id
    of the request answered and opcode 1; then flags, cursor id, starting
    offset and document count; then the documents. *)
Theorem Encode_OpReply_layout (w : list byte) (resp : Response) (rid : Z)
    (encoded : list (list byte)) :
  Forall2 (fun doc docData => bson_Marshal doc = Ok docData) (Documents resp) encoded ->
  Encode w resp rid ReplyTypeOpReply
  = (w ++ le_split 4 (to_uint32 (36 + Z.of_nat (length (concat encoded))))
       ++ le_split 4 0 ++ le_split 4 rid ++ le_split 4 1
       ++ le_split 4 (resp_Flags resp) ++ le_split 8 (resp_CursorID resp)
       ++ le_split 4 (resp_StartingFrom resp)
       ++ le_split 4 (to_int32 (Z.of_nat (length (Documents resp))))
       ++ concat encoded,
     Ok tt).
Proof.
  intros Hdocs. unfold Encode, writeHeaderTo, writeOpReplyTo.
  cbn [MessageLength RequestID ResponseTo Opcode wrap mbind Res_bind res_bind].
  cbn zeta. erewrite writeDocuments_marshaled by done. cbn [wrap].
  unfold binary_Write32, binary_Write64. rewrite app_nil_l, <- !app_assoc.
  rewrite PutUint32_header. rewrite !length_app, !length_le_split.
  match goal with |- context [to_uint32 (Z.of_nat ?n)] =>
    replace (Z.of_nat n) with (36 + Z.of_nat (length (concat encoded))) by lia end.
  done.
Qed.

(** X17. The OP_MSG message [Encode] writes for a reply of at most one
    document: the header with opcode 2013, zero flag bits, and one section
    of kind 0 holding the document. *)
Theorem Encode_OpMsg_layout (w : list byte) (resp : Response) (rid : Z)
    (encoded : list (list byte)) :
  (length (Documents resp) <= 1)%nat ->
  Forall2 (fun doc docData => bson_Marshal doc = Ok docData) (Documents resp) encoded ->
  Encode w resp rid ReplyTypeOpMsg
  = (w ++ le_split 4 (to_uint32 (21 + Z.of_nat (length (concat encoded))))
       ++ le_split 4 0 ++ le_split 4 rid ++ le_split 4 2013
       ++ le_split 4 0 ++ [x00] ++ concat encoded,
     Ok tt).
Proof.
  intros Hlen Hdocs. unfold Encode, writeHeaderTo, writeOpMsgTo.
  cbn [MessageLength RequestID ResponseTo Opcode wrap mbind Res_bind res_bind].
  cbn zeta. destruct (Nat.ltb_spec 1 (length (Documents resp))); [lia |].
  erewrite writeDocuments_marshaled by done. cbn [wrap].
  unfold binary_Write32, binary_Write8. rewrite app_nil_l, <- !app_assoc.
  rewrite PutUint32_header. rewrite !length_app, !length_le_split.
  change (le_split 1 0) with [x00]. cbn [length].
  match goal with |- context [to_uint32 (Z.of_nat ?n)] =>
    replace (Z.of_nat n) with (21 + Z.of_nat (length (concat encoded))) by lia end.
  done.
Qed.

(** X18. A reply of two or more documents cannot be sent in the OP_MSG
    envelope: [Encode] fails and writes nothing. *)
Theorem Encode_OpMsg_many_documents (w : list byte) (resp : Response) (rid : Z) :
  (1 < length (Documents resp))%nat ->
  Encode w resp rid ReplyTypeOpMsg
  = (w, Err (Wrapf "unable to serialize reply body"
               (Errorf "OP_MSG payloads with multiple documents are not supported"))).
Proof.
  intros Hlen. unfold Encode, writeHeaderTo, writeOpMsgTo.
  cbn [MessageLength RequestID ResponseTo Opcode wrap mbind Res_bind res_bind].
  cbn zeta. by destruct (Nat.ltb_spec 1 (length (Documents resp))); [| lia].
Qed.

(** X19. Round trip of the header: the sixteen bytes [writeHeaderTo] appends
    decode to the header written, and what follows them is left unread. *)
Theorem writeHeaderTo_decodeHeader (buf rest : list byte) (hdr : RPCHeader) :
  int32_range (MessageLength hdr) -> int32_range (RequestID hdr) ->
  int32_range (ResponseTo hdr) -> int32_range (Opcode hdr) ->
  ∃ bytes, writeHeaderTo buf hdr = Ok (buf ++ bytes) ∧
           length bytes = 16%nat ∧
           decodeHeader (bytes ++ rest) = (Ok hdr, rest).
Proof.
  intros Hml Hrid Hrto Hop. unfold writeHeaderTo, binary_Write32.
  eexists. split; [done |]. split.
  - by rewrite !length_app, !length_le_split.
  - rewrite <- !app_assoc. rewrite decodeHeader_le_split by done. by destruct hdr.
Qed.

End EncodeMore.

(** ** More on framing, and serving a connection *)

Lemma bufferNextRequest_inv (b stream frame rest : list byte) :
  bufferNextRequest b stream = (Ok frame, rest) ->
  stream = frame ++ rest ∧
  16 <= frame_messageLength frame ∧
  Z.of_nat (length frame) = frame_messageLength frame.
Proof.
  unfold frame_messageLength, bufferNextRequest, mbind, Rd_bind, rd_bind, wrapRd, lift.
  destruct (io_CopyN [] 16 stream) as [[[hdr n] | e | s] r1] eqn:E1; try done.
  apply io_CopyN_Ok in E1 as (_ & -> & -> & -> & Hhdr).
  change (Z.to_nat 16) with 16%nat in *.
  cbn [wrap negb Z.eqb Pos.eqb]. rewrite app_nil_l.
  destruct (Z.ltb_spec (le_combine (take 4 (take 16 stream))) 16) as [| Hmin]; [done |].
  pose proof (le_combine_take4_bound (take 16 stream)) as Hb.
  rewrite to_uint32_small by lia.
  set (ml := le_combine (take 4 (take 16 stream))) in *.
  destruct (io_CopyN (take 16 stream) (ml - 16) (drop 16 stream))
    as [[[fr n] | e | s] r2] eqn:E2; try done.
  apply io_CopyN_Ok in E2 as (_ & -> & -> & -> & Hpay).
  cbn [wrap]. rewrite Z.eqb_refl. cbn [negb lift]. intros [= <- <-].
  assert (Htake : take 4 (take 16 stream ++ take (Z.to_nat (ml - 16)) (drop 16 stream))
                  = take 4 (take 16 stream)).
  { rewrite take_app_le by (rewrite length_take in *; lia). by rewrite take_take. }
  rewrite Htake. fold ml. split; [| split; [done |]].
  - rewrite <- app_assoc, take_drop. by rewrite take_drop.
  - rewrite length_app. lia.
Qed.

(** X21. A stream that ends before the next frame is complete, inside its
    header or before the length the header declares, makes the framer fail
    with an error that wraps [io.EOF]: the server takes it for a
    disconnect. *)
Theorem bufferNextRequest_truncated (b stream : list byte) :
  Z.of_nat (length stream) < Z.max 16 (frame_messageLength stream) ->
  ∃ err rest, bufferNextRequest b stream = (Err err, rest) ∧
              xerrors_Is err io_EOF = true.
Proof.
  unfold frame_messageLength. intros Hshort.
  destruct (Z.lt_ge_cases (Z.of_nat (length stream)) 16) as [Hhdr | Hhdr].
  - eexists _, _. split.
    + unfold bufferNextRequest. apply bind_Err, wrapRd_Err. by apply io_CopyN_short.
    + done.
  - pose proof (le_combine_take4_bound stream) as Hb.
    eexists _, _. split.
    + unfold bufferNextRequest.
      erewrite bind_Ok; last first.
      { apply wrapRd_Ok. rewrite <- (take_drop 16 stream) at 1.
        apply io_CopyN_enough. rewrite length_take. lia. }
      cbv beta iota. rewrite app_nil_l, Z.eqb_refl. cbn [negb].
      rewrite take_take. change (4 `min` 16)%nat with 4%nat.
      destruct (Z.ltb_spec (le_combine (take 4 stream)) 16); [lia |].
      apply bind_Err, wrapRd_Err, io_CopyN_short.
      rewrite to_uint32_small by lia. rewrite length_drop. lia.
    + done.
Qed.

Section EncodeFraming.
Context `{GoLibs}.

(** X20. What [Encode] writes is one frame for the framer: a reader of the
    bytes written gets the whole reply, and nothing more, as the next
    message.  The reply is shorter than 2^32 bytes. *)
Theorem Encode_reply_is_one_frame (w w' : list byte) (resp : Response) (rid : Z)
    (env : ReplyType) :
  env ≠ ReplyTypeNone ->
  Encode w resp rid env = (w', Ok tt) ->
  Z.of_nat (length w') - Z.of_nat (length w) < 2 ^ 32 ->
  ∃ out, w' = w ++ out ∧
         ∀ b rest, bufferNextRequest b (out ++ rest) = (Ok out, rest).
Proof.
  intros Henv Henc Hlen.
  destruct (Encode_written _ _ _ _ _ Henv Henc) as (body & -> & Hout).
  cbn zeta in Hout. rewrite length_app in Hlen.
  eexists. split; [done |]. intros b rest.
  assert (Hml : frame_messageLength
                  (le_split 4 (to_uint32 (16 + Z.of_nat (length body))) ++ le_split 4 0
                   ++ le_split 4 rid ++ le_split 4 (env_opcode env) ++ body)
                = 16 + Z.of_nat (length body)).
  { unfold frame_messageLength.
    rewrite take_app_length' by (by rewrite length_le_split).
    rewrite le_combine_split. change (Z.of_nat 4 * 8) with 32.
    unfold to_uint32. rewrite Z.mod_mod by done. apply Z.mod_small. lia. }
  apply bufferNextRequest_accepts; rewrite Hml; lia.
Qed.

End EncodeFraming.

Section ServerFacts.
Context {T : Type} {reqHandler : proxy_RequestHandler T}.

Lemma handleConn_loop_fuel (fuel : nat) (reqBuffer : list byte) (s : T) (clientID : string)
    (w r : list byte) :
  (length r < fuel)%nat -> is_Some (handleConn_loop fuel reqBuffer s clientID w r).
Proof.
  revert reqBuffer s w r.
  induction fuel as [| fuel IH]; intros reqBuffer s w r Hlen; [lia |].
  cbn [handleConn_loop].
  destruct (bufferNextRequest reqBuffer r) as [[frame | err | m] r'] eqn:E; [| done | done].
  apply bufferNextRequest_inv in E as (-> & Hmin & Hframe).
  destruct (proxy_HandleRequest s clientID w frame) as [[s' w'] [[] | err | m]]; [| done | done].
  apply IH. rewrite length_app in Hlen. lia.
Qed.

Lemma handleConn_loop_mono (fuel fuel' : nat) (reqBuffer reqBuffer' : list byte) (s : T)
    (clientID : string) (w r : list byte) (res : T * list byte * list byte * Res unit) :
  handleConn_loop fuel reqBuffer s clientID w r = Some res ->
  (fuel <= fuel')%nat ->
  handleConn_loop fuel' reqBuffer' s clientID w r = Some res.
Proof.
  revert fuel' reqBuffer reqBuffer' s w r.
  induction fuel as [| fuel IH]; intros fuel' reqBuffer reqBuffer' s w r; [done |].
  destruct fuel' as [| fuel']; [lia |]. cbn [handleConn_loop].
  change (bufferNextRequest reqBuffer' r) with (bufferNextRequest reqBuffer r).
  destruct (bufferNextRequest reqBuffer r) as [[frame | err | m] r']; [| done | done].
  destruct (proxy_HandleRequest s clientID w frame) as [[s' w'] [[] | err | m]]; [| done | done].
  intros Hloop Hle. eapply IH; [exact Hloop | lia].
Qed.

(** X22. [handleConn] on a stream that starts with a whole frame hands that
    frame to the request handler and, when the handler succeeds, goes on
    with the rest of the stream, the handler and the writer as the handler
    left them; the first error of the handler ends it, with the rest of
    the stream unread.  At the end of the stream it returns an error that
    wraps [io.EOF]. *)
Theorem handleConn_step (s : T) (clientID : string) (w frame rest : list byte) :
  16 <= frame_messageLength frame ->
  Z.of_nat (length frame) = frame_messageLength frame ->
  handleConn s clientID w (frame ++ rest)
  = (match proxy_HandleRequest s clientID w frame with
     | (s', w', Ok _) => handleConn s' clientID w' rest
     | (s', w', Err err) => (s', w', rest, Err err)
     | (s', w', Panic m) => (s', w', rest, Panic m)
     end) ∧
  handleConn s clientID w []
  = (s, w, [], Err (Wrapf "unable to read next request header" io_EOF)).
Proof.
  intros Hmin Hlen. split; [| done].
  unfold handleConn at 1. cbn [handleConn_loop].
  rewrite bufferNextRequest_accepts by done.
  destruct (proxy_HandleRequest s clientID w frame) as [[s' w'] [[] | err | m]];
    [| done | done].
  unfold handleConn.
  destruct (handleConn_loop_fuel (S (length rest)) [] s' clientID w' rest) as [res Hres];
    [lia |].
  rewrite Hres.
  erewrite handleConn_loop_mono; [done | exact Hres |].
  rewrite length_app. lia.
Qed.

End ServerFacts.

(** ** The handlers of package handler *)

(** X27. [RemoteMongo] relays: the request goes to the remote server as it is,
    and the next whole frame the remote server sends is written to the
    client, byte for byte; what the server sends after it stays unread. *)
Theorem RemoteMongo_HandleRequest_relays (h : RemoteMongo) (w r res rest : list byte) :
  16 <= frame_messageLength res ->
  Z.of_nat (length res) = frame_messageLength res ->
  remote_unread h = res ++ rest ->
  RemoteMongo_HandleRequest h w r
  = (mkRemoteMongo (remote_written h ++ r) rest [], w ++ res, Ok tt).
Proof.
  unfold frame_messageLength. intros Hmin Hlen Hremote.
  pose proof (le_combine_take4_bound res) as Hb.
  set (hdr := take 16 res). set (payload := drop 16 res).
  assert (Hsplit : res = hdr ++ payload) by (symmetry; apply take_drop).
  assert (Hhdr : Z.of_nat (length hdr) = 16) by (subst hdr; rewrite length_take; lia).
  assert (Htake : take 4 hdr = take 4 res).
  { subst hdr. rewrite take_take. f_equal. }
  assert (Hcopy : io_CopyN [] 16 (res ++ rest) = (Ok (hdr, 16), payload ++ rest)).
  { rewrite Hsplit at 1. rewrite <- app_assoc. by apply (io_CopyN_enough [] 16 hdr). }
  assert (Hrem : to_uint32 (le_combine (take 4 res) - 16) = Z.of_nat (length payload)).
  { rewrite to_uint32_small by lia.
    rewrite <- Hlen, Hsplit at 1. rewrite length_app. lia. }
  unfold RemoteMongo_HandleRequest, pipeRemoteResponse.
  cbn [remote_written remote_unread]. rewrite Hremote, Hcopy.
  rewrite Z.eqb_refl. cbn [negb]. rewrite Htake.
  destruct (Z.ltb_spec (le_combine (take 4 res)) 16) as [| _]; [lia |].
  rewrite Hrem. rewrite (io_CopyN_enough hdr _ payload) by done.
  rewrite Z.eqb_refl. cbn [negb]. rewrite <- Hsplit.
  rewrite Hlen, Z.eqb_refl. done.
Qed.

(** X28. [Recorder] is transparent and keeps a log: the request is appended to
    the request stream after its length as a 32-bit integer, before the
    wrapped handler sees it; when that handler succeeds, what it wrote is
    appended to the response stream in the same way and then written to the
    client; when it fails, its error is returned as it is, nothing reaches
    the client and nothing is logged as a response.  Requests and responses
    are shorter than 2^31 bytes. *)
Theorem Recorder_HandleRequest_records {T} `{handler_RequestHandler T} (s : Recorder T)
    (w r out : list byte) (h' : T) (res : Res unit) :
  Z.of_nat (length r) < 2 ^ 31 ->
  handler_HandleRequest (wrappedHandler s) [] r = (h', out, res) ->
  (is_Ok res = true -> Z.of_nat (length out) < 2 ^ 31) ->
  Recorder_HandleRequest s w r
  = (mkRecorder (reqStream s ++ le_split 4 (Z.of_nat (length r)) ++ r)
       (if is_Ok res
        then resStream s ++ le_split 4 (Z.of_nat (length out)) ++ out
        else resStream s)
       out h',
     if is_Ok res then w ++ out else w,
     res).
Proof.
  intros Hr Hh Hout. unfold Recorder_HandleRequest.
  cbn [reqStream resStream resBuf wrappedHandler]. unfold binary_Write32.
  assert (Hsmall : ∀ n, 0 <= n < 2 ^ 31 -> to_int32 n = n).
  { intros n Hn. rewrite <- (to_int32_small n) at 2 by (unfold int32_range; lia).
    f_equal. symmetry. apply Z.mod_small. lia. }
  rewrite Hsmall by lia. rewrite Z.eqb_refl. cbn [negb]. rewrite Hh.
  destruct res as [[] | err | m]; cbn [is_Ok]; rewrite <- ?app_assoc; [| done | done].
  rewrite Hsmall by (specialize (Hout eq_refl); lia).
  rewrite Z.eqb_refl. cbn [negb]. done.
Qed.

(** ** More on the emulator *)

Lemma to_int32_range (z : Z) : int32_range (to_int32 z).
Proof.
  unfold int32_range, to_int32.
  change (2 ^ 32) with 4294967296. change (2 ^ 31) with 2147483648.
  Z.div_mod_to_equations. lia.
Qed.

Lemma decodeHeader_inv `{GoLibs} (r r' : list byte) (hdr : RPCHeader) :
  decodeHeader r = (Ok hdr, r') ->
  int32_range (MessageLength hdr) ∧ int32_range (RequestID hdr) ∧
  int32_range (ResponseTo hdr) ∧ int32_range (Opcode hdr).
Proof.
  unfold decodeHeader.
  intros (ml & r1 & Hml%wrapRd_inv_Ok & Hrest)%bind_inv_Ok.
  apply bind_inv_Ok in Hrest as (rid & r2 & Hrid%wrapRd_inv_Ok & Hrest).
  apply bind_inv_Ok in Hrest as (rto & r3 & Hrto%wrapRd_inv_Ok & Hrest).
  apply bind_inv_Ok in Hrest as (op & r4 & Hop%wrapRd_inv_Ok & Hrest).
  apply mret_inv_Ok in Hrest as [-> _].
  apply binary_Read_inv_Ok in Hml as (-> & _), Hrid as (-> & _), Hrto as (-> & _),
    Hop as (-> & _).
  cbn [MessageLength RequestID ResponseTo Opcode]. repeat split; apply to_int32_range.
Qed.

Section EmulatorMore.
Context `{GoLibs} {B : Type} {backend : Backend B}.

Lemma process_keeps (now : Z) (emu : MongoEmulator) (clientID : string) (req : Request) :
  lastError (process now emu clientID req).1 = lastError emu ∧
  cmdHandlers (process now emu clientID req).1 = cmdHandlers emu.
Proof.
  unfold process. destruct (Backend_HandleRequest (b emu) clientID req) as [b' res].
  destruct res as [res | err | s]; [done | | done].
  destruct (xerrors_Is err ErrUnsupportedRequest && _); [| done].
  by destruct req.
Qed.

(** X24. The state the emulator keeps for a client is touched only by that
    client's requests: [HandleRequest] and [RemoveClient] leave the
    [lastError] entries of every other client and the registered command
    handlers as they were, and [RemoveClient] drops the entry of its
    client. *)
Theorem client_state_is_per_client (now : Z) (emu : MongoEmulator) (clientID : string)
    (w reqData : list byte) :
  (let emu' := (HandleRequest now emu clientID w reqData).1.1 in
   cmdHandlers emu' = cmdHandlers emu ∧
   ∀ other, other ≠ clientID -> lastError emu' !! other = lastError emu !! other) ∧
  (let emu' := (RemoveClient emu clientID).1 in
   cmdHandlers emu' = cmdHandlers emu ∧
   lastError emu' !! clientID = None ∧
   ∀ other, other ≠ clientID -> lastError emu' !! other = lastError emu !! other).
Proof.
  split; cbn zeta.
  - unfold HandleRequest. destruct (Decode reqData) as [req | err | s]; [| done | done].
    pose proof (process_keeps now emu clientID req) as [Hle Hcmd].
    destruct (process now emu clientID req) as [emu1 res]. cbn [fst] in Hle, Hcmd.
    destruct res as [res | err | s];
      [| | cbn [fst]; split; [done | intros; by rewrite Hle]].
    + destruct (negb _); [destruct (Encode w res _ _) |];
        cbn [fst set_lastError cmdHandlers lastError];
        (split; [done |]); intros other Hother; by rewrite lookup_insert_ne, Hle.
    + destruct (bool_decide _); cbn [negb];
        [| destruct (Encode w _ _ _)];
        cbn [fst set_lastError cmdHandlers lastError];
        (split; [done |]); intros other Hother; by rewrite !lookup_insert_ne, Hle.
  - unfold RemoveClient. destruct (Backend_RemoveClient (b emu) clientID) as [b' err].
    cbn [fst cmdHandlers lastError]. split; [done |]. split.
    + apply lookup_delete_eq.
    + intros other Hother. by apply lookup_delete_ne.
Qed.

(** X25. Whenever [HandleRequest] writes anything, it is one reply to the
    request it was given: the request's opcode is OP_QUERY, OP_GET_MORE or
    OP_MSG, and what was appended to the writer starts with a header whose
    [responseTo] is the request id in the header of the request frame,
    whose own request id is 0 and whose opcode is 2013 for an OP_MSG and 1
    otherwise. *)
Theorem HandleRequest_reply_answers_request (now : Z) (emu emu' : MongoEmulator)
    (clientID : string) (w w' reqData : list byte) (ret : Res unit) :
  HandleRequest now emu clientID w reqData = (emu', w', ret) ->
  w' ≠ w ->
  ∃ reqHdr payload out hdr body,
    decodeHeader reqData = (Ok reqHdr, payload) ∧
    Opcode reqHdr ∈ [2004; 2005; 2013] ∧
    ret = Ok tt ∧
    w' = w ++ out ∧
    decodeHeader out = (Ok hdr, body) ∧
    ResponseTo hdr = RequestID reqHdr ∧
    RequestID hdr = 0 ∧
    Opcode hdr = (if decide (Opcode reqHdr = 2013) then 2013 else 1).
Proof.
  intros Hhandle Hw.
  destruct (Decode reqData) as [req | err | s] eqn:Hdec;
    [| unfold HandleRequest in Hhandle; rewrite Hdec in Hhandle; by simplify_eq ..].
  destruct (process now emu clientID req) as [emu1 res] eqn:Hproc.
  rewrite (HandleRequest_decoded _ _ _ _ _ _ _ _ Hdec Hproc) in Hhandle.
  destruct (Decode_Ok_header _ _ Hdec) as (payload & Hhdr & Henv).
  pose proof (decodeHeader_inv _ _ _ Hhdr) as (_ & Hrid & _ & _).
  assert (Hreply : ∀ resp,
            Encode w resp (Request_RequestID req) (GetReplyType req) = (w', ret) ->
            GetReplyType req ≠ ReplyTypeNone ->
            ∃ out hdr body,
              Opcode (Header (Info req)) ∈ [2004; 2005; 2013] ∧
              ret = Ok tt ∧ w' = w ++ out ∧
              decodeHeader out = (Ok hdr, body) ∧
              ResponseTo hdr = RequestID (Header (Info req)) ∧
              RequestID hdr = 0 ∧
              Opcode hdr = (if decide (Opcode (Header (Info req)) = 2013) then 2013 else 1)).
  { intros resp Henc Hnone.
    destruct (Encode_cases _ _ _ _ _ _ Henc) as (out0 & Hout0 & Hcase).
    destruct ret as [[] | err | s]; [| subst; by rewrite app_nil_r in Hw ..].
    clear Hout0 Hcase out0.
    destruct (Encode_written _ _ _ _ _ Hnone Henc) as (body & -> & _).
    eexists _, _, body. split; [| split; [done |]; split; [done |]; split].
    - rewrite Henv in Hnone. unfold reply_envelope in Hnone.
      rewrite !elem_of_cons. repeat destruct (decide _); tauto.
    - apply decodeHeader_le_split'.
    - cbn [ResponseTo RequestID Opcode]. unfold Request_RequestID.
      split; [unfold to_uint32; by apply to_int32_small |]. split; [done |].
      rewrite Henv in Hnone |- *. unfold reply_envelope in *.
      repeat destruct (decide _); first [reflexivity | lia | done]. }
  destruct res as [res | err | s].
  - destruct (bool_decide_reflect (GetReplyType req = ReplyTypeNone)) as [| Hnone];
      [by simplify_eq |].
    destruct (Encode w res _ _) as [w1 ret1] eqn:Henc.
    injection Hhandle as _ <- <-.
    destruct (Hreply _ Henc Hnone) as (out & hdr & body & ?).
    exists (Header (Info req)), payload, out, hdr, body. tauto.
  - destruct (bool_decide_reflect (GetReplyType req = ReplyTypeNone)) as [| Hnone];
      [by simplify_eq |].
    destruct (Encode w _ _ _) as [w1 ret1] eqn:Henc.
    injection Hhandle as _ <- <-.
    destruct (Hreply _ Henc Hnone) as (out & hdr & body & ?).
    exists (Header (Info req)), payload, out, hdr, body. tauto.
  - by simplify_eq.
Qed.

(** X26. Built-in commands are found by their upper-cased name, so in any
    spelling with the same upper case; a command with another name is
    refused with [ErrUnsupportedRequest] under the command's name.  The
    upper-cased names of the five commands differ from each other. *)
Theorem builtin_commands_by_upper_case (now : Z) (emu : MongoEmulator) (clientID : string)
    (c : CommandRequestT) :
  NoDup (strings_ToUpper <$>
           ["isMaster"; "whatsMyUri"; "buildInfo"; "replSetGetStatus"; "getLog"]) ->
  (∀ name h,
     (name, h) ∈ [("isMaster", handleIsMaster); ("whatsMyUri", handleWhatsMyURI);
                  ("buildInfo", handleBuildInfo);
                  ("replSetGetStatus", handleReplSetGetStatus);
                  ("getLog", handleGetLog)] ->
     strings_ToUpper (Command c) = strings_ToUpper name ->
     maybeProcessClientCommand now (registerCommandHandlers emu) clientID c
     = h now (b emu) clientID c) ∧
  (strings_ToUpper (Command c) ∉
     (strings_ToUpper <$>
        ["isMaster"; "whatsMyUri"; "buildInfo"; "replSetGetStatus"; "getLog"]) ->
   maybeProcessClientCommand now (registerCommandHandlers emu) clientID c
   = Err (Wrapf ("command " +:+ fmt_q (Command c)) ErrUnsupportedRequest)).
Proof.
  intros Hdup. cbn [fmap list_fmap] in *.
  unfold maybeProcessClientCommand, registerCommandHandlers.
  cbn [cmdHandlers b foldl fst snd].
  apply NoDup_cons in Hdup as [Hn1 Hdup]. apply NoDup_cons in Hdup as [Hn2 Hdup].
  apply NoDup_cons in Hdup as [Hn3 Hdup]. apply NoDup_cons in Hdup as [Hn4 _].
  split.
  - intros name h Hin Hname. rewrite Hname.
    rewrite !elem_of_cons, elem_of_nil in Hin.
    destruct Hin as [[= -> ->] | [[= -> ->] | [[= -> ->] | [[= -> ->] | [[= -> ->] | []]]]]];
      repeat first [ rewrite lookup_insert_eq; reflexivity
                   | rewrite lookup_insert_ne by (clear -Hn1 Hn2 Hn3 Hn4; set_solver) ].
  - intros Hnot.
    rewrite !lookup_insert_ne by (clear -Hnot; set_solver).
    by rewrite lookup_empty.
Qed.

End EmulatorMore.

(** ** OP_QUERY and OP_DELETE *)

Section QueryMore.
Context `{GoLibs}.

Lemma decodeNamespacedCollection_ns (maxLen : Z) (nsCol : NamespacedCollection)
    (rest : list byte) :
  Database nsCol ≠ "" -> Collection nsCol ≠ "" ->
  strings_ContainsRune_dot (Database nsCol) = false ->
  Forall (fun b => Byte.eqb b x00 = false) (go_bytes (NamespacedCollection_String nsCol)) ->
  Z.of_nat (length (go_bytes (NamespacedCollection_String nsCol))) < maxLen ->
  decodeNamespacedCollection maxLen (go_bytes (NamespacedCollection_String nsCol) ++ x00 :: rest)
  = (Ok nsCol, rest).
Proof.
  intros Hdb Hcol Hdot Hnz Hlen. destruct nsCol as [db col].
  apply decodeNamespacedCollection_bytes; try done.
  rewrite go_string_go_bytes. by apply strings_SplitN_dot_Some.
Qed.

(** X11. OP_QUERY on a collection other than [$cmd] is a plain query, whatever
    its query document holds: flags, namespace, skip and limit are taken
    from the frame, the query document is the selector, and the field
    selector may be left out. *)
Theorem Decode_query_collection (ml rid rto flags numToSkip numToReturn : Z)
    (nsCol : NamespacedCollection) (query : list byte * D)
    (fields : option (list byte * D)) :
  int32_range ml -> int32_range rid -> int32_range rto ->
  int32_range numToSkip -> int32_range numToReturn ->
  Database nsCol ≠ "" -> Collection nsCol ≠ "" -> Collection nsCol ≠ "$cmd" ->
  strings_ContainsRune_dot (Database nsCol) = false ->
  Forall (fun b => Byte.eqb b x00 = false) (go_bytes (NamespacedCollection_String nsCol)) ->
  Z.of_nat (length (go_bytes (NamespacedCollection_String nsCol))) < ml - 20 ->
  Forall (fun p => 4 < Z.of_nat (length p.1) < 2 ^ 31 ∧
                   take 4 p.1 = le_split 4 (Z.of_nat (length p.1)) ∧
                   bson_Unmarshal p.1 = Ok p.2) (query :: option_list fields) ->
  Decode (le_split 4 ml ++ le_split 4 rid ++ le_split 4 rto ++ le_split 4 2004
          ++ le_split 4 flags
          ++ go_bytes (NamespacedCollection_String nsCol) ++ x00
          :: le_split 4 numToSkip ++ le_split 4 numToReturn
          ++ query.1 ++ from_option fst [] fields)
  = Ok (QueryRequest
          (mkRequestInfo (mkRPCHeader ml rid rto 2004) RequestTypeQuery ReplyTypeOpReply)
          nsCol (to_uint32 flags) numToSkip numToReturn
          (D_Map query.2) ∅ (D_Map (from_option snd [] fields))).
Proof.
  intros Hml Hrid Hrto Hskip Hret Hdb Hcol Hcmd Hdot Hnz Hns Hdocs.
  apply Forall_cons in Hdocs as [(Hqlen & Hqsize & Hqun) Hfields].
  rewrite Decode_frame. cbn zeta. unfold to_uint32.
  rewrite !to_int32_small by (done || (unfold int32_range; lia)).
  cbn [Opcode]. destruct opDecoder_lookup as (_ & _ & -> & _). cbn [default].
  unfold decodeQueryOp, id. cbv beta.
  rd_ok binary_Read_uint32_le_split.
  erewrite bind_Ok; last first.
  { apply wrapRd_Ok, decodeNamespacedCollection_ns; try done.
    unfold PayloadLength, sizeOfRPCHeader. cbn [MessageLength]. lia. }
  erewrite bind_Ok by (by apply wrapRd_Ok, binary_Read_int32_le_split).
  erewrite bind_Ok by (by apply wrapRd_Ok, binary_Read_int32_le_split).
  erewrite bind_Ok; last first.
  { apply wrapRd_Ok. rewrite decodeBSONDocument_raw by done. by rewrite Hqun. }
  assert (Hsel : (fun r => match decodeBSONDocument r with
                           | (Err err, r') =>
                               if negb (xerrors_Is err io_EOF) then
                                 (Err (Wrapf "unable to read field selector doc for query op"
                                         err), r')
                               else (Ok [], r')
                           | other => other
                           end) (from_option fst [] fields)
                 = (Ok (from_option snd [] fields), [])).
  { destruct fields as [[raw d] |]; cbn [from_option fst snd option_list] in *; [| done].
    apply Forall_cons in Hfields as [(Hflen & Hfsize & Hfun) _]. cbn [fst snd] in *.
    rewrite <- (app_nil_r raw) at 1. rewrite decodeBSONDocument_raw by done.
    by rewrite Hfun. }
  erewrite bind_Ok by exact Hsel.
  destruct (String.eqb_spec (Collection nsCol) "$cmd") as [| _]; [done |].
  cbn [negb]. done.
Qed.

(** X12. OP_DELETE: one delete target with the selector of the frame; its limit
    is 1 when bit 0 of the flags (SingleRemove) is set and 0, no limit,
    otherwise.  Bytes after the selector are ignored. *)
Theorem Decode_delete_limit (ml rid rto reserved flags : Z) (nsCol : NamespacedCollection)
    (selector : list byte * D) (rest : list byte) :
  int32_range ml -> int32_range rid -> int32_range rto -> int32_range flags ->
  Database nsCol ≠ "" -> Collection nsCol ≠ "" ->
  strings_ContainsRune_dot (Database nsCol) = false ->
  Forall (fun b => Byte.eqb b x00 = false) (go_bytes (NamespacedCollection_String nsCol)) ->
  Z.of_nat (length (go_bytes (NamespacedCollection_String nsCol))) < ml - 20 ->
  4 < Z.of_nat (length selector.1) < 2 ^ 31 ->
  take 4 selector.1 = le_split 4 (Z.of_nat (length selector.1)) ->
  bson_Unmarshal selector.1 = Ok selector.2 ->
  Decode (le_split 4 ml ++ le_split 4 rid ++ le_split 4 rto ++ le_split 4 2006
          ++ le_split 4 reserved
          ++ go_bytes (NamespacedCollection_String nsCol) ++ x00
          :: le_split 4 flags ++ selector.1 ++ rest)
  = Ok (DeleteRequest
          (mkRequestInfo (mkRPCHeader ml rid rto 2006) RequestTypeDelete ReplyTypeNone)
          nsCol
          [mkDeleteTarget (D_Map selector.2) (if Z.testbit flags 0 then 1 else 0)]).
Proof.
  intros Hml Hrid Hrto Hflags Hdb Hcol Hdot Hnz Hns Hlen Hsize Hun.
  rewrite Decode_frame. cbn zeta. unfold to_uint32.
  rewrite !to_int32_small by (done || (unfold int32_range; lia)).
  cbn [Opcode]. destruct opDecoder_lookup as (_ & _ & _ & _ & -> & _). cbn [default].
  unfold decodeDeleteOp, id. cbv beta.
  rd_ok binary_Read_int32_le_split'.
  erewrite bind_Ok; last first.
  { apply wrapRd_Ok, decodeNamespacedCollection_ns; try done.
    unfold PayloadLength, sizeOfRPCHeader. cbn [MessageLength]. lia. }
  erewrite bind_Ok by (by apply wrapRd_Ok, binary_Read_int32_le_split).
  cbn zeta.
  erewrite bind_Ok; last first.
  { apply wrapRd_Ok. rewrite decodeBSONDocument_raw by done. by rewrite Hun. }
  unfold mret, Rd_ret. cbn [fst]. do 4 f_equal.
  change 1 with (Z.ones 1) at 1. rewrite Z.land_ones by done.
  change (2 ^ 1) with 2. rewrite Z.bit0_odd, Zmod_odd. by destruct (Z.odd flags).
Qed.

End QueryMore.

(** ** OP_MSG with a document sequence *)

Section MsgMore.
Context `{GoLibs}.

Lemma for_each_VDoc (msg : Z -> string) (i : Z) (docs : list D) :
  for_each (fun i d => match d with
                       | VDoc doc => Ok (D_Map doc)
                       | _ => Err (Errorf (msg i))
                       end) i (VDoc <$> docs)
  = Ok (D_Map <$> docs).
Proof.
  revert i. induction docs as [| d docs IH]; intros i; [done |].
  cbn [fmap list_fmap for_each]. cbn [mbind Res_bind res_bind].
  change (list_fmap D Value VDoc docs) with (VDoc <$> docs). by rewrite IH.
Qed.

Lemma readDocs_raw (msg : Z -> string) (docs : list (list byte * D)) :
  Forall (fun p => 4 < Z.of_nat (length p.1) < 2 ^ 31 ∧
                   take 4 p.1 = le_split 4 (Z.of_nat (length p.1)) ∧
                   bson_Unmarshal p.1 = Ok p.2) docs ->
  readDocs msg (concat (fst <$> docs)) = (Ok (snd <$> docs), []).
Proof.
  intros Hdocs. unfold readDocs.
  pose proof (raw_docs_length docs Hdocs) as Hlen.
  pose proof (readDocsUntilEOF_raw msg docs [] [] _ Hdocs eq_refl eq_refl
                (S (length (concat (fst <$> docs)))) 0 [] ltac:(lia)) as Hread.
  rewrite app_nil_r in Hread. by rewrite Hread.
Qed.

(** X13. An OP_MSG insert whose documents travel in a document sequence: the
    body section [{insert: col, $db: db}] followed by a section of kind 1
    with the path [documents] decodes to an insert of those documents, in
    order, into [db.col], to be answered in the OP_MSG envelope. *)
Theorem Decode_msg_insert_document_sequence (ml rid rto flags : Z) (db col : string)
    (body : list byte) (docs : list (list byte * D)) :
  int32_range ml -> int32_range rid -> int32_range rto ->
  Z.land (to_uint32 flags) 1 = 0 ->
  db ≠ "" ->
  4 < Z.of_nat (length body) < 2 ^ 31 ->
  take 4 body = le_split 4 (Z.of_nat (length body)) ->
  bson_Unmarshal body = Ok [("insert", VString col); ("$db", VString db)] ->
  Forall (fun p => 4 < Z.of_nat (length p.1) < 2 ^ 31 ∧
                   take 4 p.1 = le_split 4 (Z.of_nat (length p.1)) ∧
                   bson_Unmarshal p.1 = Ok p.2) docs ->
  14 + Z.of_nat (length (concat (fst <$> docs))) < 2 ^ 32 ->
  Decode (le_split 4 ml ++ le_split 4 rid ++ le_split 4 rto ++ le_split 4 2013
          ++ le_split 4 flags
          ++ x00 :: body
          ++ x01 :: le_split 4 (14 + Z.of_nat (length (concat (fst <$> docs))))
          ++ go_bytes "documents" ++ x00 :: concat (fst <$> docs))
  = Ok (InsertRequest
          (mkRequestInfo (mkRPCHeader ml rid rto 2013) RequestTypeInsert ReplyTypeOpMsg)
          (mkNamespacedCollection db col) 0 (D_Map <$> (snd <$> docs))).
Proof.
  intros Hml Hrid Hrto Hflags Hdb Hblen Hbsize Hbun Hdocs Hsize.
  rewrite Decode_frame. cbn zeta.
  replace (to_int32 (to_uint32 ml)) with ml by (unfold to_uint32; by rewrite to_int32_small).
  replace (to_int32 (to_uint32 rid)) with rid
    by (unfold to_uint32; by rewrite to_int32_small).
  replace (to_int32 (to_uint32 rto)) with rto
    by (unfold to_uint32; by rewrite to_int32_small).
  change (to_int32 (to_uint32 2013)) with 2013.
  cbn [Opcode]. destruct opDecoder_lookup as (_ & _ & _ & _ & _ & _ & ->). cbn [default].
  unfold decodeMsgOp, id. cbv beta.
  rd_ok binary_Read_uint32_le_split.
  set (raws := concat (fst <$> docs)) in *.
  set (size := 14 + Z.of_nat (length raws)) in *.
  assert (Hsec : readAllSections
                   (x00 :: body ++ x01 :: le_split 4 size ++ go_bytes "documents"
                    ++ x00 :: raws)
                 = (Ok ([("insert", VString col); ("$db", VString db)],
                        [mkDocSeqSection "documents" (VDoc <$> (snd <$> docs))]), [])).
  { unfold readAllSections.
    match goal with |- context [readSections (S ?n)] =>
      assert (Hfuel : (2 <= n)%nat) by (cbn [length]; rewrite length_app; cbn [length]; lia);
      destruct n as [| [| fuel]]; [lia | lia |] end.
    cbn [readSections]. rewrite binary_Read_uint8_cases.
    change (le_combine [x00] =? 0) with true. cbv iota.
    unfold wrapRd at 1. rewrite decodeBSONDocument_raw by done. rewrite Hbun. cbn [wrap].
    rewrite binary_Read_uint8_cases.
    change (le_combine [x01] =? 0) with false. change (le_combine [x01] =? 1) with true.
    cbv iota.
    erewrite bind_Ok by (apply wrapRd_Ok, binary_Read_uint32_le_split).
    rewrite to_uint32_small by lia.
    assert (Hlim : ∀ A (m : Rd A) (a : A) (r : list byte),
              Z.of_nat (length r) = size - 4 -> m r = (Ok a, []) ->
              io_LimitReader (size - 4) m r = (Ok a, [])).
    { intros A m a r Hr Hm. unfold io_LimitReader.
      rewrite firstn_all2 by lia. rewrite Hm. cbn [length].
      rewrite Nat.sub_0_r. by rewrite drop_all. }
    erewrite Hlim; last first.
    { erewrite bind_Ok; last first.
      { apply wrapRd_Ok. unfold decodeCString.
        apply (decodeCString_loop_bytes size 0 [] (go_bytes "documents") raws);
          [by repeat constructor | change (length (go_bytes "documents")) with 9%nat; lia]. }
      rewrite app_nil_l.
      erewrite bind_Ok by (by apply readDocs_raw). reflexivity. }
    { rewrite length_app. cbn [length]. change (length (go_bytes "documents")) with 9%nat.
      fold raws. lia. }
    destruct fuel as [| fuel]; [| reflexivity].
    reflexivity. }
  erewrite bind_Ok by exact Hsec. cbv beta iota.
  rewrite Hflags. change (0 =? 1) with false. cbv iota.
  erewrite bind_Ok by reflexivity.
  cbn [length Nat.ltb Nat.leb override_collection Database Collection D_Map foldl fst snd].
  rewrite delete_insert_ne by done. rewrite delete_insert_eq, delete_empty.
  rewrite lookup_insert_eq.
  destruct (String.eqb_spec db "") as [| _]; [done |]. cbn [negb].
  rewrite delete_insert_eq, delete_empty.
  unfold lift at 1. erewrite bind_Ok by reflexivity.
  change (cmdDecoder !! "insert") with (Some decodeInsertCommand).
  unfold lift, decodeInsertCommand. cbn [fst path docList].
  rewrite lookup_insert_eq. rewrite for_each_VDoc. cbn [mbind Res_bind res_bind].
  rewrite lookup_insert_ne by done. rewrite lookup_empty. done.
Qed.

End MsgMore.

(** * Examples

    The theorems above at concrete frames, run with [Model.libs]. *)

Module Examples.
Import Model Frames.

Example insert_frame_decodes :
  Decode insert_frame
  = Ok (InsertRequest (mkRequestInfo (mkRPCHeader 42 1 0 2002) RequestTypeInsert ReplyTypeNone)
          (mkNamespacedCollection "test" "coll") 0 [ <["a" := VInt 1]> ∅ ]).
Proof. vm_compute. reflexivity. Qed.

Example getLastError_frame_decodes :
  Decode getLastError_frame
  = Ok (CommandRequest
          (mkCommandRequest
             (mkRequestInfo (mkRPCHeader 62 2 0 2004) RequestTypeCommand ReplyTypeOpReply)
             (mkNamespacedCollection "admin" "$cmd") "getLastError" ∅)).
Proof. vm_compute. reflexivity. Qed.

(** The framer hands over exactly the first frame of a stream. *)
Example framer_splits_stream :
  bufferNextRequest [] (insert_frame ++ getLastError_frame)
  = (Ok insert_frame, getLastError_frame).
Proof. vm_compute. reflexivity. Qed.

(** The framer rejects a header that declares four bytes. *)
Example framer_rejects_short_length :
  bufferNextRequest [] (le_split 4 4 ++ le_split 4 1 ++ le_split 4 0 ++ le_split 4 2004)
  = (Err (Errorf "request header specifies invalid message length 4"), []).
Proof. vm_compute. reflexivity. Qed.

(** C1, witness: an OP_INSERT (envelope [None]) that the backend rejects. *)
Lemma HandleRequest_on_error_witness :
  let emu := emulator picky tt in
  let req := InsertRequest
               (mkRequestInfo (mkRPCHeader 42 1 0 2002) RequestTypeInsert ReplyTypeNone)
               (mkNamespacedCollection "test" "coll") 0 [ <["a" := VInt 1]> ∅ ] in
  Decode insert_frame = Ok req ∧
  process (backend := picky) 0 emu "c1" req = (emu, Err duplicate_key) ∧
  let '(emu', w', ret) := HandleRequest (backend := picky) 0 emu "c1" [] insert_frame in
  if bool_decide (GetReplyType req = ReplyTypeNone) then
    lastError emu' !! "c1" = Some (Some duplicate_key) ∧ w' = [] ∧ ret = Ok tt
  else
    lastError emu' !! "c1" = Some None ∧
    (w', ret) = Encode [] (toErrorResponse duplicate_key (GetReplyType req))
                  (Request_RequestID req) (GetReplyType req).
Proof.
  cbv zeta.
  assert (Hdec : Decode insert_frame
                 = Ok (InsertRequest
                         (mkRequestInfo (mkRPCHeader 42 1 0 2002) RequestTypeInsert
                            ReplyTypeNone)
                         (mkNamespacedCollection "test" "coll") 0 [ <["a" := VInt 1]> ∅ ]))
    by (vm_compute; reflexivity).
  assert (Hproc : process (backend := picky) 0 (emulator picky tt) "c1"
                    (InsertRequest
                       (mkRequestInfo (mkRPCHeader 42 1 0 2002) RequestTypeInsert
                          ReplyTypeNone)
                       (mkNamespacedCollection "test" "coll") 0 [ <["a" := VInt 1]> ∅ ])
                  = (emulator picky tt, Err duplicate_key))
    by reflexivity.
  split; [exact Hdec |]. split; [exact Hproc |].
  exact (HandleRequest_on_error (backend := picky) 0 _ _ "c1" [] _ _ _ Hdec Hproc).
Defined.

(** C1, counterexample: an OP_GET_MORE (envelope [OpReply]) that the backend
    fails with [ErrInvalidCursor].  The request decodes, processing it
    returns the error, and after [HandleRequest] the entry of the client in
    [lastError] is nil, not that error. *)
Lemma HandleRequest_reply_resets_lastError :
  let emu := emulator failing ErrInvalidCursor in
  let req := GetMoreRequest
               (mkRequestInfo (mkRPCHeader 42 3 0 2005) RequestTypeGetMore ReplyTypeOpReply)
               (mkNamespacedCollection "test" "coll") 10 42 in
  Decode getMore_frame = Ok req ∧
  process (backend := failing) 0 emu "c1" req = (emu, Err ErrInvalidCursor) ∧
  lastError (HandleRequest (backend := failing) 0 emu "c1" [] getMore_frame).1.1 !! "c1"
  = Some None.
Proof. cbv zeta. repeat split; vm_compute; reflexivity. Qed.

(** C2, witness: [{ok: 1}] sent as an OP_REPLY to request 7. *)
Lemma Encode_header_fields_witness :
  ReplyTypeOpReply ≠ ReplyTypeNone ∧
  int32_range 7 ∧
  Encode [] ok_reply 7 ReplyTypeOpReply
  = ((Encode [] ok_reply 7 ReplyTypeOpReply).1, Ok tt) ∧
  ∃ out hdr,
    (Encode [] ok_reply 7 ReplyTypeOpReply).1 = [] ++ out ∧
    decodeHeader (take 16 out) = (Ok hdr, []) ∧
    ResponseTo hdr = 7 ∧
    Opcode hdr = env_opcode ReplyTypeOpReply ∧
    MessageLength hdr = Z.of_nat (length out).
Proof.
  assert (Henv : ReplyTypeOpReply ≠ ReplyTypeNone) by done.
  assert (Hrid : int32_range 7) by (unfold int32_range; lia).
  assert (Henc : Encode [] ok_reply 7 ReplyTypeOpReply
                 = ((Encode [] ok_reply 7 ReplyTypeOpReply).1, Ok tt))
    by (vm_compute; reflexivity).
  assert (Hlen : Z.of_nat (length (Encode [] ok_reply 7 ReplyTypeOpReply).1)
                 - Z.of_nat (length (@nil byte)) < 2 ^ 31)
    by (vm_compute; reflexivity).
  repeat (split; [assumption |]).
  exact (Encode_header_fields [] _ ok_reply 7 ReplyTypeOpReply Henv Hrid Henc Hlen).
Defined.

(** C2, counterexample: a reply of two documents in the OP_MSG envelope, and
    any reply in the envelope [None].  [Encode] fails in the first case and
    succeeds in the second; in both it writes no byte, so that the first
    sixteen bytes written do not parse as a header. *)
Lemma Encode_writes_no_header :
  let resp := mkResponse 0 0 0 [(∅ : M); (∅ : M)] in
  Encode [] resp 7 ReplyTypeOpMsg
  = ([], Err (Wrapf "unable to serialize reply body"
                (Errorf "OP_MSG payloads with multiple documents are not supported"))) ∧
  is_Ok (decodeHeader (take 16 (Encode [] resp 7 ReplyTypeOpMsg).1)).1 = false ∧
  Encode [] ok_reply 7 ReplyTypeNone = ([], Ok tt) ∧
  is_Ok (decodeHeader (take 16 (Encode [] ok_reply 7 ReplyTypeNone).1)).1 = false.
Proof. cbv zeta. repeat split; vm_compute; reflexivity. Qed.

(** That reply takes 49 bytes as an OP_REPLY, 34 as an OP_MSG and none for
    the envelope [None]. *)
Example Encode_ok_reply_lengths :
  length (Encode [] ok_reply 7 ReplyTypeOpReply).1 = 49%nat ∧
  length (Encode [] ok_reply 7 ReplyTypeOpMsg).1 = 34%nat ∧
  Encode [] ok_reply 7 ReplyTypeNone = ([], Ok tt).
Proof. repeat split; vm_compute; reflexivity. Qed.

(** C10, witness: [{ok: 1}] sent as an OP_MSG to request 7. *)
Lemma Encode_requestID_zero_witness :
  ReplyTypeOpMsg ≠ ReplyTypeNone ∧
  int32_range 7 ∧
  Encode [] ok_reply 7 ReplyTypeOpMsg
  = ((Encode [] ok_reply 7 ReplyTypeOpMsg).1, Ok tt) ∧
  ∃ out hdr,
    (Encode [] ok_reply 7 ReplyTypeOpMsg).1 = [] ++ out ∧
    decodeHeader (take 16 out) = (Ok hdr, []) ∧
    RequestID hdr = 0 ∧
    ResponseTo hdr = 7.
Proof.
  assert (Henv : ReplyTypeOpMsg ≠ ReplyTypeNone) by done.
  assert (Hrid : int32_range 7) by (unfold int32_range; lia).
  assert (Henc : Encode [] ok_reply 7 ReplyTypeOpMsg
                 = ((Encode [] ok_reply 7 ReplyTypeOpMsg).1, Ok tt))
    by (vm_compute; reflexivity).
  repeat (split; [assumption |]).
  exact (Encode_requestID_zero [] _ ok_reply 7 ReplyTypeOpMsg Henv Hrid Henc).
Defined.

(** C9, witness: an OP_KILL_CURSORS frame that announces -1 cursor ids. *)
Lemma Decode_killCursors_negative_panics_witness :
  - 2 ^ 31 <= -1 < 0 ∧
  Decode (le_split 4 24 ++ le_split 4 1 ++ le_split 4 0 ++ le_split 4 2007
          ++ le_split 4 0 ++ le_split 4 (-1) ++ [])
  = Panic "runtime error: makeslice: len out of range".
Proof.
  assert (Hn : - 2 ^ 31 <= -1 < 0) by lia.
  split; [exact Hn |].
  exact (Decode_killCursors_negative_panics 24 1 0 0 (-1) [] Hn).
Defined.

(** With no cursor id announced the frame decodes. *)
Example Decode_killCursors_empty :
  Decode (frame 1 2007 (le_split 4 0 ++ le_split 4 0))
  = Ok (KillCursorsRequest
          (mkRequestInfo (mkRPCHeader 24 1 0 2007) RequestTypeKillCursors ReplyTypeNone) []).
Proof. vm_compute. reflexivity. Qed.

(** C3, witness and failing input: an OP_MSG with the checksum bit set, one
    body section and a trailing CRC-32C. *)
Lemma Decode_msg_checksum_flag_fails_witness :
  Z.land (to_uint32 1) 1 = 1 ∧
  is_Ok (Decode (le_split 4 54 ++ le_split 4 1 ++ le_split 4 0 ++ le_split 4 2013
                 ++ le_split 4 1 ++ (ping_section ++ le_split 4 3735928559))) = false.
Proof.
  assert (Hbit : Z.land (to_uint32 1) 1 = 1) by reflexivity.
  split; [exact Hbit |].
  exact (Decode_msg_checksum_flag_fails 54 1 0 1 _ Hbit).
Defined.

(** The same message without the checksum bit and checksum decodes; with
    them, the first checksum byte is taken for a section kind. *)
Example Decode_msg_with_and_without_checksum :
  Decode (frame 1 2013 (le_split 4 0 ++ ping_section))
  = Ok (CommandRequest
          (mkCommandRequest
             (mkRequestInfo (mkRPCHeader 50 1 0 2013) RequestTypeCommand ReplyTypeOpMsg)
             (mkNamespacedCollection "test" "") "ping" ∅)) ∧
  Decode (frame 1 2013 (le_split 4 1 ++ ping_section ++ le_split 4 3735928559))
  = Err (Errorf "unknown type 239 for section at index 1 in msg op").
Proof. split; vm_compute; reflexivity. Qed.

(** C5, failing input: an OP_MSG with two body sections, [{ping: 1, $db:
    "test"}] and then [{isMaster: 1, $db: "admin"}].  It is decoded, as
    the command of the last body. *)
Theorem Decode_msg_two_bodies_accepted :
  Decode (frame 1 2013
            (le_split 4 0 ++ ping_section
             ++ [x00] ++ doc [("isMaster", VInt 1); ("$db", VString "admin")]))
  = Ok (CommandRequest
          (mkCommandRequest
             (mkRequestInfo (mkRPCHeader 85 1 0 2013) RequestTypeCommand ReplyTypeOpMsg)
             (mkNamespacedCollection "admin" "") "isMaster" ∅)).
Proof. vm_compute. reflexivity. Qed.

(** The other constraints on sections are enforced: no body, two document
    sequences, a dotted path. *)
Example Decode_msg_rejections :
  let seq (path : string) :=
    [x01] ++ le_split 4 (4 + Z.of_nat (length (cstr path)) + 12)
    ++ cstr path ++ doc [("a", VInt 1)] in
  Decode (frame 1 2013 (le_split 4 0 ++ seq "documents"))
  = Err (Errorf "unable to parse msg op: no type 0 section present") ∧
  Decode (frame 1 2013 (le_split 4 0 ++ ping_section ++ seq "documents" ++ seq "more"))
  = Err (Errorf "unable to parse msg op: parser only supports up to one section of type 1") ∧
  Decode (frame 1 2013 (le_split 4 0 ++ ping_section ++ seq "a.b"))
  = Err (Errorf "unable to parse msg op: parser does not support nested paths for type 1 payloads").
Proof. cbv zeta. repeat split; vm_compute; reflexivity. Qed.

(** C4, witness: that command in an OP_QUERY on [admin.$cmd]. *)
Lemma Decode_query_command_type_witness :
  let ns := go_bytes "admin.$cmd" in
  let docSize := Z.of_nat (length (doc insert_cmd)) in
  let docBody := drop 4 (doc insert_cmd) in
  let req := InsertRequest
               (mkRequestInfo (mkRPCHeader 92 1 0 2004) RequestTypeInsert ReplyTypeOpReply)
               (mkNamespacedCollection "admin" "coll") 0 [ <["a" := VInt 1]> ∅ ] in
  strings_SplitN_dot (go_string ns) = Some ("admin", "$cmd") ∧
  bson_Unmarshal (le_split 4 docSize ++ docBody) = Ok insert_cmd ∧
  Decode (le_split 4 92 ++ le_split 4 1 ++ le_split 4 0 ++ le_split 4 2004
          ++ le_split 4 0 ++ ns ++ x00 :: le_split 4 0
          ++ le_split 4 (-1) ++ le_split 4 docSize ++ docBody ++ []) = Ok req ∧
  GetType req ∈ semantic_types "insert" ∧ GetType req ≠ RequestTypeCommand.
Proof.
  cbv zeta.
  assert (Hns : Forall (fun c => Byte.eqb c x00 = false) (go_bytes "admin.$cmd"))
    by (repeat constructor).
  assert (Hml : int32_range 92) by (unfold int32_range; lia).
  assert (Hlen : Z.of_nat (length (go_bytes "admin.$cmd")) < 92 - 20)
    by (vm_compute; reflexivity).
  assert (Hsplit : strings_SplitN_dot (go_string (go_bytes "admin.$cmd"))
                   = Some ("admin", "$cmd")) by reflexivity.
  assert (Hdb : "admin" ≠ "") by done.
  assert (Hsize : 4 < Z.of_nat (length (doc insert_cmd)) < 2 ^ 31)
    by (vm_compute; split; reflexivity).
  assert (Hbody : Z.of_nat (length (drop 4 (doc insert_cmd)))
                  = Z.of_nat (length (doc insert_cmd)) - 4) by (vm_compute; reflexivity).
  assert (Hunm : bson_Unmarshal (le_split 4 (Z.of_nat (length (doc insert_cmd)))
                                 ++ drop 4 (doc insert_cmd))
                 = Ok (("insert", VString "coll")
                       :: [("documents", VSlice [VDoc [("a", VInt 1)]])]))
    by (vm_compute; reflexivity).
  assert (Hcmd : "insert" ∈ ["insert"; "update"; "delete"; "find"; "findAndModify"])
    by apply list_elem_of_here.
  assert (Hdec : Decode (le_split 4 92 ++ le_split 4 1 ++ le_split 4 0 ++ le_split 4 2004
                         ++ le_split 4 0 ++ go_bytes "admin.$cmd" ++ x00 :: le_split 4 0
                         ++ le_split 4 (-1)
                         ++ le_split 4 (Z.of_nat (length (doc insert_cmd)))
                         ++ drop 4 (doc insert_cmd) ++ [])
                 = Ok (InsertRequest
                         (mkRequestInfo (mkRPCHeader 92 1 0 2004) RequestTypeInsert
                            ReplyTypeOpReply)
                         (mkNamespacedCollection "admin" "coll") 0 [ <["a" := VInt 1]> ∅ ]))
    by (vm_compute; reflexivity).
  split; [exact Hsplit |]. split; [exact Hunm |]. split; [exact Hdec |].
  exact (Decode_query_command_type 92 1 0 0 0 (-1) _ _ _ [] "admin" "insert" _ _ _
           Hns Hml Hlen Hsplit Hdb Hsize Hbody Hunm Hcmd Hdec).
Defined.

(** C4, counterexample: the same command on the namespace [a.b.$cmd], which
    ends in [.$cmd].  The collection is what follows the first dot,
    [b.$cmd], so the frame is decoded as a plain query. *)
Lemma Decode_query_dotted_cmd_namespace :
  Decode (frame 1 2004 (le_split 4 0 ++ cstr "a.b.$cmd" ++ le_split 4 0
                        ++ le_split 4 (-1) ++ doc insert_cmd))
  = Ok (QueryRequest
          (mkRequestInfo (mkRPCHeader 90 1 0 2004) RequestTypeQuery ReplyTypeOpReply)
          (mkNamespacedCollection "a" "b.$cmd") 0 0 (-1) (D_Map insert_cmd) ∅ ∅).
Proof. vm_compute. reflexivity. Qed.

(** [findAndModify] is an update or a delete, or fails without either. *)
Example Decode_query_findAndModify :
  let cmd (fields : D) :=
    frame 1 2004 (le_split 4 0 ++ cstr "db.$cmd" ++ le_split 4 0 ++ le_split 4 (-1)
                  ++ doc (("findAndModify", VString "c") :: fields)) in
  (req ← Decode (cmd [("remove", VBool true)]); Ok (GetType req))
  = Ok RequestTypeFindAndDelete ∧
  (req ← Decode (cmd [("update", VDoc [("a", VInt 2)])]); Ok (GetType req))
  = Ok RequestTypeFindAndUpdate ∧
  Decode (cmd [])
  = Err (Errorf "findAndModify command missing update document in arg list").
Proof. cbv zeta. repeat split; vm_compute; reflexivity. Qed.

(** C7, failing input.  The backend rejects an OP_INSERT of client [c1]:
    nothing is written and the error is buffered.  The same client then
    sends [getLastError]: no handler is registered for it, the reply says
    that the command is unsupported, and the buffered error is dropped
    without having been read. *)
Theorem getLastError_misses_buffered_error :
  let '(emu1, w1, ret1) :=
    HandleRequest (backend := picky) 0 (emulator picky tt) "c1" [] insert_frame in
  let '(emu2, w2, ret2) :=
    HandleRequest (backend := picky) 1 emu1 "c1" w1 getLastError_frame in
  lastError emu1 !! "c1" = Some (Some duplicate_key) ∧
  w1 = [] ∧ ret1 = Ok tt ∧
  (w2, ret2)
  = Encode [] (toErrorResponse
                 (Wrapf ("command " +:+ Quote "getLastError") ErrUnsupportedRequest)
                 ReplyTypeOpReply) 2 ReplyTypeOpReply ∧
  lastError emu2 !! "c1" = Some None ∧
  cmdHandlers emu1 !! ToUpper "getLastError" = None.
Proof. vm_compute. repeat split; reflexivity. Qed.

(** A built-in command end to end, with the dummy backend: the OP_MSG
    [{replSetGetStatus: 1, $db: "test"}] of request 5 is answered by an
    OP_MSG of 144 bytes whose document carries the server error. *)
Example replSetGetStatus_on_test_database :
  let request := frame 5 2013 (le_split 4 0 ++ [x00]
                               ++ doc [("replSetGetStatus", VInt 1); ("$db", VString "test")]) in
  let written := (HandleRequest (backend := dummy) 0 (emulator dummy tt) "c1" [] request).1.2 in
  decodeHeader (take 16 written) = (Ok (mkRPCHeader 144 0 5 2013), []) ∧
  Unmarshal (drop 21 written)
  = Ok [("ok", VInt 0); ("codeName", VString "Unauthorized"); ("code", VInt 13);
        ("errmsg", VString "replSetGetStatus may only be run against the admin database.")].
Proof. cbv zeta. split; vm_compute; reflexivity. Qed.

(** [isMaster] sent in an OP_QUERY on [admin.$cmd] is answered by an
    OP_REPLY to that request. *)
Example isMaster_in_query :
  let request := frame 468 2004 (le_split 4 0 ++ cstr "admin.$cmd" ++ le_split 4 0
                                 ++ le_split 4 (-1) ++ doc [("isMaster", VInt 1)]) in
  let written := (HandleRequest (backend := dummy) 0 (emulator dummy tt) "c1" [] request).1.2 in
  decodeHeader (take 16 written) = (Ok (mkRPCHeader 234 0 468 1), []) ∧
  (d ← Unmarshal (drop 36 written); Ok (D_Map d !! "ismaster", D_Map d !! "connectionId"))
  = Ok (Some (VBool true), Some (VString "c1")).
Proof. cbv zeta. split; vm_compute; reflexivity. Qed.

End Examples.

(** * More examples *)

Module MoreExamples.
Import Model Frames.

Import MoreFrames.

Lemma Decode_header_and_envelope_witness :
  ∃ payload,
    decodeHeader getMore_frame = (Ok (mkRPCHeader 42 3 0 2005), payload) ∧
    ReplyTypeOpReply = reply_envelope 2005.
Proof.
  assert (Hdec : Decode getMore_frame
                 = Ok (GetMoreRequest
                         (mkRequestInfo (mkRPCHeader 42 3 0 2005) RequestTypeGetMore
                            ReplyTypeOpReply)
                         (mkNamespacedCollection "test" "coll") 10 42))
    by (vm_compute; reflexivity).
  exact (Decode_header_and_envelope getMore_frame _ Hdec).
Defined.

Lemma Decode_unknown_opcode_witness :
  Decode (le_split 4 18 ++ le_split 4 1 ++ le_split 4 0 ++ le_split 4 1 ++ [x01; x02])
  = Ok (UnknownRequest
          (mkRequestInfo
             (mkRPCHeader (to_int32 (to_uint32 18)) (to_int32 (to_uint32 1))
                (to_int32 (to_uint32 0)) 1)
             RequestTypeUnknown ReplyTypeNone)
          [x01; x02]).
Proof.
  assert (Hop : int32_range 1) by (unfold int32_range; lia).
  assert (Hnot : 1 ∉ [2001; 2002; 2004; 2005; 2006; 2007; 2013])
    by (rewrite !not_elem_of_cons; repeat split; (lia || apply not_elem_of_nil)).
  exact (Decode_unknown_opcode 18 1 0 1 [x01; x02] Hop Hnot).
Defined.

Lemma Decode_short_header_witness :
  ∃ field err,
    Decode (take 6 getMore_frame)
    = Err (Wrapf "unable to decode request header" (Wrapf field err)) ∧
    err = (if (length (take 6 getMore_frame) mod 4 =? 0)%nat
           then io_EOF else io_ErrUnexpectedEOF).
Proof.
  assert (Hlen : (length (take 6 getMore_frame) < 16)%nat) by (vm_compute; lia).
  exact (Decode_short_header (take 6 getMore_frame) Hlen).
Defined.

Lemma decodeCString_no_terminator_witness :
  ∃ err r', decodeCString 2 (go_bytes "abc" ++ [x00]) = (Err err, r').
Proof.
  assert (Hnz : Forall (fun c => Byte.eqb c x00 = false)
                  (take (Z.to_nat 2) (go_bytes "abc" ++ [x00])))
    by (vm_compute; repeat constructor).
  exact (decodeCString_no_terminator 2 (go_bytes "abc" ++ [x00]) Hnz).
Defined.

Lemma decodeNamespacedCollection_inv_witness :
  cstr "test.coll" ++ [x01]
  = go_bytes (NamespacedCollection_String (mkNamespacedCollection "test" "coll"))
    ++ x00 :: [x01] ∧
  Database (mkNamespacedCollection "test" "coll") ≠ "" ∧
  Collection (mkNamespacedCollection "test" "coll") ≠ "" ∧
  strings_ContainsRune_dot (Database (mkNamespacedCollection "test" "coll")) = false.
Proof.
  assert (Hdec : decodeNamespacedCollection 100 (cstr "test.coll" ++ [x01])
                 = (Ok (mkNamespacedCollection "test" "coll"), [x01]))
    by (vm_compute; reflexivity).
  exact (decodeNamespacedCollection_inv 100 _ _ _ Hdec).
Defined.

Lemma decodeNamespacedCollection_String_witness :
  decodeNamespacedCollection 100
    (go_bytes (NamespacedCollection_String (mkNamespacedCollection "test" "coll"))
     ++ x00 :: [x01])
  = (Ok (mkNamespacedCollection "test" "coll"), [x01]).
Proof.
  assert (Hdb : Database (mkNamespacedCollection "test" "coll") ≠ "") by done.
  assert (Hcol : Collection (mkNamespacedCollection "test" "coll") ≠ "") by done.
  assert (Hdot : strings_ContainsRune_dot (Database (mkNamespacedCollection "test" "coll"))
                 = false) by reflexivity.
  assert (Hnz : Forall (fun b => Byte.eqb b x00 = false)
                  (go_bytes (NamespacedCollection_String
                               (mkNamespacedCollection "test" "coll"))))
    by (vm_compute; repeat constructor).
  assert (Hlen : Z.of_nat (length (go_bytes (NamespacedCollection_String
                                               (mkNamespacedCollection "test" "coll"))))
                 < 100) by (vm_compute; reflexivity).
  exact (decodeNamespacedCollection_String 100 _ [x01] Hdb Hcol Hdot Hnz Hlen).
Defined.

Lemma decodeBSONDocument_inv_witness :
  ∃ docSize : Z,
    4 <= docSize < 2 ^ 31 ∧
    take 4 (doc [("a", VInt 1)] ++ [x01]) = le_split 4 docSize ∧
    docSize <= Z.of_nat (length (doc [("a", VInt 1)] ++ [x01])) ∧
    [x01] = drop (Z.to_nat docSize) (doc [("a", VInt 1)] ++ [x01]) ∧
    if docSize =? 4 then [("a", VInt 1)] = []
    else bson_Unmarshal (take (Z.to_nat docSize) (doc [("a", VInt 1)] ++ [x01]))
         = Ok [("a", VInt 1)].
Proof.
  assert (Hdec : decodeBSONDocument (doc [("a", VInt 1)] ++ [x01])
                 = (Ok [("a", VInt 1)], [x01])) by (vm_compute; reflexivity).
  exact (decodeBSONDocument_inv _ _ _ Hdec).
Defined.

Lemma Decode_insert_documents_witness :
  Decode (le_split 4 46 ++ le_split 4 1 ++ le_split 4 0 ++ le_split 4 2002
          ++ le_split 4 0
          ++ go_bytes (NamespacedCollection_String (mkNamespacedCollection "test" "coll"))
          ++ x00
          :: concat (fst <$> [(doc [("a", VInt 1)], [("a", VInt 1)])]) ++ le_split 4 12)
  = Ok (InsertRequest
          (mkRequestInfo (mkRPCHeader 46 1 0 2002) RequestTypeInsert ReplyTypeNone)
          (mkNamespacedCollection "test" "coll") (to_uint32 0)
          (D_Map <$> (snd <$> [(doc [("a", VInt 1)], [("a", VInt 1)])]))).
Proof.
  assert (Hml : int32_range 46) by (unfold int32_range; lia).
  assert (Hrid : int32_range 1) by (unfold int32_range; lia).
  assert (Hrto : int32_range 0) by (unfold int32_range; lia).
  assert (Hdb : Database (mkNamespacedCollection "test" "coll") ≠ "") by done.
  assert (Hcol : Collection (mkNamespacedCollection "test" "coll") ≠ "") by done.
  assert (Hdot : strings_ContainsRune_dot (Database (mkNamespacedCollection "test" "coll"))
                 = false) by reflexivity.
  assert (Hnz : Forall (fun b => Byte.eqb b x00 = false)
                  (go_bytes (NamespacedCollection_String
                               (mkNamespacedCollection "test" "coll"))))
    by (vm_compute; repeat constructor).
  assert (Hlen : Z.of_nat (length (go_bytes (NamespacedCollection_String
                                               (mkNamespacedCollection "test" "coll"))))
                 < 46 - 20) by (vm_compute; reflexivity).
  assert (Hdocs : Forall (fun p => 4 < Z.of_nat (length p.1) < 2 ^ 31 ∧
                                   take 4 p.1 = le_split 4 (Z.of_nat (length p.1)) ∧
                                   bson_Unmarshal p.1 = Ok p.2)
                    [(doc [("a", VInt 1)], [("a", VInt 1)])])
    by (repeat constructor; vm_compute; reflexivity).
  assert (Htail : le_split 4 12 = [] ∨ (∃ size, 4 < size < 2 ^ 31 ∧ le_split 4 12 = le_split 4 size))
    by (right; exists 12; split; [lia | reflexivity]).
  exact (Decode_insert_documents 46 1 0 0 _ _ _ Hml Hrid Hrto Hdb Hcol Hdot Hnz Hlen
           Hdocs Htail).
Defined.

Lemma Decode_killCursors_ids_witness :
  Decode (le_split 4 40 ++ le_split 4 1 ++ le_split 4 0 ++ le_split 4 2007
          ++ le_split 4 0 ++ le_split 4 (Z.of_nat (length [42; -1]))
          ++ concat (le_split 8 <$> [42; -1]) ++ [x01])
  = Ok (KillCursorsRequest
          (mkRequestInfo (mkRPCHeader 40 1 0 2007) RequestTypeKillCursors ReplyTypeNone)
          [42; -1]).
Proof.
  assert (Hml : int32_range 40) by (unfold int32_range; lia).
  assert (Hrid : int32_range 1) by (unfold int32_range; lia).
  assert (Hrto : int32_range 0) by (unfold int32_range; lia).
  assert (Hlen : Z.of_nat (length [42; -1]) < 2 ^ 31) by (vm_compute; reflexivity).
  assert (Hids : Forall (fun id => - 2 ^ 63 <= id < 2 ^ 63) [42; -1])
    by (repeat constructor; lia).
  exact (Decode_killCursors_ids 40 1 0 0 [42; -1] [x01] Hml Hrid Hrto Hlen Hids).
Defined.

Lemma Encode_OpReply_layout_witness :
  Encode [x01] ok_reply 7 ReplyTypeOpReply
  = ([x01] ++ le_split 4 (to_uint32 (36 + Z.of_nat (length (concat [doc [("ok", VInt 1)]]))))
       ++ le_split 4 0 ++ le_split 4 7 ++ le_split 4 1
       ++ le_split 4 (resp_Flags ok_reply) ++ le_split 8 (resp_CursorID ok_reply)
       ++ le_split 4 (resp_StartingFrom ok_reply)
       ++ le_split 4 (to_int32 (Z.of_nat (length (Documents ok_reply))))
       ++ concat [doc [("ok", VInt 1)]],
     Ok tt).
Proof.
  assert (Hdocs : Forall2 (fun d docData => bson_Marshal d = Ok docData)
                    (Documents ok_reply) [doc [("ok", VInt 1)]])
    by (repeat constructor; vm_compute; reflexivity).
  exact (Encode_OpReply_layout [x01] ok_reply 7 _ Hdocs).
Defined.

Lemma Encode_OpMsg_layout_witness :
  Encode [x01] ok_reply 7 ReplyTypeOpMsg
  = ([x01] ++ le_split 4 (to_uint32 (21 + Z.of_nat (length (concat [doc [("ok", VInt 1)]]))))
       ++ le_split 4 0 ++ le_split 4 7 ++ le_split 4 2013
       ++ le_split 4 0 ++ [x00] ++ concat [doc [("ok", VInt 1)]],
     Ok tt).
Proof.
  assert (Hlen : (length (Documents ok_reply) <= 1)%nat) by (vm_compute; lia).
  assert (Hdocs : Forall2 (fun d docData => bson_Marshal d = Ok docData)
                    (Documents ok_reply) [doc [("ok", VInt 1)]])
    by (repeat constructor; vm_compute; reflexivity).
  exact (Encode_OpMsg_layout [x01] ok_reply 7 _ Hlen Hdocs).
Defined.

Lemma Encode_OpMsg_many_documents_witness :
  Encode [x01] (mkResponse 0 42 0 [∅; ∅]) 7 ReplyTypeOpMsg
  = ([x01], Err (Wrapf "unable to serialize reply body"
                   (Errorf "OP_MSG payloads with multiple documents are not supported"))).
Proof.
  assert (Hlen : (1 < length (Documents (mkResponse 0 42 0 [∅; ∅])))%nat)
    by (cbn; lia).
  exact (Encode_OpMsg_many_documents [x01] _ 7 Hlen).
Defined.

Lemma writeHeaderTo_decodeHeader_witness :
  ∃ bytes, writeHeaderTo [x01] (mkRPCHeader 42 3 (-1) 2005) = Ok ([x01] ++ bytes) ∧
           length bytes = 16%nat ∧
           decodeHeader (bytes ++ [x02])
           = (Ok (mkRPCHeader 42 3 (-1) 2005), [x02]).
Proof.
  assert (Hml : int32_range (MessageLength (mkRPCHeader 42 3 (-1) 2005)))
    by (unfold int32_range; cbn; lia).
  assert (Hrid : int32_range (RequestID (mkRPCHeader 42 3 (-1) 2005)))
    by (unfold int32_range; cbn; lia).
  assert (Hrto : int32_range (ResponseTo (mkRPCHeader 42 3 (-1) 2005)))
    by (unfold int32_range; cbn; lia).
  assert (Hop : int32_range (Opcode (mkRPCHeader 42 3 (-1) 2005)))
    by (unfold int32_range; cbn; lia).
  exact (writeHeaderTo_decodeHeader [x01] [x02] _ Hml Hrid Hrto Hop).
Defined.

Lemma bufferNextRequest_truncated_witness :
  ∃ err rest, bufferNextRequest [] (take 30 getMore_frame) = (Err err, rest) ∧
              xerrors_Is err io_EOF = true.
Proof.
  assert (Hshort : Z.of_nat (length (take 30 getMore_frame))
                   < Z.max 16 (frame_messageLength (take 30 getMore_frame)))
    by (vm_compute; reflexivity).
  exact (bufferNextRequest_truncated [] _ Hshort).
Defined.

Lemma Encode_reply_is_one_frame_witness :
  ∃ out, (Encode [x01] ok_reply 7 ReplyTypeOpMsg).1 = [x01] ++ out ∧
         ∀ b rest, bufferNextRequest b (out ++ rest) = (Ok out, rest).
Proof.
  assert (Henv : ReplyTypeOpMsg ≠ ReplyTypeNone) by done.
  assert (Henc : Encode [x01] ok_reply 7 ReplyTypeOpMsg
                 = ((Encode [x01] ok_reply 7 ReplyTypeOpMsg).1, Ok tt))
    by (vm_compute; reflexivity).
  assert (Hlen : Z.of_nat (length (Encode [x01] ok_reply 7 ReplyTypeOpMsg).1)
                 - Z.of_nat (length [x01]) < 2 ^ 32)
    by (vm_compute; reflexivity).
  exact (Encode_reply_is_one_frame [x01] _ ok_reply 7 ReplyTypeOpMsg Henv Henc Hlen).
Defined.

Lemma handleConn_step_witness :
  let handler := MongoEmulator_handler picky 0 in
  handleConn (reqHandler := handler) (emulator picky tt) "c1" [] (getMore_frame ++ insert_frame)
  = (match proxy_HandleRequest (emulator picky tt) "c1" [] getMore_frame with
     | (s', w', Ok _) => handleConn (reqHandler := handler) s' "c1" w' insert_frame
     | (s', w', Err err) => (s', w', insert_frame, Err err)
     | (s', w', Panic m) => (s', w', insert_frame, Panic m)
     end) ∧
  handleConn (reqHandler := handler) (emulator picky tt) "c1" [] []
  = (emulator picky tt, [], [],
     Err (Wrapf "unable to read next request header" io_EOF)).
Proof.
  assert (Hmin : 16 <= frame_messageLength getMore_frame) by (vm_compute; discriminate).
  assert (Hlen : Z.of_nat (length getMore_frame) = frame_messageLength getMore_frame)
    by (vm_compute; reflexivity).
  exact (handleConn_step (reqHandler := MongoEmulator_handler picky 0)
           (emulator picky tt) "c1" [] getMore_frame insert_frame Hmin Hlen).
Defined.

Lemma RemoteMongo_HandleRequest_relays_witness :
  RemoteMongo_HandleRequest (mkRemoteMongo [] (ok_reply_frame ++ [x01]) []) [] getMore_frame
  = (mkRemoteMongo ([] ++ getMore_frame) [x01] [], [] ++ ok_reply_frame, Ok tt).
Proof.
  assert (Hmin : 16 <= frame_messageLength ok_reply_frame) by (vm_compute; discriminate).
  assert (Hlen : Z.of_nat (length ok_reply_frame) = frame_messageLength ok_reply_frame)
    by (vm_compute; reflexivity).
  exact (RemoteMongo_HandleRequest_relays (mkRemoteMongo [] (ok_reply_frame ++ [x01]) [])
           [] getMore_frame ok_reply_frame [x01] Hmin Hlen eq_refl).
Defined.

Lemma Recorder_HandleRequest_records_witness :
  let remote := mkRemoteMongo [] ok_reply_frame [] in
  Recorder_HandleRequest (H := RemoteMongo_handler) (NewRecorder [] [] remote) [] getMore_frame
  = (mkRecorder ([] ++ le_split 4 (Z.of_nat (length getMore_frame)) ++ getMore_frame)
       (if is_Ok (Ok tt : Res unit)
        then [] ++ le_split 4 (Z.of_nat (length ok_reply_frame)) ++ ok_reply_frame
        else [])
       ok_reply_frame (mkRemoteMongo getMore_frame [] []),
     if is_Ok (Ok tt : Res unit) then [] ++ ok_reply_frame else [],
     Ok tt).
Proof.
  assert (Hr : Z.of_nat (length getMore_frame) < 2 ^ 31) by (vm_compute; reflexivity).
  assert (Hh : handler_HandleRequest (handler_RequestHandler := RemoteMongo_handler)
                 (wrappedHandler (NewRecorder [] [] (mkRemoteMongo [] ok_reply_frame [])))
                 [] getMore_frame
               = (mkRemoteMongo getMore_frame [] [], ok_reply_frame, Ok tt))
    by (vm_compute; reflexivity).
  assert (Hout : is_Ok (Ok tt : Res unit) = true -> Z.of_nat (length ok_reply_frame) < 2 ^ 31)
    by (intros _; vm_compute; reflexivity).
  exact (Recorder_HandleRequest_records (H := RemoteMongo_handler)
           (NewRecorder [] [] (mkRemoteMongo [] ok_reply_frame [])) [] getMore_frame
           ok_reply_frame _ _ Hr Hh Hout).
Defined.

Lemma HandleRequest_reply_answers_request_witness :
  let result := HandleRequest (backend := picky) 0 (emulator picky tt) "c1" [] getMore_frame in
  ∃ reqHdr payload out hdr body,
    decodeHeader getMore_frame = (Ok reqHdr, payload) ∧
    Opcode reqHdr ∈ [2004; 2005; 2013] ∧
    result.2 = Ok tt ∧
    result.1.2 = [] ++ out ∧
    decodeHeader out = (Ok hdr, body) ∧
    ResponseTo hdr = RequestID reqHdr ∧
    RequestID hdr = 0 ∧
    Opcode hdr = (if decide (Opcode reqHdr = 2013) then 2013 else 1).
Proof.
  cbv zeta.
  assert (Hhandle : HandleRequest (backend := picky) 0 (emulator picky tt) "c1" []
                      getMore_frame
                    = ((HandleRequest (backend := picky) 0 (emulator picky tt) "c1" []
                          getMore_frame).1.1,
                       (HandleRequest (backend := picky) 0 (emulator picky tt) "c1" []
                          getMore_frame).1.2,
                       (HandleRequest (backend := picky) 0 (emulator picky tt) "c1" []
                          getMore_frame).2))
    by (by destruct (HandleRequest _ _ _ _ _) as [[? ?] ?]).
  assert (Hw : (HandleRequest (backend := picky) 0 (emulator picky tt) "c1" []
                  getMore_frame).1.2 ≠ [])
    by (vm_compute; discriminate).
  exact (HandleRequest_reply_answers_request (backend := picky) 0 _ _ "c1" [] _
           getMore_frame _ Hhandle Hw).
Defined.

Lemma builtin_commands_by_upper_case_witness :
  let c := mkCommandRequest
             (mkRequestInfo (mkRPCHeader 58 1 0 2004) RequestTypeCommand ReplyTypeOpReply)
             (mkNamespacedCollection "admin" "$cmd") "ismaster" (∅ : M) in
  (∀ name h,
     (name, h) ∈ [("isMaster", handleIsMaster (B := unit));
                  ("whatsMyUri", handleWhatsMyURI);
                  ("buildInfo", handleBuildInfo);
                  ("replSetGetStatus", handleReplSetGetStatus);
                  ("getLog", handleGetLog (backend := picky))] ->
     strings_ToUpper (Command c) = strings_ToUpper name ->
     maybeProcessClientCommand 0 (registerCommandHandlers (backend := picky) (emulator picky tt)) "c1" c
     = h 0 (b (emulator picky tt)) "c1" c) ∧
  (strings_ToUpper (Command c) ∉
     (strings_ToUpper <$>
        ["isMaster"; "whatsMyUri"; "buildInfo"; "replSetGetStatus"; "getLog"]) ->
   maybeProcessClientCommand 0 (registerCommandHandlers (backend := picky) (emulator picky tt)) "c1" c
   = Err (Wrapf ("command " +:+ fmt_q (Command c)) ErrUnsupportedRequest)).
Proof.
  cbv zeta.
  assert (Hdup : NoDup (strings_ToUpper <$>
                          ["isMaster"; "whatsMyUri"; "buildInfo"; "replSetGetStatus";
                           "getLog"]))
    by (refine (bool_decide_unpack _ _); vm_compute; exact I).
  exact (builtin_commands_by_upper_case (backend := picky) 0 (emulator picky tt) "c1" _ Hdup).
Defined.

Lemma decodeMsgOp_Ok_sections_witness :
  ∃ flags r1 bodySection docSeqSections,
    binary_Read_uint32 ping_msg = (Ok flags, r1) ∧
    readAllSections r1 = (Ok (bodySection, docSeqSections), []) ∧
    bodySection ≠ [] ∧
    (length docSeqSections <= 1)%nat ∧
    Forall (fun sec => strings_ContainsRune_dot (path sec) = false) docSeqSections.
Proof.
  assert (Hdec : decodeMsgOp (mkRPCHeader 50 1 0 2013) ping_msg
                 = (Ok (CommandRequest
                          (mkCommandRequest
                             (mkRequestInfo (mkRPCHeader 50 1 0 2013) RequestTypeCommand
                                ReplyTypeOpMsg)
                             (mkNamespacedCollection "test" "") "ping" ∅)), []))
    by (vm_compute; reflexivity).
  exact (decodeMsgOp_Ok_sections _ _ _ _ Hdec).
Defined.

Lemma Decode_query_collection_witness :
  Decode (le_split 4 50 ++ le_split 4 1 ++ le_split 4 0 ++ le_split 4 2004
          ++ le_split 4 0
          ++ go_bytes (NamespacedCollection_String (mkNamespacedCollection "test" "coll"))
          ++ x00
          :: le_split 4 0 ++ le_split 4 (-1)
          ++ (doc [("a", VInt 1)], [("a", VInt 1)]).1 ++ from_option fst [] (@None (list byte * D)))
  = Ok (QueryRequest
          (mkRequestInfo (mkRPCHeader 50 1 0 2004) RequestTypeQuery ReplyTypeOpReply)
          (mkNamespacedCollection "test" "coll") (to_uint32 0) 0 (-1)
          (D_Map (doc [("a", VInt 1)], [("a", VInt 1)]).2) ∅
          (D_Map (from_option snd [] (@None (list byte * D))))).
Proof.
  assert (Hml : int32_range 50) by (unfold int32_range; lia).
  assert (Hrid : int32_range 1) by (unfold int32_range; lia).
  assert (Hrto : int32_range 0) by (unfold int32_range; lia).
  assert (Hret : int32_range (-1)) by (unfold int32_range; lia).
  assert (Hdb : Database (mkNamespacedCollection "test" "coll") ≠ "") by done.
  assert (Hcol : Collection (mkNamespacedCollection "test" "coll") ≠ "") by done.
  assert (Hcmd : Collection (mkNamespacedCollection "test" "coll") ≠ "$cmd") by done.
  assert (Hdot : strings_ContainsRune_dot (Database (mkNamespacedCollection "test" "coll"))
                 = false) by reflexivity.
  assert (Hnz : Forall (fun b => Byte.eqb b x00 = false)
                  (go_bytes (NamespacedCollection_String
                               (mkNamespacedCollection "test" "coll"))))
    by (vm_compute; repeat constructor).
  assert (Hlen : Z.of_nat (length (go_bytes (NamespacedCollection_String
                                               (mkNamespacedCollection "test" "coll"))))
                 < 50 - 20) by (vm_compute; reflexivity).
  assert (Hdocs : Forall (fun p => 4 < Z.of_nat (length p.1) < 2 ^ 31 ∧
                                   take 4 p.1 = le_split 4 (Z.of_nat (length p.1)) ∧
                                   bson_Unmarshal p.1 = Ok p.2)
                    ((doc [("a", VInt 1)], [("a", VInt 1)]) :: option_list (@None (list byte * D))))
    by (repeat constructor; vm_compute; reflexivity).
  exact (Decode_query_collection 50 1 0 0 0 (-1) _ _ (@None (list byte * D)) Hml Hrid Hrto Hrto Hret
           Hdb Hcol Hcmd Hdot Hnz Hlen Hdocs).
Defined.

Lemma Decode_delete_limit_witness :
  Decode (le_split 4 46 ++ le_split 4 1 ++ le_split 4 0 ++ le_split 4 2006
          ++ le_split 4 0
          ++ go_bytes (NamespacedCollection_String (mkNamespacedCollection "test" "coll"))
          ++ x00
          :: le_split 4 1 ++ (doc [("a", VInt 1)], [("a", VInt 1)]).1 ++ [])
  = Ok (DeleteRequest
          (mkRequestInfo (mkRPCHeader 46 1 0 2006) RequestTypeDelete ReplyTypeNone)
          (mkNamespacedCollection "test" "coll")
          [mkDeleteTarget (D_Map (doc [("a", VInt 1)], [("a", VInt 1)]).2)
             (if Z.testbit 1 0 then 1 else 0)]).
Proof.
  assert (Hml : int32_range 46) by (unfold int32_range; lia).
  assert (Hrid : int32_range 1) by (unfold int32_range; lia).
  assert (Hrto : int32_range 0) by (unfold int32_range; lia).
  assert (Hdb : Database (mkNamespacedCollection "test" "coll") ≠ "") by done.
  assert (Hcol : Collection (mkNamespacedCollection "test" "coll") ≠ "") by done.
  assert (Hdot : strings_ContainsRune_dot (Database (mkNamespacedCollection "test" "coll"))
                 = false) by reflexivity.
  assert (Hnz : Forall (fun b => Byte.eqb b x00 = false)
                  (go_bytes (NamespacedCollection_String
                               (mkNamespacedCollection "test" "coll"))))
    by (vm_compute; repeat constructor).
  assert (Hlen : Z.of_nat (length (go_bytes (NamespacedCollection_String
                                               (mkNamespacedCollection "test" "coll"))))
                 < 46 - 20) by (vm_compute; reflexivity).
  assert (Hsel : 4 < Z.of_nat (length (doc [("a", VInt 1)], [("a", VInt 1)]).1) < 2 ^ 31)
    by (vm_compute; split; reflexivity).
  assert (Hsize : take 4 (doc [("a", VInt 1)], [("a", VInt 1)]).1
                  = le_split 4 (Z.of_nat (length (doc [("a", VInt 1)], [("a", VInt 1)]).1)))
    by (vm_compute; reflexivity).
  assert (Hun : bson_Unmarshal (doc [("a", VInt 1)], [("a", VInt 1)]).1
                = Ok (doc [("a", VInt 1)], [("a", VInt 1)]).2)
    by (vm_compute; reflexivity).
  exact (Decode_delete_limit 46 1 0 0 1 _ _ [] Hml Hrid Hrto Hrid Hdb Hcol Hdot Hnz Hlen
           Hsel Hsize Hun).
Defined.

Lemma Decode_msg_insert_document_sequence_witness :
  Decode (le_split 4 84 ++ le_split 4 1 ++ le_split 4 0 ++ le_split 4 2013
          ++ le_split 4 0
          ++ x00 :: doc insert_body
          ++ x01 :: le_split 4 (14 + Z.of_nat (length (concat
                                   (fst <$> [(doc [("a", VInt 1)], [("a", VInt 1)])]))))
          ++ go_bytes "documents" ++ x00
          :: concat (fst <$> [(doc [("a", VInt 1)], [("a", VInt 1)])]))
  = Ok (InsertRequest
          (mkRequestInfo (mkRPCHeader 84 1 0 2013) RequestTypeInsert ReplyTypeOpMsg)
          (mkNamespacedCollection "test" "coll") 0
          (D_Map <$> (snd <$> [(doc [("a", VInt 1)], [("a", VInt 1)])]))).
Proof.
  assert (Hml : int32_range 84) by (unfold int32_range; lia).
  assert (Hrid : int32_range 1) by (unfold int32_range; lia).
  assert (Hrto : int32_range 0) by (unfold int32_range; lia).
  assert (Hflags : Z.land (to_uint32 0) 1 = 0) by reflexivity.
  assert (Hdb : "test" ≠ "") by done.
  assert (Hblen : 4 < Z.of_nat (length (doc insert_body)) < 2 ^ 31)
    by (vm_compute; split; reflexivity).
  assert (Hbsize : take 4 (doc insert_body)
                   = le_split 4 (Z.of_nat (length (doc insert_body))))
    by (vm_compute; reflexivity).
  assert (Hbun : bson_Unmarshal (doc insert_body)
                 = Ok [("insert", VString "coll"); ("$db", VString "test")])
    by (vm_compute; reflexivity).
  assert (Hdocs : Forall (fun p => 4 < Z.of_nat (length p.1) < 2 ^ 31 ∧
                                   take 4 p.1 = le_split 4 (Z.of_nat (length p.1)) ∧
                                   bson_Unmarshal p.1 = Ok p.2)
                    [(doc [("a", VInt 1)], [("a", VInt 1)])])
    by (repeat constructor; vm_compute; reflexivity).
  assert (Hsize : 14 + Z.of_nat (length (concat
                         (fst <$> [(doc [("a", VInt 1)], [("a", VInt 1)])]))) < 2 ^ 32)
    by (vm_compute; reflexivity).
  exact (Decode_msg_insert_document_sequence 84 1 0 0 "test" "coll" _ _ Hml Hrid Hrto
           Hflags Hdb Hblen Hbsize Hbun Hdocs Hsize).
Defined.

End MoreExamples.
